(** * StudyBro-Admin: leaderboard aggregation, ranking, CSV export, sessions

    A shallow embedding of the leaderboard route (its GET and POST
    handlers and [getDateRange]), of the [totalFocusMinutes] statistic of
    the dashboard route and of src/lib/auth.ts, together with the
    properties stated about them.

    Conventions.
    - A JavaScript number that the handlers only ever use as an integer
      (durations in seconds, counts, streaks, ranks, array indices) is a [Z].
    - [null] / [undefined] is [None].
    - A JavaScript [Map] or [Set] keeps its keys in insertion order, and the
      handlers iterate over them, so both are modelled as lists in insertion
      order ([JsMap], [new_Set]).
    - Rows come back from the store in some order; a table is the list of its
      rows in that order. *)

From Stdlib Require Import ZArith String Ascii Bool Lia DecimalString.
From Stdlib Require Import List Permutation Sorting.Sorted.
From Stdlib Require DecimalPos.
Import ListNotations.

Local Open Scope string_scope.
Local Open Scope list_scope.
Local Open Scope Z_scope.

Set Implicit Arguments.

(* ===================================================================== *)
(** ** JavaScript runtime primitives used by the handlers                *)
(* ===================================================================== *)

Module Js.

(** [x || 0] for a possibly absent number: [undefined] and [null] give 0,
    a number gives itself. *)
Definition or0 (x : option Z) : Z :=
  match x with
  | Some v => v
  | None => 0
  end.

(** [s || null] for a possibly absent string: the empty string is falsy. *)
Definition str_or_null (s : option string) : option string :=
  match s with
  | Some v => if String.eqb v EmptyString then None else Some v
  | None => None
  end.

(** [s || d] for a possibly absent string. *)
Definition str_or (s : option string) (d : string) : string :=
  match str_or_null s with
  | Some v => v
  | None => d
  end.

(** [Math.floor(n / 60)] on an integer number of seconds. *)
Definition floor_div60 (n : Z) : Z := n / 60.

(** [Math.round(n / 60)] on an integer number of seconds.  [Math.round]
    rounds to the nearest integer and takes a half towards plus infinity,
    that is floor(n/60 + 1/2) = floor((n + 30) / 60). *)
Definition round_div60 (n : Z) : Z := (n + 30) / 60.

(** The result of [parseInt]: an integer or [NaN]. *)
Inductive num : Type :=
| NaN : num
| Int : Z -> num.

(** White space and line terminators, as far as they are single bytes. *)
Definition is_whitespace (c : ascii) : bool :=
  let n := Z.of_nat (nat_of_ascii c) in
  ((9 <=? n) && (n <=? 13)) || (n =? 32).

Fixpoint trim_start (s : string) : string :=
  match s with
  | String c r => if is_whitespace c then trim_start r else s
  | EmptyString => s
  end.

(** The value of a character as a digit in the given radix, if it is one. *)
Definition digit_value (radix : Z) (c : ascii) : option Z :=
  let n := Z.of_nat (nat_of_ascii c) in
  let v :=
    if (48 <=? n) && (n <=? 57) then Some (n - 48)
    else if (97 <=? n) && (n <=? 122) then Some (n - 87)
    else if (65 <=? n) && (n <=? 90) then Some (n - 55)
    else None in
  match v with
  | Some d => if d <? radix then Some d else None
  | None => None
  end.

(** The value of the longest prefix of digits; [acc] is [None] as long as no
    digit was read. *)
Fixpoint digits (radix : Z) (s : string) (acc : option Z) : option Z :=
  match s with
  | String c r =>
      match digit_value radix c with
      | Some d => digits radix r (Some (or0 acc * radix + d))
      | None => acc
      end
  | EmptyString => acc
  end.

(** [parseInt(input)] without a radix: leading white space, a sign, a
    [0x] prefix for radix 16, then as many digits as there are; no digit
    gives [NaN]. *)
Definition parseInt (input : string) : num :=
  let s := trim_start input in
  let '(sign, s) :=
    match s with
    | String "-" r => (-1, r)
    | String "+" r => (1, r)
    | _ => (1, s)
    end in
  let '(radix, s) :=
    match s with
    | String "0" (String "x" r) => (16, r)
    | String "0" (String "X" r) => (16, r)
    | _ => (10, s)
    end in
  match digits radix s None with
  | Some v => Int (sign * v)
  | None => NaN
  end.

Definition add (a b : num) : num :=
  match a, b with
  | Int x, Int y => Int (x + y)
  | _, _ => NaN
  end.

(** [ToIntegerOrInfinity] followed by the clamping that
    [Array.prototype.slice] applies to either bound: [NaN] is 0, a negative
    bound counts from the end and is clamped at 0, a positive one is
    clamped at the length. *)
Definition clamp_index (len : Z) (i : num) : Z :=
  match i with
  | NaN => 0
  | Int k => if k <? 0 then Z.max (len + k) 0 else Z.min k len
  end.

(** [arr.slice(start, end)]. *)
Definition slice {A : Type} (arr : list A) (start stop : num) : list A :=
  let len := Z.of_nat (length arr) in
  let k := clamp_index len start in
  let final := clamp_index len stop in
  firstn (Z.to_nat (Z.max (final - k) 0)) (skipn (Z.to_nat k) arr).

(** [Array.prototype.sort(cmp)].  The language requires the sort to be
    stable, and for a consistent comparator the result is then unique: it
    is the one computed by this stable insertion sort, where [cmp a b > 0]
    means that [a] goes after [b]. *)
Section Sort.
Variable A : Type.
Variable cmp : A -> A -> Z.

Fixpoint insert (x : A) (l : list A) : list A :=
  match l with
  | [] => [x]
  | y :: r => if cmp x y <=? 0 then x :: y :: r else y :: insert x r
  end.

Fixpoint sort (l : list A) : list A :=
  match l with
  | [] => []
  | x :: r => insert x (sort r)
  end.
End Sort.

(** A [Map<string, V>]: keys in insertion order, one binding per key. *)
Section Map.
Variable V : Type.

Definition JsMap : Type := list (string * V).

Fixpoint get (m : JsMap) (k : string) : option V :=
  match m with
  | [] => None
  | (k', v) :: r => if String.eqb k' k then Some v else get r k
  end.

(** [m.set(k, v)]: an existing key keeps its position. *)
Fixpoint set (m : JsMap) (k : string) (v : V) : JsMap :=
  match m with
  | [] => [(k, v)]
  | (k', v') :: r =>
      if String.eqb k' k then (k', v) :: r else (k', v') :: set r k v
  end.

Definition keys (m : JsMap) : list string := map fst m.

(** [new Map(pairs)]. *)
Definition new_Map (pairs : list (string * V)) : JsMap :=
  fold_left (fun m p => set m (fst p) (snd p)) pairs [].
End Map.

(** [Array.from(new Set(xs))]: first occurrences, in order. *)
Fixpoint set_add (s : list string) (x : string) : list string :=
  match s with
  | [] => [x]
  | y :: r => if String.eqb y x then y :: r else y :: set_add r x
  end.

Definition new_Set (xs : list string) : list string :=
  fold_left set_add xs [].

End Js.

(* ===================================================================== *)
(** ** Data model                                                        *)
(* ===================================================================== *)

(** Timestamps are milliseconds since the epoch. *)
Definition Timestamp : Type := Z.

Record Profile : Type := mkProfile {
  profile_id : string;
  profile_name : option string;
  profile_avatar_url : option string
}.

Record SessionRow : Type := mkSessionRow {
  session_user_id : string;
  session_duration : option Z;
  session_mode : string;
  session_created_at : Timestamp
}.

Record TaskRow : Type := mkTaskRow {
  task_user_id : string;
  task_status : string;
  task_updated_at : Timestamp
}.

Record StreakRow : Type := mkStreakRow {
  streak_user_id : string;
  streak_current : option Z
}.

(** The [{ data, error }] pair a store query resolves to. *)
Inductive QueryResult (A : Type) : Type :=
| Rows : list A -> QueryResult A
| QueryError : string -> QueryResult A.

Arguments Rows {A} _.
Arguments QueryError {A} _.

(** [data], which is [null] when the query failed. *)
Definition data {A : Type} (q : QueryResult A) : option (list A) :=
  match q with
  | Rows l => Some l
  | QueryError _ => None
  end.

Record Store : Type := mkStore {
  profiles : QueryResult Profile;
  sessions : QueryResult SessionRow;
  tasks : QueryResult TaskRow;
  streaks : QueryResult StreakRow
}.

Record Entry : Type := mkEntry {
  user_id : string;
  name : option string;
  avatar_url : option string;
  focus_time_minutes : Z;
  tasks_completed : Z;
  current_streak : Z;
  rank : Z
}.

(* ===================================================================== *)
(** ** Dates (the part of [Date] that [getDateRange] uses)               *)
(* ===================================================================== *)

(** A [Date] is its time value in milliseconds since the epoch; the
    server's zone is taken to be UTC, so local fields are computed from the
    time value itself. *)
Module JsDate.

Definition msPerDay : Z := 86400000.

Definition Day (t : Timestamp) : Z := t / msPerDay.
Definition TimeWithinDay (t : Timestamp) : Z := t mod msPerDay.

(** Proleptic Gregorian calendar: day number to (year, month 1..12, day). *)
Definition civil_from_days (days : Z) : Z * Z * Z :=
  let z := days + 719468 in
  let era := z / 146097 in
  let doe := z - era * 146097 in
  let yoe := (doe - doe / 1460 + doe / 36524 - doe / 146096) / 365 in
  let y := yoe + era * 400 in
  let doy := doe - (365 * yoe + yoe / 4 - yoe / 100) in
  let mp := (5 * doy + 2) / 153 in
  let d := doy - (153 * mp + 2) / 5 + 1 in
  let m := if mp <? 10 then mp + 3 else mp - 9 in
  ((if m <=? 2 then y + 1 else y), m, d).

(** (year, month 1..12, day) to day number; a day outside the month
    carries over, as [MakeDay] does. *)
Definition days_from_civil (y m d : Z) : Z :=
  let y := if m <=? 2 then y - 1 else y in
  let era := y / 400 in
  let yoe := y - era * 400 in
  let doy := (153 * (if 2 <? m then m - 3 else m + 9) + 2) / 5 + d - 1 in
  let doe := yoe * 365 + yoe / 4 - yoe / 100 + doy in
  era * 146097 + doe - 719468.

Definition getFullYear (t : Timestamp) : Z := fst (fst (civil_from_days (Day t))).
(** Months count from 0. *)
Definition getMonth (t : Timestamp) : Z := snd (fst (civil_from_days (Day t))) - 1.
Definition getDate (t : Timestamp) : Z := snd (civil_from_days (Day t)).
(** 0 is Sunday; day 0 of the epoch was a Thursday. *)
Definition getDay (t : Timestamp) : Z := (Day t + 4) mod 7.

(** [d.setHours(0, 0, 0, 0)]. *)
Definition setHours0 (t : Timestamp) : Timestamp := Day t * msPerDay.

(** [d.setDate(n)]: day [n] of the month [d] is in, same time of day. *)
Definition setDate (t : Timestamp) (n : Z) : Timestamp :=
  (days_from_civil (getFullYear t) (getMonth t + 1) 1 + n - 1) * msPerDay
  + TimeWithinDay t.

(** [new Date(year, month, 1)]; a year in 0..99 means 1900 + year. *)
Definition new_Date_ym1 (year month : Z) : Timestamp :=
  let year := if (0 <=? year) && (year <=? 99) then 1900 + year else year in
  days_from_civil year (month + 1) 1 * msPerDay.

(** A number that is not negative, in decimal, padded with zeros on the
    left to [width] digits. *)
Definition pad (width : nat) (n : Z) : string :=
  let digits := NilZero.string_of_uint (N.to_uint (Z.to_N n)) in
  (string_of_list_ascii (repeat "0"%char (width - String.length digits)) ++ digits)%string.

(** [d.toISOString().split('T')[0]]: the year has four digits, or a sign
    and six digits outside 0..9999. *)
Definition toISOString_date (t : Timestamp) : string :=
  let '(y, m, d) := civil_from_days (Day t) in
  let year :=
    if (0 <=? y) && (y <=? 9999) then pad 4 y
    else if y <? 0 then ("-" ++ pad 6 (- y))%string
    else ("+" ++ pad 6 y)%string in
  (year ++ "-" ++ pad 2 m ++ "-" ++ pad 2 d)%string.

(** The clock of the token library: whole seconds. *)
Definition epoch_seconds (t : Timestamp) : Z := t / 1000.

End JsDate.

(* ===================================================================== *)
(** ** src/lib/auth.ts                                                   *)
(* ===================================================================== *)

(** The [jose] library as the application uses it.  A compact token is
    abstracted to what verification looks at: either the string is not a
    well-formed signed token at all, or it carries a claims set and a MAC
    computed under some key (HS256 is taken as an ideal MAC: it verifies
    exactly under the key it was computed with).  The claims are the ones
    this application issues. *)
Module Jose.

Definition Key : Type := string.

Record JWTPayload : Type := mkPayload {
  role : option string;
  iat : option Z;
  exp : option Z
}.

Inductive Token : Type :=
| Malformed : string -> Token
| Signed : Key -> JWTPayload -> Token.

Inductive JoseError : Type :=
| JWSInvalid : JoseError
| JWSSignatureVerificationFailed : JoseError
| JWTExpired : JoseError.

(** [new SignJWT(claims).setIssuedAt().setExpirationTime('7d').sign(key)]
    at epoch second [now]. *)
Definition sign7d (now : Z) (claim_role : string) (key : Key) : Token :=
  Signed key {| role := Some claim_role;
                iat := Some now;
                exp := Some (now + 7 * 24 * 60 * 60) |}.

(** [jwtVerify(token, key)] at epoch second [now]: the signature is
    checked first, then the expiry ([exp <= now] is expired). *)
Definition jwtVerify (now : Z) (token : Token) (key : Key)
  : JoseError + JWTPayload :=
  match token with
  | Malformed _ => inl JWSInvalid
  | Signed k payload =>
      if String.eqb k key then
        match exp payload with
        | Some e => if e <=? now then inl JWTExpired else inr payload
        | None => inr payload
        end
      else inl JWSSignatureVerificationFailed
  end.

End Jose.

Module Auth.
Import Jose.

(** [process.env.JWT_SECRET || '...']. *)
Definition JWT_SECRET (env_JWT_SECRET : option string) : Key :=
  Js.str_or env_JWT_SECRET "studybro-admin-secret-key-minimum-32-chars!".

Definition createSession (env_JWT_SECRET : option string) (now : Z) : Token :=
  sign7d now "admin" (JWT_SECRET env_JWT_SECRET).

(** [try { return payload } catch { return null }]. *)
Definition verifySession (env_JWT_SECRET : option string) (now : Z)
           (token : Token) : option JWTPayload :=
  match jwtVerify now token (JWT_SECRET env_JWT_SECRET) with
  | inr payload => Some payload
  | inl _ => None
  end.

(** [cookie] is the value of the [admin_session] cookie, if any; the empty
    string is falsy. *)
Definition getSession (env_JWT_SECRET : option string) (now : Z)
           (cookie : option Token) : option JWTPayload :=
  match cookie with
  | None => None
  | Some (Malformed EmptyString) => None
  | Some token => verifySession env_JWT_SECRET now token
  end.

(** [process.env.ADMIN_USERNAME || 'admin'], and the same for the password. *)
Definition verifyCredentials (env_ADMIN_USERNAME env_ADMIN_PASSWORD : option string)
           (username password : string) : bool :=
  let adminUser := Js.str_or env_ADMIN_USERNAME "admin" in
  let adminPass := Js.str_or env_ADMIN_PASSWORD "admin" in
  String.eqb username adminUser && String.eqb password adminPass.

End Auth.

(* ===================================================================== *)
(** ** The leaderboard route (GET and POST of /api/admin/leaderboard)    *)
(* ===================================================================== *)

(** The [as Period] and [as Metric] casts check nothing at run time: both
    are whatever string the query carried. *)
Definition Period : Type := string.
Definition Metric : Type := string.

Definition getDateRange (now : Timestamp) (period : Period) : option Timestamp :=
  if String.eqb period "today" then
    let todayStart := now in
    Some (JsDate.setHours0 todayStart)
  else if String.eqb period "week" then
    let weekStart := now in
    let dayOfWeek := JsDate.getDay weekStart in
    let weekStart := JsDate.setDate weekStart (JsDate.getDate now - dayOfWeek) in
    Some (JsDate.setHours0 weekStart)
  else if String.eqb period "month" then
    let monthStart := JsDate.new_Date_ym1 (JsDate.getFullYear now) (JsDate.getMonth now) in
    Some monthStart
  else
    (* case 'all': default: *)
    None.

(** [.gte(column, start.toISOString())], added only [if (start)]. *)
Definition gte_start (start : option Timestamp) (t : Timestamp) : bool :=
  match start with
  | Some s => s <=? t
  | None => true
  end.

(** [from(table).select(...).eq(...)...]: the rows that pass, or the error. *)
Definition select {A : Type} (p : A -> bool) (table : QueryResult A) : QueryResult A :=
  match table with
  | Rows l => Rows (filter p l)
  | QueryError e => QueryError e
  end.

Definition sessionsQuery (start : option Timestamp) (store : Store) : QueryResult SessionRow :=
  select (fun s => String.eqb (session_mode s) "work"
                   && gte_start start (session_created_at s))
         (sessions store).

Definition tasksQuery (start : option Timestamp) (store : Store) : QueryResult TaskRow :=
  select (fun t => String.eqb (task_status t) "done"
                   && gte_start start (task_updated_at t))
         (tasks store).

(** [new Map(profiles?.map(p => [p.id, p]) || [])]. *)
Definition profilesMap (profiles : option (list Profile)) : Js.JsMap Profile :=
  match profiles with
  | Some ps => Js.new_Map (map (fun p => (profile_id p, p)) ps)
  | None => Js.new_Map []
  end.

(** Seconds of focus per user. *)
Definition focusTimeMap (sessions : list SessionRow) : Js.JsMap Z :=
  fold_left
    (fun m s =>
       let current := Js.or0 (Js.get m (session_user_id s)) in
       Js.set m (session_user_id s) (current + Js.or0 (session_duration s)))
    sessions [].

Definition tasksMap (tasks : list TaskRow) : Js.JsMap Z :=
  fold_left
    (fun m t =>
       let current := Js.or0 (Js.get m (task_user_id t)) in
       Js.set m (task_user_id t) (current + 1))
    tasks [].

(** [streaks?.forEach(...)]: nothing happens when the query failed. *)
Definition streakMap (streaks : option (list StreakRow)) : Js.JsMap Z :=
  match streaks with
  | Some rows =>
      fold_left
        (fun m s => Js.set m (streak_user_id s) (Js.or0 (streak_current s)))
        rows []
  | None => []
  end.

Definition userIds (focus tasks streak : Js.JsMap Z) : list string :=
  Js.new_Set (Js.keys focus ++ Js.keys tasks ++ Js.keys streak).

Definition buildEntry (profs : Js.JsMap Profile) (focus tasks streak : Js.JsMap Z)
           (userId : string) : Entry :=
  let profile := Js.get profs userId in
  {| user_id := userId;
     name := Js.str_or_null (match profile with
                             | Some p => profile_name p
                             | None => None
                             end);
     avatar_url := Js.str_or_null (match profile with
                                   | Some p => profile_avatar_url p
                                   | None => None
                                   end);
     focus_time_minutes := Js.round_div60 (Js.or0 (Js.get focus userId));
     tasks_completed := Js.or0 (Js.get tasks userId);
     current_streak := Js.or0 (Js.get streak userId);
     rank := 0 |}.

Definition buildEntries (profs : Js.JsMap Profile) (focus tasks streak : Js.JsMap Z)
  : list Entry :=
  map (buildEntry profs focus tasks streak) (userIds focus tasks streak).

(** The comparator handed to [entries.sort]. *)
Definition comparator (metric : Metric) (a b : Entry) : Z :=
  if String.eqb metric "focus_time" then
    focus_time_minutes b - focus_time_minutes a
  else if String.eqb metric "tasks" then
    tasks_completed b - tasks_completed a
  else if String.eqb metric "streak" then
    current_streak b - current_streak a
  else 0.

Definition sortEntries (metric : Metric) (entries : list Entry) : list Entry :=
  Js.sort (comparator metric) entries.

(** The value the rank loop compares. *)
Definition currentValue (metric : Metric) (entry : Entry) : Z :=
  if String.eqb metric "focus_time" then focus_time_minutes entry
  else if String.eqb metric "tasks" then tasks_completed entry
  else current_streak entry.

(** [{ ...entry, rank: r }]. *)
Definition with_rank (entry : Entry) (r : Z) : Entry :=
  {| user_id := user_id entry;
     name := name entry;
     avatar_url := avatar_url entry;
     focus_time_minutes := focus_time_minutes entry;
     tasks_completed := tasks_completed entry;
     current_streak := current_streak entry;
     rank := r |}.

(** [entries.map((entry, index) => ...)] with the two variables the
    callback updates, [currentRank] and [previousValue], threaded through. *)
Fixpoint assignRanks_from (metric : Metric) (index : Z) (currentRank : Z)
         (previousValue : option Z) (entries : list Entry) : list Entry :=
  match entries with
  | [] => []
  | entry :: rest =>
      let value := currentValue metric entry in
      let currentRank :=
        match previousValue with
        | Some previous =>
            if negb (value =? previous) then index + 1 else currentRank
        | None => currentRank
        end in
      with_rank entry currentRank
        :: assignRanks_from metric (index + 1) currentRank (Some value) rest
  end.

Definition assignRanks (metric : Metric) (entries : list Entry) : list Entry :=
  assignRanks_from metric 0 1 None entries.

(** Everything between the store's answers and the pagination. *)
Definition rankedEntries (metric : Metric) (profiles : option (list Profile))
           (sessions : list SessionRow) (tasks : list TaskRow)
           (streaks : option (list StreakRow)) : list Entry :=
  let focus := focusTimeMap sessions in
  let done := tasksMap tasks in
  let streak := streakMap streaks in
  let entries := buildEntries (profilesMap profiles) focus done streak in
  let entries := sortEntries metric entries in
  assignRanks metric entries.

Record LeaderboardBody : Type := mkBody {
  body_entries : list Entry;
  body_period : Period;
  body_metric : Metric;
  body_total : Z
}.

Inductive Response (A : Type) : Type :=
| Status200 : A -> Response A
| Status401 : string -> Response A
| Status500 : string -> Response A.

Arguments Status200 {A} _.
Arguments Status401 {A} _.
Arguments Status500 {A} _.

(** The request: the configured secret, the session cookie, the clock, the
    four query parameters as [searchParams.get] returns them, and the
    store. *)
Definition GET (env_JWT_SECRET : option string) (cookie : option Jose.Token)
           (now : Timestamp)
           (param_period param_metric param_limit param_offset : option string)
           (store : Store) : Response LeaderboardBody :=
  let session := Auth.getSession env_JWT_SECRET (JsDate.epoch_seconds now) cookie in
  match session with
  | None => Status401 "Unauthorized"
  | Some _ =>
      let period := Js.str_or param_period "all" in
      let metric := Js.str_or param_metric "focus_time" in
      let limit := Js.parseInt (Js.str_or param_limit "100") in
      let offset := Js.parseInt (Js.str_or param_offset "0") in
      let start := getDateRange now period in
      let profiles := data (profiles store) in
      match sessionsQuery start store with
      | QueryError message => Status500 message
      | Rows sessions =>
          match tasksQuery start store with
          | QueryError message => Status500 message
          | Rows tasks =>
              let streaks := data (streaks store) in
              let entries := rankedEntries metric profiles sessions tasks streaks in
              let total := Z.of_nat (length entries) in
              let paginatedEntries := Js.slice entries offset (Js.add offset limit) in
              Status200 {| body_entries := paginatedEntries;
                         body_period := period;
                         body_metric := metric;
                         body_total := total |}
          end
      end
  end.

(** *** CSV export *)

(** [csv-stringify/sync] with the options the handler passes
    ([header: true] and [columns]) and the library's defaults otherwise:
    delimiter [,], quote and escape the double quote, record delimiter a line
    feed, a record delimiter after every record ([eof]). *)
Module CsvStringify.

Definition quote_char : ascii := ascii_of_nat 34.
Definition delimiter_char : ascii := ascii_of_nat 44.
Definition record_delimiter_char : ascii := ascii_of_nat 10.

Definition quote : string := String quote_char EmptyString.
Definition delimiter : string := String delimiter_char EmptyString.
Definition record_delimiter : string := String record_delimiter_char EmptyString.

(** A field of a record before it is cast to text. *)
Inductive Cell : Type :=
| Num : Z -> Cell
| Str : string -> Cell.

(** A record is an object: keys and their values. *)
Definition Record_ : Type := list (string * Cell).

Fixpoint contains (c : ascii) (s : string) : bool :=
  match s with
  | EmptyString => false
  | String x r => Ascii.eqb x c || contains c r
  end.

(** [value.replace(/quote/g, escape + quote)]. *)
Fixpoint escape_quotes (s : string) : string :=
  match s with
  | EmptyString => EmptyString
  | String x r =>
      if Ascii.eqb x quote_char
      then String quote_char (String quote_char (escape_quotes r))
      else String x (escape_quotes r)
  end.

(** The default cast: a number prints in decimal, a string is itself. *)
Definition cast (c : Cell) : string :=
  match c with
  | Num z => NilZero.string_of_int (Z.to_int z)
  | Str s => s
  end.

Definition field (value : string) : string :=
  let containsdelimiter := contains delimiter_char value in
  let containsQuote := contains quote_char value in
  let containsRecordDelimiter := contains record_delimiter_char value in
  let shouldQuote := containsQuote || containsdelimiter || containsRecordDelimiter in
  let value := if containsQuote then escape_quotes value else value in
  if shouldQuote then quote ++ value ++ quote else value.

(** One line, without its record delimiter. *)
Definition line (fields : list string) : string :=
  String.concat delimiter (map field fields).

(** The value under a column's key; a missing key is an empty field. *)
Fixpoint lookup (key : string) (r : Record_) : string :=
  match r with
  | [] => EmptyString
  | (k, c) :: rest => if String.eqb k key then cast c else lookup key rest
  end.

Definition headers (columns : list string) : string :=
  (line columns ++ record_delimiter)%string.

Definition record (columns : list string) (r : Record_) : string :=
  (line (map (fun key => lookup key r) columns) ++ record_delimiter)%string.

(** [stringify(records, { header: true, columns })]. *)
Definition stringify (records : list Record_) (columns : list string) : string :=
  (headers columns ++ String.concat EmptyString (map (record columns) records))%string.

End CsvStringify.

Definition columns : list string :=
  ["Rank"; "Name"; "Focus Time (min)"; "Tasks Completed"; "Current Streak"].

(** One element of [csvData]. *)
Definition csvRecord (entry : Entry) : CsvStringify.Record_ :=
  [ ("Rank", CsvStringify.Num (rank entry));
    ("Name", CsvStringify.Str (Js.str_or (name entry) "Unknown"));
    ("Focus Time (min)", CsvStringify.Num (focus_time_minutes entry));
    ("Tasks Completed", CsvStringify.Num (tasks_completed entry));
    ("Current Streak", CsvStringify.Num (current_streak entry)) ].

Record CsvResponse : Type := mkCsv {
  csv_body : string;
  content_type : string;
  filename : string
}.

(** The request body carries [entries], [period] and [metric]. *)
Definition POST (env_JWT_SECRET : option string) (cookie : option Jose.Token)
           (now : Timestamp)
           (entries : list Entry) (period metric : string) : Response CsvResponse :=
  let session := Auth.getSession env_JWT_SECRET (JsDate.epoch_seconds now) cookie in
  match session with
  | None => Status401 "Unauthorized"
  | Some _ =>
      let csvData := map csvRecord entries in
      let csv := CsvStringify.stringify csvData columns in
      Status200 {| csv_body := csv;
                   content_type := "text/csv";
                   filename := ("leaderboard-" ++ period ++ "-" ++ metric ++ "-"
                                ++ JsDate.toISOString_date now ++ ".csv")%string |}
  end.

(* ===================================================================== *)
(** ** src/app/api/admin/dashboard/route.ts                              *)
(* ===================================================================== *)

(** The [totalFocusMinutes] statistic of the dashboard: the query has no
    window and its error is not looked at, so a failed query gives [null]
    and the statistic is [0]. *)
Definition totalFocusMinutes (store : Store) : Z :=
  let sessions :=
    data (select (fun s => String.eqb (session_mode s) "work") (sessions store)) in
  Js.or0
    (option_map
       (fun rows =>
          fold_left
            (fun sum s => sum + Js.floor_div60 (Js.or0 (session_duration s)))
            rows 0)
       sessions).

(* ===================================================================== *)
(** ** Vocabulary of the statements                                      *)
(* ===================================================================== *)

(** The rank found at a 0-based position of a ranked sequence. *)
Definition rank_at (ranked : list Entry) (i : nat) : option Z :=
  option_map rank (nth_error ranked i).

(** The rank the loop gives to the entry it is looking at. *)
Definition next_rank (index currentRank : Z) (previousValue : option Z)
           (value : Z) : Z :=
  match previousValue with
  | Some previous => if negb (value =? previous) then index + 1 else currentRank
  | None => currentRank
  end.

(** A sequence of numbers that never goes up. *)
Definition non_increasing (l : list Z) : Prop :=
  StronglySorted (fun x y => y <= x) l.

(** A timestamp within the window that starts at [start]. *)
Definition in_window (start : option Timestamp) (t : Timestamp) : Prop :=
  match start with
  | Some s => s <= t
  | None => True
  end.

(** The three sources of user ids: a "work" session in the window, a "done"
    task updated in the window, a streak record (a query that failed
    contributes no record). *)
Definition has_work_session (start : option Timestamp) (store : Store)
           (u : string) : Prop :=
  exists rows s,
    sessions store = Rows rows /\ In s rows /\ session_user_id s = u
    /\ session_mode s = "work" /\ in_window start (session_created_at s).

Definition has_done_task (start : option Timestamp) (store : Store)
           (u : string) : Prop :=
  exists rows t,
    tasks store = Rows rows /\ In t rows /\ task_user_id t = u
    /\ task_status t = "done" /\ in_window start (task_updated_at t).

Definition has_streak (store : Store) (u : string) : Prop :=
  exists rows s,
    streaks store = Rows rows /\ In s rows /\ streak_user_id s = u.

Definition sumZ (l : list Z) : Z := fold_right Z.add 0 l.

(** The rows of a table, none when the query fails. *)
Definition table_rows {A : Type} (q : QueryResult A) : list A :=
  match q with
  | Rows l => l
  | QueryError _ => []
  end.

(** The durations, in seconds, of the "work" sessions of user [u] in the
    window ([null] counts as 0). *)
Definition work_durations (start : option Timestamp) (store : Store)
           (u : string) : list Z :=
  map (fun s => Js.or0 (session_duration s))
      (filter (fun s => String.eqb (session_user_id s) u)
              (table_rows (sessionsQuery start store))).

(** Sample data: five users, spread over the three sources. *)
Definition sampleStore : Store :=
  {| profiles := Rows [mkProfile "ann" (Some "Ann") None;
                       mkProfile "bob" None (Some "bob.png")];
     sessions := Rows [mkSessionRow "ann" (Some 50) "work" 1000;
                       mkSessionRow "bob" (Some 600) "work" 1500;
                       mkSessionRow "ann" (Some 50) "work" 2000;
                       mkSessionRow "ann" (Some 400) "short-break" 2500;
                       mkSessionRow "cid" (Some 90) "work" 2700;
                       mkSessionRow "ann" (Some 50) "work" 3000];
     tasks := Rows [mkTaskRow "bob" "done" 1200;
                    mkTaskRow "dee" "done" 2200;
                    mkTaskRow "ann" "todo" 2300;
                    mkTaskRow "bob" "done" 2400];
     streaks := Rows [mkStreakRow "eve" (Some 7);
                      mkStreakRow "bob" (Some 2)] |}.

(** The cookie of a session opened at second 0 under the default secret. *)
Definition sampleCookie : option Jose.Token :=
  Some (Auth.createSession None 0).

(** One user with three "work" sessions of 50 seconds. *)
Definition threeFifties : Store :=
  {| profiles := Rows [];
     sessions := Rows [mkSessionRow "ann" (Some 50) "work" 1000;
                       mkSessionRow "ann" (Some 50) "work" 2000;
                       mkSessionRow "ann" (Some 50) "work" 3000];
     tasks := Rows [];
     streaks := Rows [] |}.

(** A number as [csv-stringify] prints it. *)
Definition decimal (z : Z) : string := NilZero.string_of_int (Z.to_int z).

(** The header line of the export. *)
Definition csv_header : string :=
  ("Rank,Name,Focus Time (min),Tasks Completed,Current Streak"
   ++ CsvStringify.record_delimiter)%string.

(** The line of one entry: the five columns in the order of the header. *)
Definition csv_row (entry : Entry) : string :=
  (decimal (rank entry) ++ ","
   ++ CsvStringify.field (Js.str_or (name entry) "Unknown") ++ ","
   ++ decimal (focus_time_minutes entry) ++ ","
   ++ decimal (tasks_completed entry) ++ ","
   ++ decimal (current_streak entry)
   ++ CsvStringify.record_delimiter)%string.

(** A text without delimiter, quote or line feed. *)
Definition plain (s : string) : Prop :=
  CsvStringify.contains CsvStringify.quote_char s = false
  /\ CsvStringify.contains CsvStringify.delimiter_char s = false
  /\ CsvStringify.contains CsvStringify.record_delimiter_char s = false.

(** What verification looks at in a token. *)
Definition signature_verifies (key : Jose.Key) (token : Jose.Token) : Prop :=
  match token with
  | Jose.Signed k _ => k = key
  | Jose.Malformed _ => False
  end.

Definition expiry_passed (now : Z) (token : Jose.Token) : Prop :=
  match token with
  | Jose.Signed _ payload =>
      match Jose.exp payload with
      | Some e => e <= now
      | None => False
      end
  | Jose.Malformed _ => False
  end.

Definition decoded_claims (token : Jose.Token) : option Jose.JWTPayload :=
  match token with
  | Jose.Signed _ payload => Some payload
  | Jose.Malformed _ => None
  end.

(** Two answers of the leaderboard query that differ at most in the period
    they echo. *)
Definition same_leaderboard (r r' : Response LeaderboardBody) : Prop :=
  match r, r' with
  | Status200 b, Status200 b' =>
      body_entries b = body_entries b'
      /\ body_metric b = body_metric b'
      /\ body_total b = body_total b'
  | Status401 e, Status401 e' => e = e'
  | Status500 e, Status500 e' => e = e'
  | _, _ => False
  end.

(** The number of entries of [l] whose value under [f] is above [v]. *)
Definition count_greater (f : Entry -> Z) (v : Z) (l : list Entry) : Z :=
  Z.of_nat (length (filter (fun e => v <? f e) l)).

(** The last entry the rank loop has seen, if any. *)
Definition last_seen (pre : list Entry) : option Entry :=
  match rev pre with
  | [] => None
  | e :: _ => Some e
  end.

(** The "done" tasks of user [u] updated in the window. *)
Definition done_tasks_of (start : option Timestamp) (store : Store)
           (u : string) : list TaskRow :=
  filter (fun t => String.eqb (task_user_id t) u)
         (table_rows (tasksQuery start store)).

(** The last streak record of user [u], in the order the rows come. *)
Definition last_streak_of (store : Store) (u : string) : option StreakRow :=
  find (fun s => String.eqb (streak_user_id s) u) (rev (table_rows (streaks store))).

(** A cookie that passes verification at epoch second [now]. *)
Definition valid_cookie (env_JWT_SECRET : option string) (now : Z)
           (cookie : option Jose.Token) : Prop :=
  exists token,
    cookie = Some token
    /\ signature_verifies (Auth.JWT_SECRET env_JWT_SECRET) token
    /\ ~ expiry_passed now token.

(* ===================================================================== *)
(** ** The login route (POST of /api/auth/login)                         *)
(* ===================================================================== *)

(** The options of [response.cookies.set]. *)
Record SetCookie : Type := mkSetCookie {
  cookie_name : string;
  cookie_value : Jose.Token;
  cookie_httpOnly : bool;
  cookie_secure : bool;
  cookie_sameSite : string;
  cookie_maxAge : Z;
  cookie_path : string
}.

Record LoginResponse : Type := mkLoginResponse {
  login_answer : Response bool;
  login_cookie : option SetCookie
}.

(** [body] is the parsed request body: [None] when [request.json()] throws,
    otherwise its [username] and [password] fields, each [None] when it is
    missing or not a string (nothing but a string is [===] a string). *)
Definition POST_login (env_ADMIN_USERNAME env_ADMIN_PASSWORD env_JWT_SECRET
                         env_NODE_ENV : option string)
           (now : Timestamp) (body : option (option string * option string))
  : LoginResponse :=
  match body with
  | None => {| login_answer := Status500 "Internal server error"; login_cookie := None |}
  | Some (username, password) =>
      let accepted :=
        match username, password with
        | Some u, Some p =>
            Auth.verifyCredentials env_ADMIN_USERNAME env_ADMIN_PASSWORD u p
        | _, _ => false
        end in
      if negb accepted then
        {| login_answer := Status401 "Invalid credentials"; login_cookie := None |}
      else
        let token := Auth.createSession env_JWT_SECRET (JsDate.epoch_seconds now) in
        {| login_answer := Status200 true;
           login_cookie :=
             Some {| cookie_name := "admin_session";
                     cookie_value := token;
                     cookie_httpOnly := true;
                     cookie_secure :=
                       match env_NODE_ENV with
                       | Some v => String.eqb v "production"
                       | None => false
                       end;
                     cookie_sameSite := "lax";
                     cookie_maxAge := 60 * 60 * 24 * 7;
                     cookie_path := "/" |} |}
  end.

(* ===================================================================== *)
(** ** The middleware                                                    *)
(* ===================================================================== *)

Module Middleware.

(** [process.env.JWT_SECRET || '...'], the middleware's own copy. *)
Definition JWT_SECRET (env_JWT_SECRET : option string) : Jose.Key :=
  Js.str_or env_JWT_SECRET "studybro-admin-secret-key-minimum-32-chars!".

Definition publicPaths : list string := ["/login"; "/api/auth/login"].

Inductive Action : Type :=
| Next : Action
| Redirect : string -> Action.

(** A cookie value that is truthy: present and not the empty string. *)
Definition truthy (cookie : option Jose.Token) : option Jose.Token :=
  match cookie with
  | None => None
  | Some (Jose.Malformed EmptyString) => None
  | Some token => Some token
  end.

(** [now] is the clock of the token library, in seconds. *)
Definition middleware (env_JWT_SECRET : option string) (now : Z)
           (pathname : string) (cookie : option Jose.Token) : Action :=
  if existsb (fun path => String.prefix path pathname) publicPaths then
    if String.eqb pathname "/login" then
      match truthy cookie with
      | Some token =>
          match Jose.jwtVerify now token (JWT_SECRET env_JWT_SECRET) with
          | inr _ => Redirect "/"
          | inl _ => Next
          end
      | None => Next
      end
    else Next
  else
    match truthy cookie with
    | None => Redirect "/login"
    | Some token =>
        match Jose.jwtVerify now token (JWT_SECRET env_JWT_SECRET) with
        | inr _ => Next
        | inl _ => Redirect "/login"
        end
    end.

End Middleware.

(* ===================================================================== *)
(** ** The calendar within one era of 400 years                          *)
(* ===================================================================== *)

(** The year of the era, the month and the day of a day of the era, as
    [JsDate.civil_from_days] computes them. *)
Definition civil_of_doe (doe : Z) : Z * Z * Z :=
  let yoe := (doe - doe / 1460 + doe / 36524 - doe / 146096) / 365 in
  let doy := doe - (365 * yoe + yoe / 4 - yoe / 100) in
  let mp := (5 * doy + 2) / 153 in
  let d := doy - (153 * mp + 2) / 5 + 1 in
  let m := if mp <? 10 then mp + 3 else mp - 9 in
  (yoe, m, d).

(** The day of the era of a date, as [JsDate.days_from_civil] computes it. *)
Definition doe_of_civil (yoe m d : Z) : Z :=
  let doy := (153 * (if 2 <? m then m - 3 else m + 9) + 2) / 5 + d - 1 in
  yoe * 365 + yoe / 4 - yoe / 100 + doy.

(** What is checked of each day of the era: its date is a date, it is the
    day of its date, and the first of its month is a day of the era, with
    the same year and month. *)
Definition civil_check (doe : Z) : bool :=
  let '(yoe, m, d) := civil_of_doe doe in
  (0 <=? yoe) && (yoe <=? 399) && (1 <=? m) && (m <=? 12) && (1 <=? d) && (d <=? 31)
  && (doe_of_civil yoe m d =? doe) && (d <=? doe + 1)
  && (let '(yoe1, m1, d1) := civil_of_doe (doe - d + 1) in
      (yoe1 =? yoe) && (m1 =? m) && (d1 =? 1)).

(** [p] on the [2 ^ k] integers from [lo]. *)
Fixpoint all_from (k : nat) (lo : Z) (p : Z -> bool) : bool :=
  match k with
  | O => p lo
  | S k' => all_from k' lo p && all_from k' (lo + 2 ^ Z.of_nat k') p
  end.

(* ===================================================================== *)
(** ** The user store of the auth service                                *)
(* ===================================================================== *)

(** A user as [auth.admin.listUsers] returns it; a date is the instant its
    text denotes. *)
Record AuthUser : Type := mkAuthUser {
  auth_id : string;
  auth_email : option string;
  auth_created_at : Timestamp;
  auth_last_sign_in_at : option Timestamp;
  auth_banned_until : option Timestamp;
  meta_full_name : option string;
  meta_avatar_url : option string
}.

Record UserPage : Type := mkUserPage {
  page_users : list AuthUser;
  page_total : option Z
}.

(** The [{ data, error }] pair of [listUsers]. *)
Inductive AuthResult : Type :=
| AuthOk : UserPage -> AuthResult
| AuthError : string -> AuthResult.

(** [listUsers({ page, perPage })], a service of its own: the handlers are
    given it as a function of the two numbers. *)
Definition ListUsers : Type := Js.num -> Js.num -> AuthResult.

(** [!!bannedUntil && new Date(bannedUntil) > new Date()]. *)
Definition isBanned (now : Timestamp) (bannedUntil : option Timestamp) : bool :=
  match bannedUntil with
  | Some b => now <? b
  | None => false
  end.


(* ===================================================================== *)
(** ** The user listing route (GET of /api/admin/users)                  *)
(* ===================================================================== *)











(* ===================================================================== *)
(** ** The user status route (PATCH of /api/admin/users/[id])            *)
(* ===================================================================== *)

Inductive PatchAnswer : Type :=
| PatchSuccess : string -> PatchAnswer
| PatchFailure : Z -> string -> PatchAnswer.

(** What the handler does: its answer and the update it asked the auth
    service for, if any, as the user id and the [ban_duration]. *)
Record PatchResult : Type := mkPatchResult {
  patch_answer : PatchAnswer;
  patch_update : option (string * string)
}.

(** [action === literal], on an action that may be no string. *)
Definition action_is (action : option string) (literal : string) : bool :=
  match action with
  | Some a => String.eqb a literal
  | None => false
  end.

(** [body] is the parsed request body: [None] when [request.json()] throws,
    otherwise its [action], [None] when it is not a string.
    [updateUserById] is the service's reply to an update: an error message
    or nothing. *)
Definition PATCH (env_JWT_SECRET : option string) (cookie : option Jose.Token)
           (now : Timestamp) (updateUserById : string -> string -> option string)
           (userId : string) (body : option (option string)) : PatchResult :=
  let session := Auth.getSession env_JWT_SECRET (JsDate.epoch_seconds now) cookie in
  match session with
  | None => mkPatchResult (PatchFailure 401 "Unauthorized") None
  | Some _ =>
      match body with
      | None => mkPatchResult (PatchFailure 500 "Internal server error") None
      | Some action =>
          if action_is action "disable" then
            match updateUserById userId "876000h" with
            | Some message =>
                mkPatchResult (PatchFailure 400 message) (Some (userId, "876000h"))
            | None =>
                mkPatchResult (PatchSuccess "User disabled") (Some (userId, "876000h"))
            end
          else if action_is action "enable" then
            match updateUserById userId "none" with
            | Some message =>
                mkPatchResult (PatchFailure 400 message) (Some (userId, "none"))
            | None =>
                mkPatchResult (PatchSuccess "User enabled") (Some (userId, "none"))
            end
          else mkPatchResult (PatchFailure 400 "Invalid action") None
      end
  end.

(** The auth service's reading of the two durations the handler sends:
    [none] lifts the ban, [876000h] bans for that many hours from now. *)
Definition banned_until_after (now : Timestamp) (ban_duration : string)
           (before : option Timestamp) : option Timestamp :=
  if String.eqb ban_duration "none" then None
  else if String.eqb ban_duration "876000h" then Some (now + 876000 * 60 * 60 * 1000)
  else before.

(** The user after the update the handler asked for, if it asked for one. *)
Definition after_patch (now : Timestamp) (result : PatchResult) (user : AuthUser)
  : AuthUser :=
  match patch_answer result, patch_update result with
  | PatchSuccess _, Some (userId, ban_duration) =>
      if String.eqb userId (auth_id user) then
        {| auth_id := auth_id user;
           auth_email := auth_email user;
           auth_created_at := auth_created_at user;
           auth_last_sign_in_at := auth_last_sign_in_at user;
           auth_banned_until :=
             banned_until_after now ban_duration (auth_banned_until user);
           meta_full_name := meta_full_name user;
           meta_avatar_url := meta_avatar_url user |}
      else user
  | _, _ => user
  end.

(* ===================================================================== *)
(** ** The dashboard route (GET of /api/admin/dashboard)                 *)
(* ===================================================================== *)

Record DashboardStats : Type := mkStats {
  totalUsers : Z;
  activeUsers : Z;
  newUsersThisWeek : Z;
  stat_totalFocusMinutes : Z;
  totalTasksCompleted : Z;
  activeStreaks : Z;
  longestStreak : Z
}.

Record DashboardBody : Type := mkDashboard {
  stats : DashboardStats;
  activityChart : list (string * Z)
}.

(** [weekAgo.setDate(weekAgo.getDate() - 7)] on [new Date()]. *)
Definition weekAgo (now : Timestamp) : Timestamp :=
  JsDate.setDate now (JsDate.getDate now - 7).

(** The user counts as active: [!bannedUntil || new Date(bannedUntil) <= new Date()]. *)
Definition isActive (now : Timestamp) (u : AuthUser) : bool :=
  match auth_banned_until u with
  | Some b => b <=? now
  | None => true
  end.

(** The streak rows with [current > 0]; a [null] is not above 0. *)
Definition activeStreakRows (store : Store) : option (list StreakRow) :=
  data (select (fun s => match streak_current s with
                         | Some c => 0 <? c
                         | None => false
                         end)
               (streaks store)).

(** The keys of the chart: the days from six days ago to today. *)
Definition chartDays (now : Timestamp) : list string :=
  map (fun i => JsDate.toISOString_date (JsDate.setDate now (JsDate.getDate now - i)))
      [6; 5; 4; 3; 2; 1; 0].

(** [s.created_at.split('T')[0]], the store writing its dates as
    [toISOString] does. *)
Definition created_day (s : SessionRow) : string :=
  JsDate.toISOString_date (session_created_at s).

(** [activityByDay], an object whose keys keep the order in which they were
    set. *)
Definition activityByDay (now : Timestamp) (recentSessions : option (list SessionRow))
  : Js.JsMap Z :=
  let zeros := fold_left (fun o key => Js.set o key 0) (chartDays now) [] in
  match recentSessions with
  | Some rows =>
      fold_left
        (fun o s =>
           let day := created_day s in
           match Js.get o day with
           | Some count => Js.set o day (count + 1)
           | None => o
           end)
        rows zeros
  | None => zeros
  end.

Definition GET_dashboard (env_JWT_SECRET : option string) (cookie : option Jose.Token)
           (now : Timestamp) (listUsers : ListUsers) (store : Store)
  : Response DashboardBody :=
  let session := Auth.getSession env_JWT_SECRET (JsDate.epoch_seconds now) cookie in
  match session with
  | None => Status401 "Unauthorized"
  | Some _ =>
      match listUsers (Js.Int 1) (Js.Int 1) with
      | AuthError message => Status500 message
      | AuthOk authData =>
          let total := Js.or0 (page_total authData) in
          let allUsers :=
            match listUsers (Js.Int 1) (Js.Int 1000) with
            | AuthOk all => page_users all
            | AuthError _ => []
            end in
          let active := Z.of_nat (length (filter (isActive now) allUsers)) in
          let recent :=
            Z.of_nat (length (filter (fun u => weekAgo now <=? auth_created_at u)
                                     allUsers)) in
          let done :=
            match select (fun t => String.eqb (task_status t) "done") (tasks store) with
            | Rows rows => Z.of_nat (length rows)
            | QueryError _ => 0
            end in
          let streaks := activeStreakRows store in
          let actives :=
            match streaks with
            | Some rows => Z.of_nat (length rows)
            | None => 0
            end in
          let longest :=
            match streaks with
            | Some rows =>
                fold_left (fun max s => Z.max max (Js.or0 (streak_current s))) rows 0
            | None => 0
            end in
          let recentSessions :=
            data (select (fun s => (weekAgo now <=? session_created_at s)
                                   && String.eqb (session_mode s) "work")
                         (sessions store)) in
          Status200
            {| stats := {| totalUsers := total;
                           activeUsers := active;
                           newUsersThisWeek := recent;
                           stat_totalFocusMinutes := totalFocusMinutes store;
                           totalTasksCompleted := done;
                           activeStreaks := actives;
                           longestStreak := longest |};
               activityChart := activityByDay now recentSessions |}
      end
  end.

(* ===================================================================== *)
(** ** The feedback route (GET of /api/admin/feedback)                   *)
(* ===================================================================== *)

Record Feedback : Type := mkFeedback {
  fb_id : string;
  fb_user_id : option string;
  fb_name : option string;
  fb_type : string;
  fb_created_at : Timestamp
}.

Record FeedbackWithUser : Type := mkFeedbackWithUser {
  fb_feedback : Feedback;
  user_name : option string;
  user_avatar : option string
}.

(** The [{ data, count, error }] triple of the feedback query. *)
Inductive FeedbackResult : Type :=
| FeedbackRows : option (list Feedback) -> option Z -> FeedbackResult
| FeedbackError : string -> FeedbackResult.

(** [a * b] and [a - b] on numbers that may be [NaN]. *)
Definition num_mul (a b : Js.num) : Js.num :=
  match a, b with
  | Js.Int x, Js.Int y => Js.Int (x * y)
  | _, _ => Js.NaN
  end.

Definition num_sub (a b : Js.num) : Js.num :=
  match a, b with
  | Js.Int x, Js.Int y => Js.Int (x - y)
  | _, _ => Js.NaN
  end.

(** [.single()] on the profiles with a given id: the row when there is
    exactly one, nothing otherwise. *)
Definition single_profile (store : Store) (id : string) : option Profile :=
  match select (fun p => String.eqb (profile_id p) id) (profiles store) with
  | Rows [p] => Some p
  | _ => None
  end.

Definition withUser (store : Store) (feedback : Feedback) : FeedbackWithUser :=
  match Js.str_or_null (fb_user_id feedback) with
  | Some user_id =>
      let profile := single_profile store user_id in
      {| fb_feedback := feedback;
         user_name :=
           match Js.str_or_null (match profile with
                                 | Some p => profile_name p
                                 | None => None
                                 end) with
           | Some n => Some n
           | None => fb_name feedback
           end;
         user_avatar := match profile with
                        | Some p => profile_avatar_url p
                        | None => None
                        end |}
  | None =>
      {| fb_feedback := feedback;
         user_name := Some (Js.str_or (fb_name feedback) "Anonymous");
         user_avatar := None |}
  end.

Record FeedbackBody : Type := mkFeedbackBody {
  feedbacks : list FeedbackWithUser;
  feedback_total : Z;
  feedback_page : Js.num;
  feedback_limit : Js.num
}.

(** [query a b t] is the store's answer to the feedbacks ordered by date,
    latest first, in the range from [a] to [b], of type [t] when there is
    one. *)
Definition GET_feedback (env_JWT_SECRET : option string) (cookie : option Jose.Token)
           (now : Timestamp)
           (query : Js.num -> Js.num -> option string -> FeedbackResult)
           (store : Store) (param_page param_limit param_type : option string)
  : Response FeedbackBody :=
  let session := Auth.getSession env_JWT_SECRET (JsDate.epoch_seconds now) cookie in
  match session with
  | None => Status401 "Unauthorized"
  | Some _ =>
      let page := Js.parseInt (Js.str_or param_page "1") in
      let limit := Js.parseInt (Js.str_or param_limit "20") in
      let range_from := num_mul (num_sub page (Js.Int 1)) limit in
      let range_to := num_sub (num_mul page limit) (Js.Int 1) in
      let filter_type :=
        match Js.str_or_null param_type with
        | Some t => if String.eqb t "all" then None else Some t
        | None => None
        end in
      match query range_from range_to filter_type with
      | FeedbackError message => Status500 message
      | FeedbackRows rows count =>
          let feedbacksWithUsers :=
            map (withUser store) (match rows with
                                  | Some l => l
                                  | None => []
                                  end) in
          Status200 {| feedbacks := feedbacksWithUsers;
                       feedback_total := Js.or0 count;
                       feedback_page := page;
                       feedback_limit := limit |}
      end
  end.
(** Sample users of the auth service: one banned until second 10^7, one
    whose ban ended, one never banned. *)
Definition sampleUsers : list AuthUser :=
  [mkAuthUser "ann" (Some "Ann@Example.org") 1000 None (Some 10000000000) None None;
   mkAuthUser "bob" (Some "bob@example.org") 90000000 None (Some 5000) (Some "Bob B") None;
   mkAuthUser "cid" None 700000000 None None None None].

Definition sampleListUsers : ListUsers :=
  fun _ _ => AuthOk (mkUserPage sampleUsers (Some 3)).

(** What is checked of a date field: padded to [width] it has that many
    characters and reads back as the number. *)
Definition pad_check (width : nat) (n : Z) : bool :=
  Nat.eqb (String.length (JsDate.pad width n)) width
  && match Js.parseInt (JsDate.pad width n) with
     | Js.Int v => v =? n
     | Js.NaN => false
     end.

(** The work sessions the chart is drawn from: those of the last seven
    times 24 hours. *)
Definition recentWorkSessions (now : Timestamp) (store : Store) : list SessionRow :=
  table_rows (select (fun s => (weekAgo now <=? session_created_at s)
                               && String.eqb (session_mode s) "work")
                     (sessions store)).

(* ===================================================================== *)
(** ** The leaderboard page (formatTime, formatValue)                    *)
(* ===================================================================== *)

(** [formatTime]: [%] is the remainder that takes the sign of the
    dividend, and a template literal writes an integer in decimal. *)
Definition formatTime (minutes : Z) : string :=
  let hours := Js.floor_div60 minutes in
  let mins := Z.rem minutes 60 in
  if 0 <? hours then (decimal hours ++ "h " ++ decimal mins ++ "m")%string
  else (decimal mins ++ "m")%string.

(** [formatValue]; a metric outside the three cases falls out of the
    [switch] and gives [undefined]. *)
Definition formatValue (entry : Entry) (metric : Metric) : option string :=
  if String.eqb metric "focus_time" then Some (formatTime (focus_time_minutes entry))
  else if String.eqb metric "tasks" then
    Some (decimal (tasks_completed entry) ++ " tasks")%string
  else if String.eqb metric "streak" then
    Some (decimal (current_streak entry) ++ " days")%string
  else None.

(** A decimal digit. *)
Definition is_digit (c : ascii) : bool :=
  let n := Z.of_nat (nat_of_ascii c) in (48 <=? n) && (n <=? 57).

Fixpoint all_digits (s : string) : bool :=
  match s with
  | String c r => is_digit c && all_digits r
  | EmptyString => true
  end.

(** A text that does not go on with a digit. *)
Definition no_digit_ahead (s : string) : bool :=
  match s with
  | String c _ => negb (is_digit c)
  | EmptyString => true
  end.

(* ===================================================================== *)
(** ** The model at work                                                 *)
(* ===================================================================== *)

(** Monday 2 November 2026, noon: the day starts at midnight, the week on
    Sunday 1 November, the month on 1 November. *)
Example getDateRange_today :
  getDateRange 1793620800000 "today" = Some 1793577600000.
Proof. reflexivity. Qed.

Example getDateRange_week :
  getDateRange 1793620800000 "week" = Some (1793577600000 - 86400000).
Proof. reflexivity. Qed.

Example getDateRange_month :
  getDateRange 1793620800000 "month" = Some (1793577600000 - 86400000).
Proof. reflexivity. Qed.

(** A week that starts in the month before: Friday 1 March 2024. *)
Example getDateRange_week_across_months :
  option_map JsDate.toISOString_date (getDateRange 1709294400000 "week")
  = Some "2024-02-25".
Proof. reflexivity. Qed.

Example parseInt_examples :
  map Js.parseInt ["100"; "  -5x"; "abc"; "0x1f"; "12.5"]
  = [Js.Int 100; Js.Int (-5); Js.NaN; Js.Int 31; Js.Int 12].
Proof. reflexivity. Qed.

(** A negative offset counts from the end, as [slice] does. *)
Example slice_negative_offset :
  Js.slice [1; 2; 3; 4; 5] (Js.Int (-2)) (Js.add (Js.Int (-2)) (Js.Int 100)) = [4; 5].
Proof. reflexivity. Qed.

(** A session is valid for seven days from the second it was opened. *)
Lemma createSession_valid (env_JWT_SECRET : option string) (opened now : Z) :
  now < opened + 7 * 24 * 60 * 60 ->
  exists payload,
    Auth.getSession env_JWT_SECRET now (Some (Auth.createSession env_JWT_SECRET opened))
    = Some payload
    /\ Jose.role payload = Some "admin".
Proof.
  intros Hnow. unfold Auth.getSession, Auth.createSession, Jose.sign7d,
    Auth.verifySession, Jose.jwtVerify.
  rewrite String.eqb_refl. simpl.
  destruct (opened + 604800 <=? now) eqn:He.
  - apply Z.leb_le in He. lia.
  - eexists. split; reflexivity.
Qed.

(* ===================================================================== *)
(** ** Rank assignment                                                   *)
(* ===================================================================== *)

Section RankLoop.
Variable metric : Metric.

Lemma currentValue_with_rank (e : Entry) (r : Z) :
  currentValue metric (with_rank e r) = currentValue metric e.
Proof. unfold currentValue; simpl. reflexivity. Qed.

Lemma assignRanks_from_erase index currentRank previousValue entries :
  map (fun e => with_rank e 0)
      (assignRanks_from metric index currentRank previousValue entries)
  = map (fun e => with_rank e 0) entries.
Proof.
  revert index currentRank previousValue.
  induction entries as [|e rest IH]; intros; simpl; [reflexivity|].
  now rewrite IH.
Qed.

Lemma assignRanks_from_head index currentRank previousValue e rest :
  rank_at (assignRanks_from metric index currentRank previousValue (e :: rest)) 0
  = Some (next_rank index currentRank previousValue (currentValue metric e)).
Proof. reflexivity. Qed.

Lemma assignRanks_from_step index currentRank previousValue entries :
  forall (i : nat) (prev cur : Entry),
    nth_error entries i = Some prev ->
    nth_error entries (S i) = Some cur ->
    rank_at (assignRanks_from metric index currentRank previousValue entries) (S i)
    = if currentValue metric cur =? currentValue metric prev
      then rank_at (assignRanks_from metric index currentRank previousValue entries) i
      else Some (index + Z.of_nat (S i) + 1).
Proof.
  revert index currentRank previousValue.
  induction entries as [|e rest IH]; intros index currentRank previousValue i prev cur Hp Hc.
  - destruct i; discriminate.
  - destruct i as [|i].
    + simpl in Hp. injection Hp as ->.
      destruct rest as [|e' rest']; [discriminate|].
      simpl in Hc. injection Hc as ->.
      unfold rank_at. simpl.
      destruct (currentValue metric cur =? currentValue metric prev); reflexivity.
    + simpl in Hp.
      change (nth_error (e :: rest) (S (S i))) with (nth_error rest (S i)) in Hc.
      specialize (IH (index + 1)
                     (next_rank index currentRank previousValue (currentValue metric e))
                     (Some (currentValue metric e)) i prev cur Hp Hc).
      unfold rank_at in *. simpl assignRanks_from.
      change (nth_error (?x :: ?l) (S ?n)) with (nth_error l n).
      unfold next_rank in IH. rewrite IH.
      destruct (currentValue metric cur =? currentValue metric prev); [reflexivity|].
      f_equal. lia.
Qed.

End RankLoop.

(** C1. Rank assignment is standard competition ranking.  Ranking keeps the
    entries and their order and only fills in [rank]; the first entry gets
    rank 1; an entry whose metric value differs from that of the entry just
    before it gets its 1-based position as rank, and an entry tied with the
    one before it gets that entry's rank.  Metric values 10, 10, 8, 5, 5
    give ranks 1, 1, 3, 4, 4, whatever the metric. *)
Theorem assignRanks_competition (metric : Metric) (entries : list Entry) :
  let ranked := assignRanks metric entries in
  map (fun e => with_rank e 0) ranked = map (fun e => with_rank e 0) entries
  /\ (entries <> [] -> rank_at ranked 0 = Some 1)
  /\ (forall (i : nat) (prev cur : Entry),
         nth_error entries i = Some prev ->
         nth_error entries (S i) = Some cur ->
         (currentValue metric cur <> currentValue metric prev ->
          rank_at ranked (S i) = Some (Z.of_nat (S i) + 1))
         /\ (currentValue metric cur = currentValue metric prev ->
             rank_at ranked (S i) = rank_at ranked i))
  /\ (map (currentValue metric) entries = [10; 10; 8; 5; 5] ->
      map rank ranked = [1; 1; 3; 4; 4]).
Proof.
  intro ranked. subst ranked. unfold assignRanks.
  split; [apply assignRanks_from_erase|].
  split.
  { intros Hne. destruct entries as [|e rest]; [contradiction|]. reflexivity. }
  split.
  { intros i prev cur Hp Hc.
    pose proof (assignRanks_from_step metric 0 1 None entries i Hp Hc) as H.
    split; intros Hv.
    - apply Z.eqb_neq in Hv. rewrite Hv in H. rewrite H. f_equal.
    - apply Z.eqb_eq in Hv. rewrite Hv in H. exact H. }
  intros Hvals.
  destruct entries as [|e1 [|e2 [|e3 [|e4 [|e5 [|e6 rest]]]]]]; try discriminate.
  simpl in Hvals.
  injection Hvals as H1 H2 H3 H4 H5.
  simpl. rewrite H1, H2, H3, H4, H5. reflexivity.
Qed.

(** An instance of C1: five users ranked by tasks completed. *)
Lemma assignRanks_competition_witness :
  let entries := map (fun p => mkEntry (fst p) None None 0 (snd p) 0 0)
                     [("a", 10); ("b", 10); ("c", 8); ("d", 5); ("e", 5)] in
  let ranked := assignRanks "tasks" entries in
  rank_at ranked 0 = Some 1
  /\ rank_at ranked 1 = rank_at ranked 0
  /\ rank_at ranked 2 = Some 3
  /\ map rank ranked = [1; 1; 3; 4; 4].
Proof.
  intros entries ranked.
  destruct (assignRanks_competition "tasks" entries) as (_ & Hfirst & Hstep & Hex).
  split; [apply Hfirst; discriminate|].
  split.
  { apply (Hstep 0%nat (mkEntry "a" None None 0 10 0 0) (mkEntry "b" None None 0 10 0 0));
      reflexivity. }
  split.
  { apply (Hstep 1%nat (mkEntry "b" None None 0 10 0 0) (mkEntry "c" None None 0 8 0 0));
      try reflexivity. vm_compute. discriminate. }
  apply Hex. reflexivity.
Defined.

(* ===================================================================== *)
(** ** Sorting                                                           *)
(* ===================================================================== *)

Section SortFacts.
Variable A : Type.
Variable cmp : A -> A -> Z.

Lemma insert_perm (x : A) (l : list A) :
  Permutation (Js.insert cmp x l) (x :: l).
Proof.
  induction l as [|y r IH]; simpl; [apply Permutation_refl|].
  destruct (cmp x y <=? 0); [apply Permutation_refl|].
  eapply perm_trans; [apply perm_skip, IH|apply perm_swap].
Qed.

Lemma sort_perm (l : list A) : Permutation (Js.sort cmp l) l.
Proof.
  induction l as [|x r IH]; simpl; [constructor|].
  eapply perm_trans; [apply insert_perm|]. now apply perm_skip.
Qed.

(** A comparator that never asks for a swap leaves the array as it is. *)
Lemma sort_unchanged (l : list A) :
  (forall a b, cmp a b <= 0) -> Js.sort cmp l = l.
Proof.
  intros Hle. induction l as [|x r IH]; simpl; [reflexivity|].
  rewrite IH. destruct r as [|y r']; simpl; [reflexivity|].
  specialize (Hle x y). apply Z.leb_le in Hle. now rewrite Hle.
Qed.

(** A comparator of the form [key b - key a] sorts the keys downwards. *)
Section ByKey.
Variable key : A -> Z.
Hypothesis cmp_key : forall a b, cmp a b = key b - key a.

Lemma insert_non_increasing (x : A) (l : list A) :
  non_increasing (map key l) ->
  non_increasing (map key (Js.insert cmp x l)).
Proof.
  unfold non_increasing.
  induction l as [|y r IH]; intros Hs; simpl.
  - constructor; constructor.
  - simpl in Hs. apply StronglySorted_inv in Hs. destruct Hs as [Hr Hy].
    destruct (cmp x y <=? 0) eqn:Hc.
    + apply Z.leb_le in Hc. rewrite cmp_key in Hc.
      simpl. constructor.
      * constructor; assumption.
      * constructor; [lia|].
        eapply Forall_impl; [|exact Hy]. simpl. intros z Hz. lia.
    + apply Z.leb_gt in Hc. rewrite cmp_key in Hc.
      simpl. constructor; [apply IH, Hr|].
      assert (Hall : Forall (fun z => z <= key y) (map key (x :: r))).
      { simpl. constructor; [lia|exact Hy]. }
      eapply Permutation_Forall; [|exact Hall].
      apply Permutation_map, Permutation_sym, insert_perm.
Qed.

Lemma sort_non_increasing (l : list A) :
  non_increasing (map key (Js.sort cmp l)).
Proof.
  induction l as [|x r IH]; simpl; [constructor|].
  now apply insert_non_increasing.
Qed.
End ByKey.
End SortFacts.

Lemma non_increasing_skipn (n : nat) (l : list Z) :
  non_increasing l -> non_increasing (skipn n l).
Proof.
  unfold non_increasing. revert l.
  induction n as [|n IH]; intros l Hs; [exact Hs|].
  destruct l as [|x r]; [exact Hs|].
  simpl. apply IH. now apply StronglySorted_inv in Hs.
Qed.

Lemma non_increasing_firstn (n : nat) (l : list Z) :
  non_increasing l -> non_increasing (firstn n l).
Proof.
  unfold non_increasing. revert l.
  induction n as [|n IH]; intros l Hs; [constructor|].
  destruct l as [|x r]; [constructor|].
  apply StronglySorted_inv in Hs. destruct Hs as [Hr Hx].
  simpl. constructor; [now apply IH|].
  rewrite <- (firstn_skipn n r) in Hx. now apply Forall_app in Hx.
Qed.

Lemma slice_map {A B : Type} (f : A -> B) (l : list A) (start stop : Js.num) :
  map f (Js.slice l start stop) = Js.slice (map f l) start stop.
Proof.
  unfold Js.slice. rewrite length_map, <- firstn_map, <- skipn_map. reflexivity.
Qed.

Lemma non_increasing_slice (l : list Z) (start stop : Js.num) :
  non_increasing l -> non_increasing (Js.slice l start stop).
Proof.
  intros Hs. unfold Js.slice.
  now apply non_increasing_firstn, non_increasing_skipn.
Qed.

(** Ranking changes no field but [rank]. *)
Lemma assignRanks_map (metric : Metric) (B : Type) (f : Entry -> B) (l : list Entry) :
  (forall e r, f (with_rank e r) = f e) ->
  map f (assignRanks metric l) = map f l.
Proof.
  intros Hf. unfold assignRanks.
  transitivity (map f (map (fun e => with_rank e 0)
                           (assignRanks_from metric 0 1 None l))).
  - rewrite map_map. apply map_ext. intros a. symmetry. apply Hf.
  - rewrite assignRanks_from_erase, map_map. apply map_ext. intros a. apply Hf.
Qed.

Lemma comparator_valid (metric : Metric) :
  In metric ["focus_time"; "tasks"; "streak"] ->
  forall a b, comparator metric a b = currentValue metric b - currentValue metric a.
Proof.
  intros Hin a b. simpl in Hin.
  destruct Hin as [<-|[<-|[<-|[]]]]; reflexivity.
Qed.

Lemma rankedEntries_non_increasing (metric : Metric) profiles sessions tasks streaks :
  In metric ["focus_time"; "tasks"; "streak"] ->
  non_increasing
    (map (currentValue metric)
         (rankedEntries metric profiles sessions tasks streaks)).
Proof.
  intros Hin. unfold rankedEntries.
  rewrite assignRanks_map by (intros; apply currentValue_with_rank).
  apply sort_non_increasing. now apply comparator_valid.
Qed.

(** What a successful answer of the leaderboard query is made of. *)
Lemma GET_Status200 env cookie now param_period param_metric param_limit param_offset
      store body :
  GET env cookie now param_period param_metric param_limit param_offset store
  = Status200 body ->
  let period := Js.str_or param_period "all" in
  let metric := Js.str_or param_metric "focus_time" in
  let limit := Js.parseInt (Js.str_or param_limit "100") in
  let offset := Js.parseInt (Js.str_or param_offset "0") in
  let start := getDateRange now period in
  exists sessions tasks,
    sessionsQuery start store = Rows sessions
    /\ tasksQuery start store = Rows tasks
    /\ body =
       let full := rankedEntries metric (data (profiles store)) sessions tasks
                                 (data (streaks store)) in
       {| body_entries := Js.slice full offset (Js.add offset limit);
          body_period := period;
          body_metric := metric;
          body_total := Z.of_nat (length full) |}.
Proof.
  intros H; intros period metric limit offset start. unfold GET in H.
  destruct (Auth.getSession env (JsDate.epoch_seconds now) cookie) as [payload|];
    [|discriminate].
  fold period in H. fold metric in H. fold limit in H. fold offset in H.
  fold start in H.
  destruct (sessionsQuery start store) as [sessions|e]; [|discriminate].
  destruct (tasksQuery start store) as [tasks|e]; [|discriminate].
  exists sessions, tasks. repeat split. now injection H as <-.
Qed.

(** C2. Whatever the period and the data, the entries the leaderboard query
    returns for one of the three metrics do not go up in that metric: focus
    minutes for [focus_time], tasks completed for [tasks], current streak
    for [streak]. *)
Theorem GET_sorted_by_metric env cookie now param_period param_metric param_limit
        param_offset store body :
  GET env cookie now param_period param_metric param_limit param_offset store
  = Status200 body ->
  (body_metric body = "focus_time" ->
   non_increasing (map focus_time_minutes (body_entries body)))
  /\ (body_metric body = "tasks" ->
      non_increasing (map tasks_completed (body_entries body)))
  /\ (body_metric body = "streak" ->
      non_increasing (map current_streak (body_entries body))).
Proof.
  intros H. apply GET_Status200 in H.
  destruct H as (sessions & tasks & _ & _ & ->). simpl.
  set (metric := Js.str_or param_metric "focus_time").
  set (limit := Js.parseInt (Js.str_or param_limit "100")).
  set (offset := Js.parseInt (Js.str_or param_offset "0")).
  assert (Hsorted : In metric ["focus_time"; "tasks"; "streak"] ->
                    non_increasing
                      (map (currentValue metric)
                           (Js.slice (rankedEntries metric (data (profiles store)) sessions
                                                    tasks (data (streaks store)))
                                     offset (Js.add offset limit)))).
  { intros Hin. rewrite slice_map.
    now apply non_increasing_slice, rankedEntries_non_increasing. }
  clearbody metric.
  repeat split; intros Hm; subst metric; apply Hsorted; simpl; tauto.
Qed.

(** An instance of C2: the sample store ranked by focus time. *)
Lemma GET_sorted_by_metric_witness :
  exists body,
    GET None sampleCookie 0 None None None None sampleStore = Status200 body
    /\ map focus_time_minutes (body_entries body) = [10; 3; 2; 0; 0]
    /\ non_increasing (map focus_time_minutes (body_entries body)).
Proof.
  eexists. split; [reflexivity|]. split; [reflexivity|].
  refine (proj1 (@GET_sorted_by_metric None sampleCookie 0 None None None None
                   sampleStore _ eq_refl) eq_refl).
Defined.

(* ===================================================================== *)
(** ** Maps, sets and the union of the three sources                     *)
(* ===================================================================== *)

Section MapFacts.
Variable V : Type.

Lemma get_set (m : Js.JsMap V) (k : string) (v : V) (u : string) :
  Js.get (Js.set m k v) u = if String.eqb k u then Some v else Js.get m u.
Proof.
  induction m as [|[k' v'] r IH]; simpl; [reflexivity|].
  destruct (String.eqb k' k) eqn:Hk; simpl.
  - apply String.eqb_eq in Hk. subst k'.
    destruct (String.eqb k u); reflexivity.
  - rewrite IH. destruct (String.eqb k' u) eqn:Hu; [|reflexivity].
    apply String.eqb_eq in Hu. subst k'. rewrite String.eqb_sym, Hk. reflexivity.
Qed.

Lemma keys_set (m : Js.JsMap V) (k : string) (v : V) (u : string) :
  In u (Js.keys (Js.set m k v)) <-> u = k \/ In u (Js.keys m).
Proof.
  unfold Js.keys. induction m as [|[k' v'] r IH]; simpl.
  - intuition congruence.
  - destruct (String.eqb k' k) eqn:Hk; simpl.
    + apply String.eqb_eq in Hk. subst k'. intuition congruence.
    + rewrite IH. intuition congruence.
Qed.

Lemma get_None (m : Js.JsMap V) (u : string) :
  ~ In u (Js.keys m) -> Js.get m u = None.
Proof.
  unfold Js.keys. induction m as [|[k' v'] r IH]; simpl; intros Hn; [reflexivity|].
  destruct (String.eqb k' u) eqn:Hu.
  - apply String.eqb_eq in Hu. tauto.
  - apply IH. tauto.
Qed.

(** The keys of a map filled by a loop of [set] calls. *)
Lemma keys_fold_set (A : Type) (key : A -> string) (val : Js.JsMap V -> A -> V)
      (rows : list A) (m : Js.JsMap V) (u : string) :
  In u (Js.keys (fold_left (fun m a => Js.set m (key a) (val m a)) rows m))
  <-> In u (map key rows) \/ In u (Js.keys m).
Proof.
  revert m. induction rows as [|a r IH]; intros m; simpl; [tauto|].
  rewrite IH, keys_set. intuition congruence.
Qed.

End MapFacts.

Lemma set_add_In (s : list string) (x u : string) :
  In u (Js.set_add s x) <-> u = x \/ In u s.
Proof.
  induction s as [|y r IH]; simpl.
  - intuition congruence.
  - destruct (String.eqb y x) eqn:Hy; simpl.
    + apply String.eqb_eq in Hy. subst y. intuition congruence.
    + rewrite IH. intuition congruence.
Qed.

Lemma set_add_NoDup (s : list string) (x : string) :
  NoDup s -> NoDup (Js.set_add s x).
Proof.
  induction s as [|y r IH]; simpl; intros Hs.
  - constructor; [intros []|constructor].
  - destruct (String.eqb y x) eqn:Hy; [exact Hs|].
    inversion Hs as [|? ? Hny Hr]; subst.
    constructor; [|now apply IH].
    rewrite set_add_In. intros [->|Hin]; [|contradiction].
    now rewrite String.eqb_refl in Hy.
Qed.

Lemma new_Set_from (xs acc : list string) :
  (forall u, In u (fold_left Js.set_add xs acc) <-> In u xs \/ In u acc)
  /\ (NoDup acc -> NoDup (fold_left Js.set_add xs acc)).
Proof.
  revert acc. induction xs as [|x r IH]; intros acc; simpl.
  - split; [tauto|auto].
  - destruct (IH (Js.set_add acc x)) as [Hin Hnd]. split.
    + intros u. rewrite Hin, set_add_In. intuition congruence.
    + intros Hacc. now apply Hnd, set_add_NoDup.
Qed.

Lemma new_Set_In (xs : list string) (u : string) :
  In u (Js.new_Set xs) <-> In u xs.
Proof.
  unfold Js.new_Set. destruct (new_Set_from xs []) as [Hin _].
  rewrite Hin. simpl. tauto.
Qed.

Lemma new_Set_NoDup (xs : list string) : NoDup (Js.new_Set xs).
Proof.
  unfold Js.new_Set. destruct (new_Set_from xs []) as [_ Hnd].
  apply Hnd. constructor.
Qed.

Lemma gte_start_in_window (start : option Timestamp) (t : Timestamp) :
  gte_start start t = true <-> in_window start t.
Proof.
  destruct start as [s|]; simpl; [apply Z.leb_le|tauto].
Qed.

Lemma sessionsQuery_user_ids start store rows u :
  sessionsQuery start store = Rows rows ->
  In u (map session_user_id rows) <-> has_work_session start store u.
Proof.
  unfold sessionsQuery, select, has_work_session.
  destruct (sessions store) as [all|e]; [|discriminate].
  intros H. injection H as <-. rewrite in_map_iff. split.
  - intros (s & Hu & Hin). apply filter_In in Hin. destruct Hin as [Hin Hp].
    apply andb_true_iff in Hp. destruct Hp as [Hm Hw].
    apply String.eqb_eq in Hm. apply gte_start_in_window in Hw.
    exists all, s. auto.
  - intros (all' & s & Hall & Hin & Hu & Hm & Hw). injection Hall as <-.
    exists s. split; [exact Hu|]. apply filter_In. split; [exact Hin|].
    apply andb_true_iff. split; [now apply String.eqb_eq|now apply gte_start_in_window].
Qed.

Lemma tasksQuery_user_ids start store rows u :
  tasksQuery start store = Rows rows ->
  In u (map task_user_id rows) <-> has_done_task start store u.
Proof.
  unfold tasksQuery, select, has_done_task.
  destruct (tasks store) as [all|e]; [|discriminate].
  intros H. injection H as <-. rewrite in_map_iff. split.
  - intros (t & Hu & Hin). apply filter_In in Hin. destruct Hin as [Hin Hp].
    apply andb_true_iff in Hp. destruct Hp as [Hm Hw].
    apply String.eqb_eq in Hm. apply gte_start_in_window in Hw.
    exists all, t. auto.
  - intros (all' & t & Hall & Hin & Hu & Hm & Hw). injection Hall as <-.
    exists t. split; [exact Hu|]. apply filter_In. split; [exact Hin|].
    apply andb_true_iff. split; [now apply String.eqb_eq|now apply gte_start_in_window].
Qed.

Lemma focusTimeMap_keys (rows : list SessionRow) (u : string) :
  In u (Js.keys (focusTimeMap rows)) <-> In u (map session_user_id rows).
Proof.
  unfold focusTimeMap.
  rewrite (keys_fold_set session_user_id
             (fun m s => Js.or0 (Js.get m (session_user_id s))
                         + Js.or0 (session_duration s)) rows [] u).
  simpl. tauto.
Qed.

Lemma tasksMap_keys (rows : list TaskRow) (u : string) :
  In u (Js.keys (tasksMap rows)) <-> In u (map task_user_id rows).
Proof.
  unfold tasksMap.
  rewrite (keys_fold_set task_user_id
             (fun m t => Js.or0 (Js.get m (task_user_id t)) + 1) rows [] u).
  simpl. tauto.
Qed.

Lemma streakMap_keys (store : Store) (u : string) :
  In u (Js.keys (streakMap (data (streaks store)))) <-> has_streak store u.
Proof.
  unfold streakMap, has_streak, data.
  destruct (streaks store) as [rows|e].
  - rewrite (keys_fold_set streak_user_id
               (fun (_ : Js.JsMap Z) s => Js.or0 (streak_current s)) rows [] u).
    simpl. rewrite in_map_iff. split.
    + intros [(s & Hu & Hin)|[]]. exists rows, s. auto.
    + intros (rows' & s & Hr & Hin & Hu). injection Hr as <-. left. now exists s.
  - simpl. split; [intros []|]. intros (rows & s & Hr & _). discriminate.
Qed.

Lemma assignRanks_from_In metric index currentRank previousValue entries e :
  In e (assignRanks_from metric index currentRank previousValue entries) ->
  exists e0 r, In e0 entries /\ e = with_rank e0 r.
Proof.
  revert index currentRank previousValue.
  induction entries as [|x rest IH]; intros index currentRank previousValue; simpl.
  - intros [].
  - intros [<-|Hin].
    + eexists _, _. split; [left; reflexivity|reflexivity].
    + destruct (IH _ _ _ Hin) as (e0 & r & Hin0 & ->).
      exists e0, r. auto.
Qed.

(** Every ranked entry is the entry built for its user, with a rank. *)
Lemma rankedEntries_In metric profiles sessions tasks streaks e :
  In e (rankedEntries metric profiles sessions tasks streaks) ->
  exists r,
    e = with_rank (buildEntry (profilesMap profiles) (focusTimeMap sessions)
                              (tasksMap tasks) (streakMap streaks) (user_id e)) r.
Proof.
  unfold rankedEntries, assignRanks, sortEntries, buildEntries. intros Hin.
  apply assignRanks_from_In in Hin. destruct Hin as (e0 & r & Hin & ->).
  apply (Permutation_in _ (sort_perm _ _)) in Hin.
  apply in_map_iff in Hin. destruct Hin as (u & <- & _).
  exists r. reflexivity.
Qed.

Lemma rankedEntries_user_ids metric profiles sessions tasks streaks :
  Permutation
    (map user_id (rankedEntries metric profiles sessions tasks streaks))
    (userIds (focusTimeMap sessions) (tasksMap tasks) (streakMap streaks)).
Proof.
  unfold rankedEntries, sortEntries, buildEntries.
  rewrite assignRanks_map by reflexivity.
  eapply perm_trans; [apply Permutation_map, sort_perm|].
  rewrite map_map. simpl. rewrite map_id. apply Permutation_refl.
Qed.

Lemma userIds_In focus tasks streak u :
  In u (userIds focus tasks streak)
  <-> In u (Js.keys focus) \/ In u (Js.keys tasks) \/ In u (Js.keys streak).
Proof.
  unfold userIds. rewrite new_Set_In, !in_app_iff. tauto.
Qed.

Lemma slice_all {A : Type} (l : list A) (n : Z) :
  Z.of_nat (length l) <= n ->
  Js.slice l (Js.Int 0) (Js.add (Js.Int 0) (Js.Int n)) = l.
Proof.
  intros Hn. unfold Js.slice, Js.add, Js.clamp_index.
  replace (0 <? 0) with false by reflexivity.
  replace (0 + n <? 0) with false by (symmetry; apply Z.ltb_ge; lia).
  rewrite (Z.min_r (0 + n)) by lia. rewrite (Z.min_l 0) by lia.
  simpl skipn. rewrite Z.sub_0_r, Z.max_l by lia. rewrite Nat2Z.id.
  apply firstn_all.
Qed.

(** C3. A successful answer is a page of a sequence [full], whose length is
    the reported total, and in which: the user ids are exactly those with a
    "work" session in the window, a "done" task in the window or a streak
    record; every such user appears once; a user in none of the three
    sources does not appear; and an entry's metric for which its user has no
    record is 0.  A page that starts at 0 and is at least as long as the
    total is the whole sequence. *)
Theorem GET_user_ids_union env cookie now param_period param_metric param_limit
        param_offset store body :
  GET env cookie now param_period param_metric param_limit param_offset store
  = Status200 body ->
  let start := getDateRange now (Js.str_or param_period "all") in
  let limit := Js.parseInt (Js.str_or param_limit "100") in
  let offset := Js.parseInt (Js.str_or param_offset "0") in
  exists full : list Entry,
    body_total body = Z.of_nat (length full)
    /\ body_entries body = Js.slice full offset (Js.add offset limit)
    /\ (forall u,
           In u (map user_id full)
           <-> has_work_session start store u
               \/ has_done_task start store u
               \/ has_streak store u)
    /\ NoDup (map user_id full)
    /\ (forall e,
           In e full ->
           (~ has_work_session start store (user_id e) -> focus_time_minutes e = 0)
           /\ (~ has_done_task start store (user_id e) -> tasks_completed e = 0)
           /\ (~ has_streak store (user_id e) -> current_streak e = 0))
    /\ (forall n,
           offset = Js.Int 0 -> limit = Js.Int n -> body_total body <= n ->
           body_entries body = full).
Proof.
  intros H start limit offset. apply GET_Status200 in H.
  destruct H as (sessions & tasks & Hs & Ht & ->). fold start in Hs, Ht.
  fold limit. fold offset.
  set (metric := Js.str_or param_metric "focus_time").
  set (full := rankedEntries metric (data (profiles store)) sessions tasks
                             (data (streaks store))).
  exists full. simpl.
  pose proof (rankedEntries_user_ids metric (data (profiles store)) sessions tasks
                                     (data (streaks store))) as Hperm.
  fold full in Hperm.
  split; [reflexivity|]. split; [reflexivity|].
  split.
  { intros u.
    rewrite <- (sessionsQuery_user_ids start store u Hs).
    rewrite <- (tasksQuery_user_ids start store u Ht).
    rewrite <- streakMap_keys, <- focusTimeMap_keys, <- tasksMap_keys, <- userIds_In.
    split; apply Permutation_in; [exact Hperm|apply Permutation_sym, Hperm]. }
  split.
  { eapply Permutation_NoDup; [apply Permutation_sym, Hperm|apply new_Set_NoDup]. }
  split.
  { intros e Hin. apply rankedEntries_In in Hin. destruct Hin as (r & He).
    rewrite He. simpl. repeat split; intros Hno.
    - rewrite get_None; [reflexivity|].
      rewrite focusTimeMap_keys, (sessionsQuery_user_ids start store _ Hs). exact Hno.
    - rewrite get_None; [reflexivity|].
      rewrite tasksMap_keys, (tasksQuery_user_ids start store _ Ht). exact Hno.
    - rewrite get_None; [reflexivity|].
      rewrite streakMap_keys. exact Hno. }
  intros n Ho Hl Hn. rewrite Ho, Hl. now apply slice_all.
Qed.

(** An instance of C3 on the sample store. *)
Lemma GET_user_ids_union_witness :
  exists full : list Entry,
    5 = Z.of_nat (length full)
    /\ NoDup (map user_id full)
    /\ (forall u,
           In u (map user_id full)
           <-> has_work_session None sampleStore u
               \/ has_done_task None sampleStore u
               \/ has_streak sampleStore u).
Proof.
  destruct (@GET_user_ids_union None sampleCookie 0 None (Some "tasks") None None
              sampleStore _ eq_refl)
    as (full & Htotal & _ & Hids & Hnodup & _).
  exists full. split; [exact Htotal|]. split; [exact Hnodup|exact Hids].
Defined.

(* ===================================================================== *)
(** ** Focus minutes                                                     *)
(* ===================================================================== *)

Lemma sumZ_perm (l l' : list Z) : Permutation l l' -> sumZ l = sumZ l'.
Proof.
  unfold sumZ. induction 1; simpl; lia.
Qed.

(** The loop that fills [focusTimeMap] adds up, for each user, the seconds
    of that user's rows. *)
Lemma focusTimeMap_get_from (rows : list SessionRow) (m : Js.JsMap Z) (u : string) :
  Js.or0 (Js.get
            (fold_left
               (fun m s =>
                  let current := Js.or0 (Js.get m (session_user_id s)) in
                  Js.set m (session_user_id s) (current + Js.or0 (session_duration s)))
               rows m) u)
  = Js.or0 (Js.get m u)
    + sumZ (map (fun s => Js.or0 (session_duration s))
                (filter (fun s => String.eqb (session_user_id s) u) rows)).
Proof.
  revert m. induction rows as [|s r IH]; intros m; simpl; [lia|].
  rewrite IH, get_set.
  destruct (String.eqb (session_user_id s) u) eqn:Hu; simpl; [|lia].
  apply String.eqb_eq in Hu. rewrite Hu. lia.
Qed.

Lemma focusTimeMap_get (rows : list SessionRow) (u : string) :
  Js.or0 (Js.get (focusTimeMap rows) u)
  = sumZ (map (fun s => Js.or0 (session_duration s))
              (filter (fun s => String.eqb (session_user_id s) u) rows)).
Proof.
  unfold focusTimeMap. rewrite focusTimeMap_get_from. reflexivity.
Qed.

Lemma slice_In {A : Type} (l : list A) (start stop : Js.num) (x : A) :
  In x (Js.slice l start stop) -> In x l.
Proof.
  unfold Js.slice.
  set (n := Z.to_nat _). set (k := Z.to_nat _). intros Hin.
  rewrite <- (firstn_skipn k l). apply in_or_app. right.
  rewrite <- (firstn_skipn n (skipn k l)). apply in_or_app. now left.
Qed.

(** [Math.round(n / 60)] is within half a minute of [n] seconds, and a half
    goes up. *)
Lemma round_div60_nearest (n : Z) :
  -30 < 60 * Js.round_div60 n - n <= 30.
Proof.
  unfold Js.round_div60.
  pose proof (Z.div_mod (n + 30) 60 ltac:(lia)).
  pose proof (Z.mod_pos_bound (n + 30) 60 ltac:(lia)).
  lia.
Qed.

(** C4. The focus minutes of every returned entry are obtained from the sum
    of the seconds of its user's "work" sessions in the window, in whatever
    order the rows come, by one rounding to the nearest minute (a half goes
    up); 50s + 50s + 50s is 150s and gives 3. *)
Theorem GET_focus_minutes_round_once env cookie now param_period param_metric param_limit
        param_offset store body :
  GET env cookie now param_period param_metric param_limit param_offset store
  = Status200 body ->
  let start := getDateRange now (Js.str_or param_period "all") in
  (forall e durations,
      In e (body_entries body) ->
      Permutation durations (work_durations start store (user_id e)) ->
      focus_time_minutes e = Js.round_div60 (sumZ durations)
      /\ -30 < 60 * focus_time_minutes e - sumZ durations <= 30)
  /\ Js.round_div60 (sumZ [50; 50; 50]) = 3.
Proof.
  intros H start. apply GET_Status200 in H.
  destruct H as (sessions & tasks & Hs & Ht & ->). fold start in Hs, Ht.
  split; [|reflexivity].
  simpl. intros e durations Hin Hperm.
  apply slice_In, rankedEntries_In in Hin. destruct Hin as (r & He).
  assert (Hfocus : focus_time_minutes e = Js.round_div60 (sumZ durations)).
  { rewrite (sumZ_perm Hperm). unfold work_durations. rewrite Hs. simpl table_rows.
    rewrite <- focusTimeMap_get. rewrite He at 1. reflexivity. }
  split; [exact Hfocus|]. rewrite Hfocus. apply round_div60_nearest.
Qed.

(** An instance of C4: the sample user with three sessions of 50 seconds. *)
Lemma GET_focus_minutes_round_once_witness :
  exists body,
    GET None sampleCookie 0 None None None None sampleStore = Status200 body
    /\ work_durations None sampleStore "ann" = [50; 50; 50]
    /\ forall e, In e (body_entries body) -> user_id e = "ann" ->
                 focus_time_minutes e = 3.
Proof.
  eexists. split; [reflexivity|]. split; [reflexivity|].
  intros e Hin Hu.
  destruct (@GET_focus_minutes_round_once None sampleCookie 0 None None None None
              sampleStore _ eq_refl) as [Hall _].
  destruct (Hall e [50; 50; 50] Hin) as [Hfocus _].
  - rewrite Hu. apply Permutation_refl.
  - exact Hfocus.
Defined.

(* ===================================================================== *)
(** ** Pagination                                                        *)
(* ===================================================================== *)


(** With an offset and a limit that are not negative, the slice skips
    [offset] elements and keeps at most [limit]. *)
Lemma slice_nonneg {A : Type} (l : list A) (o n : Z) :
  0 <= o -> 0 <= n ->
  Js.slice l (Js.Int o) (Js.add (Js.Int o) (Js.Int n))
  = firstn (Z.to_nat n) (skipn (Z.to_nat o) l).
Proof.
  intros Ho Hn. unfold Js.slice, Js.add, Js.clamp_index.
  replace (o <? 0) with false by (symmetry; apply Z.ltb_ge; lia).
  replace (o + n <? 0) with false by (symmetry; apply Z.ltb_ge; lia).
  set (len := Z.of_nat (length l)).
  assert (Hlen : Z.to_nat len = length l) by (unfold len; apply Nat2Z.id).
  destruct (Z_le_gt_dec o len) as [Hle|Hgt].
  - rewrite (Z.min_l o len) by lia.
    destruct (Z_le_gt_dec (o + n) len) as [Hle'|Hgt'].
    + rewrite Z.min_l by lia. rewrite Z.max_l by lia.
      replace (o + n - o) with n by lia. reflexivity.
    + rewrite Z.min_r by lia. rewrite Z.max_l by lia.
      rewrite !firstn_all2; [reflexivity| |]; rewrite length_skipn; lia.
  - rewrite !Z.min_r by lia. rewrite Z.sub_diag. simpl firstn.
    rewrite (skipn_all2 (n := Z.to_nat o)) by lia.
    now rewrite firstn_nil.
Qed.




(* ===================================================================== *)
(** ** An unrecognised metric                                            *)
(* ===================================================================== *)

Lemma comparator_unknown (metric : Metric) :
  ~ In metric ["focus_time"; "tasks"; "streak"] ->
  forall a b, comparator metric a b = 0.
Proof.
  intros Hnot a b. unfold comparator.
  destruct (String.eqb metric "focus_time") eqn:H1;
    [apply String.eqb_eq in H1; simpl in Hnot; intuition congruence|].
  destruct (String.eqb metric "tasks") eqn:H2;
    [apply String.eqb_eq in H2; simpl in Hnot; intuition congruence|].
  destruct (String.eqb metric "streak") eqn:H3;
    [apply String.eqb_eq in H3; simpl in Hnot; intuition congruence|].
  reflexivity.
Qed.

(** C6. For a metric that is none of [focus_time], [tasks] and [streak],
    every comparison the sort makes returns 0 and the sort leaves the
    entries as they are; the request is answered, not rejected, and the
    sequence that is paginated lists the users in the order in which the
    union of the three sources was traversed. *)
Theorem GET_unknown_metric_keeps_order env cookie now param_period param_metric param_limit
        param_offset store :
  let metric := Js.str_or param_metric "focus_time" in
  let start := getDateRange now (Js.str_or param_period "all") in
  let limit := Js.parseInt (Js.str_or param_limit "100") in
  let offset := Js.parseInt (Js.str_or param_offset "0") in
  ~ In metric ["focus_time"; "tasks"; "streak"] ->
  (forall a b, comparator metric a b = 0)
  /\ (forall entries, sortEntries metric entries = entries)
  /\ (forall payload sessions tasks,
         Auth.getSession env (JsDate.epoch_seconds now) cookie = Some payload ->
         sessionsQuery start store = Rows sessions ->
         tasksQuery start store = Rows tasks ->
         exists body full,
           GET env cookie now param_period param_metric param_limit param_offset store
           = Status200 body
           /\ body_metric body = metric
           /\ body_total body = Z.of_nat (length full)
           /\ body_entries body = Js.slice full offset (Js.add offset limit)
           /\ map user_id full
              = userIds (focusTimeMap sessions) (tasksMap tasks)
                        (streakMap (data (streaks store)))).
Proof.
  intros metric start limit offset Hnot.
  pose proof (comparator_unknown Hnot) as Hcmp.
  assert (Hsort : forall entries, sortEntries metric entries = entries).
  { intros entries. apply sort_unchanged. intros a b. rewrite Hcmp. lia. }
  split; [exact Hcmp|]. split; [exact Hsort|].
  intros payload sessions tasks Hsession Hs Ht.
  unfold GET. rewrite Hsession. fold metric. fold start. rewrite Hs, Ht.
  eexists _, _. split; [reflexivity|]. simpl.
  split; [reflexivity|]. split; [reflexivity|]. split; [reflexivity|].
  unfold rankedEntries. rewrite assignRanks_map by reflexivity.
  rewrite Hsort. unfold buildEntries. rewrite map_map. simpl. apply map_id.
Qed.

(** An instance of C6: the sample store asked for the metric [xp]. *)
Lemma GET_unknown_metric_keeps_order_witness :
  exists body,
    GET None sampleCookie 0 None (Some "xp") None None sampleStore
    = Status200 body
    /\ map user_id (body_entries body) = ["ann"; "bob"; "cid"; "dee"; "eve"].
Proof.
  destruct (@GET_unknown_metric_keeps_order None sampleCookie 0 None (Some "xp")
              None None sampleStore)
    as (_ & _ & Hget).
  - simpl. intros [H|[H|[H|[]]]]; discriminate.
  - destruct (Hget _ _ _ eq_refl eq_refl eq_refl) as (body & full & Hbody & _).
    exists body. split; [exact Hbody|].
    injection Hbody as <-. reflexivity.
Defined.

(* ===================================================================== *)
(** ** CSV export                                                        *)
(* ===================================================================== *)

Lemma append_assoc (x y z : string) :
  ((x ++ y) ++ z = x ++ (y ++ z))%string.
Proof.
  induction x as [|c x IH]; simpl; [reflexivity|]. now rewrite IH.
Qed.

Lemma plain_uint (d : Decimal.uint) : plain (NilEmpty.string_of_uint d).
Proof.
  unfold plain. induction d; simpl; intuition.
Qed.

Lemma plain_decimal (z : Z) : plain (decimal z).
Proof.
  unfold decimal, NilZero.string_of_int, NilZero.string_of_uint.
  destruct (Z.to_int z) as [d|d].
  - destruct d; try apply plain_uint. unfold plain. simpl. auto.
  - destruct d; try (destruct (plain_uint d) as (H1 & H2 & H3));
      unfold plain; simpl; auto.
Qed.

(** A plain text is written as it is. *)
Lemma field_plain (s : string) : plain s -> CsvStringify.field s = s.
Proof.
  intros (Hq & Hd & Hr). unfold CsvStringify.field. now rewrite Hq, Hd, Hr.
Qed.

Lemma record_csvRecord (entry : Entry) :
  CsvStringify.record columns (csvRecord entry) = csv_row entry.
Proof.
  unfold CsvStringify.record, CsvStringify.line, columns, csvRecord, csv_row.
  cbn [map CsvStringify.lookup String.eqb Ascii.eqb Bool.eqb CsvStringify.cast].
  fold (decimal (rank entry)). fold (decimal (focus_time_minutes entry)).
  fold (decimal (tasks_completed entry)). fold (decimal (current_streak entry)).
  rewrite !(field_plain (plain_decimal _)).
  cbn [String.concat]. unfold CsvStringify.delimiter.
  rewrite !append_assoc. reflexivity.
Qed.

(** C7. The export answers with a CSV text that always starts with the
    header line, also for no entries; the header and every line have the
    columns Rank, Name, Focus Time (min), Tasks Completed, Current Streak in
    that order; an entry without a name has Unknown in the Name column; the
    text depends on the entries only, not on the period, the metric or the
    date of the export. *)
Theorem POST_csv env cookie now (entries : list Entry) (period metric : string) payload :
  Auth.getSession env (JsDate.epoch_seconds now) cookie = Some payload ->
  exists file,
    POST env cookie now entries period metric = Status200 file
    /\ csv_body file
       = (csv_header ++ String.concat EmptyString (map csv_row entries))%string
    /\ CsvStringify.headers columns = csv_header
    /\ (entries = [] -> csv_body file = csv_header)
    /\ (forall entry,
           name entry = None ->
           csv_row entry
           = (decimal (rank entry) ++ ",Unknown,"
              ++ decimal (focus_time_minutes entry) ++ ","
              ++ decimal (tasks_completed entry) ++ ","
              ++ decimal (current_streak entry)
              ++ CsvStringify.record_delimiter)%string)
    /\ (forall env' cookie' now' period' metric' file',
           POST env' cookie' now' entries period' metric' = Status200 file' ->
           csv_body file' = csv_body file).
Proof.
  intros Hsession. unfold POST. rewrite Hsession.
  eexists. split; [reflexivity|]. simpl.
  assert (Hbody : CsvStringify.stringify (map csvRecord entries) columns
                  = (csv_header
                     ++ String.concat EmptyString (map csv_row entries))%string).
  { unfold CsvStringify.stringify. rewrite map_map.
    rewrite (map_ext _ _ record_csvRecord). reflexivity. }
  split; [exact Hbody|]. split; [reflexivity|].
  split.
  { intros ->. reflexivity. }
  split.
  { intros entry Hname. unfold csv_row. rewrite Hname.
    cbn [Js.str_or Js.str_or_null].
    replace (CsvStringify.field "Unknown") with "Unknown" by reflexivity.
    cbn [String.append]. reflexivity. }
  intros env' cookie' now' period' metric' file' H.
  destruct (Auth.getSession env' (JsDate.epoch_seconds now') cookie');
    [|discriminate].
  injection H as <-. reflexivity.
Qed.

(** An instance of C7: a named entry and an entry without a name, exported
    on 2 November 2026. *)
Lemma POST_csv_witness :
  exists file,
    POST None (Some (Auth.createSession None 1793577600)) 1793620800000
         [mkEntry "bob" (Some "Bob") None 10 2 2 1; mkEntry "cid" None None 2 0 0 2]
         "all" "focus_time" = Status200 file
    /\ csv_body file
       = String.concat CsvStringify.record_delimiter
           ["Rank,Name,Focus Time (min),Tasks Completed,Current Streak";
            "1,Bob,10,2,2";
            "2,Unknown,2,0,0";
            EmptyString]
    /\ filename file = "leaderboard-all-focus_time-2026-11-02.csv".
Proof.
  destruct (@POST_csv None (Some (Auth.createSession None 1793577600)) 1793620800000
              [mkEntry "bob" (Some "Bob") None 10 2 2 1; mkEntry "cid" None None 2 0 0 2]
              "all" "focus_time" _ eq_refl)
    as (file & Hpost & Hbody & _).
  exists file. split; [exact Hpost|].
  split; [rewrite Hbody; reflexivity|].
  injection Hpost as <-. reflexivity.
Defined.

(* ===================================================================== *)
(** ** Session validation                                                *)
(* ===================================================================== *)

Section VerifySession.
Variable env_JWT_SECRET : option string.
Variable now : Z.

(** Every error of the library ends in the same [null]. *)
Lemma verifySession_error (token : Jose.Token) (err : Jose.JoseError) :
  Jose.jwtVerify now token (Auth.JWT_SECRET env_JWT_SECRET) = inl err ->
  Auth.verifySession env_JWT_SECRET now token = None.
Proof.
  unfold Auth.verifySession. now intros ->.
Qed.

Lemma verifySession_accepts (token : Jose.Token) :
  signature_verifies (Auth.JWT_SECRET env_JWT_SECRET) token -> ~ expiry_passed now token ->
  exists payload,
    decoded_claims token = Some payload
    /\ Auth.verifySession env_JWT_SECRET now token = Some payload.
Proof.
  unfold Auth.verifySession.
  destruct token as [raw|k payload]; simpl; [intros []|].
  intros -> Hexp. exists payload. split; [reflexivity|].
  rewrite String.eqb_refl.
  destruct (Jose.exp payload) as [e|]; [|reflexivity].
  destruct (e <=? now) eqn:He; [|reflexivity].
  apply Z.leb_le in He. contradiction.
Qed.

Lemma verifySession_rejects (token : Jose.Token) :
  ~ (signature_verifies (Auth.JWT_SECRET env_JWT_SECRET) token /\ ~ expiry_passed now token) ->
  Auth.verifySession env_JWT_SECRET now token = None.
Proof.
  unfold Auth.verifySession.
  destruct token as [raw|k payload]; simpl; [reflexivity|].
  intros Hnot.
  destruct (String.eqb k (Auth.JWT_SECRET env_JWT_SECRET)) eqn:Hk; [|reflexivity].
  apply String.eqb_eq in Hk.
  destruct (Jose.exp payload) as [e|]; [|tauto].
  destruct (e <=? now) eqn:He; [reflexivity|].
  apply Z.leb_gt in He. exfalso. apply Hnot. split; [exact Hk|lia].
Qed.

End VerifySession.

(** C8. [verifySession] returns the claims of the token exactly when its
    signature verifies under the secret and its expiry has not passed; in
    every other case it returns the one value [null], whichever error the
    library raised (malformed token, bad signature, expired); a token whose
    expiry has passed is rejected although its signature verifies. *)
Theorem verifySession_uniform (env_JWT_SECRET : option string) (now : Z)
        (token : Jose.Token) :
  let key := Auth.JWT_SECRET env_JWT_SECRET in
  (signature_verifies key token /\ ~ expiry_passed now token ->
   exists payload,
     decoded_claims token = Some payload
     /\ Auth.verifySession env_JWT_SECRET now token = Some payload)
  /\ (~ (signature_verifies key token /\ ~ expiry_passed now token) ->
      Auth.verifySession env_JWT_SECRET now token = None)
  /\ (forall err,
         Jose.jwtVerify now token key = inl err ->
         Auth.verifySession env_JWT_SECRET now token = None)
  /\ (signature_verifies key token -> expiry_passed now token ->
      Jose.jwtVerify now token key = inl Jose.JWTExpired
      /\ Auth.verifySession env_JWT_SECRET now token = None).
Proof.
  intros key.
  split; [intros [Hs He]; now apply verifySession_accepts|].
  split; [apply verifySession_rejects|].
  split; [intros err; apply verifySession_error|].
  intros Hs He.
  assert (Hexpired : Jose.jwtVerify now token key = inl Jose.JWTExpired).
  { destruct token as [raw|k payload]; simpl in *; [contradiction|].
    subst k. rewrite String.eqb_refl.
    destruct (Jose.exp payload) as [e|]; [|contradiction].
    apply Z.leb_le in He. now rewrite He. }
  split; [exact Hexpired|]. now apply (verifySession_error _ _ _ Hexpired).
Qed.

(** An instance of C8: the token issued at second 1000, looked at within its
    seven days, after them, under another secret, and a string that is no
    token. *)
Lemma verifySession_uniform_witness :
  let issued := Auth.createSession None 1000 in
  (exists payload, Auth.verifySession None 2000 issued = Some payload
                   /\ Jose.role payload = Some "admin")
  /\ Auth.verifySession None (1000 + 604800) issued = None
  /\ Auth.verifySession (Some "another secret") 2000 issued = None
  /\ Auth.verifySession None 2000 (Jose.Malformed "abc") = None.
Proof.
  intros issued.
  split.
  { destruct (proj1 (verifySession_uniform None 2000 issued)) as (payload & Hd & Hv).
    - split; [reflexivity|]. simpl. lia.
    - exists payload. split; [exact Hv|]. injection Hd as <-. reflexivity. }
  split.
  { apply (proj2 (proj2 (proj2 (verifySession_uniform None (1000 + 604800) issued)))).
    - reflexivity.
    - simpl. lia. }
  split.
  { apply (proj1 (proj2 (verifySession_uniform (Some "another secret") 2000 issued))).
    intros [Hs _]. discriminate Hs. }
  apply (proj1 (proj2 (proj2 (verifySession_uniform None 2000 (Jose.Malformed "abc"))))
           Jose.JWSInvalid).
  reflexivity.
Defined.

(* ===================================================================== *)
(** ** The dashboard's total of focus minutes                            *)
(* ===================================================================== *)

Lemma fold_left_sum (A : Type) (f : A -> Z) (rows : list A) (acc : Z) :
  fold_left (fun sum a => sum + f a) rows acc = acc + sumZ (map f rows).
Proof.
  revert acc. induction rows as [|a r IH]; intros acc; simpl; [lia|].
  rewrite IH. lia.
Qed.

(** A successful answer of the dashboard, field by field. *)
Lemma GET_dashboard_Status200 env cookie now listUsers store body :
  GET_dashboard env cookie now listUsers store = Status200 body ->
  exists authData,
    listUsers (Js.Int 1) (Js.Int 1) = AuthOk authData
    /\ totalUsers (stats body) = Js.or0 (page_total authData)
    /\ body
       = let allUsers :=
           match listUsers (Js.Int 1) (Js.Int 1000) with
           | AuthOk all => page_users all
           | AuthError _ => []
           end in
         let streaks := activeStreakRows store in
         {| stats :=
              {| totalUsers := Js.or0 (page_total authData);
                 activeUsers := Z.of_nat (length (filter (isActive now) allUsers));
                 newUsersThisWeek :=
                   Z.of_nat (length (filter (fun u => weekAgo now <=? auth_created_at u)
                                            allUsers));
                 stat_totalFocusMinutes := totalFocusMinutes store;
                 totalTasksCompleted :=
                   match select (fun t => String.eqb (task_status t) "done")
                                (tasks store) with
                   | Rows rows => Z.of_nat (length rows)
                   | QueryError _ => 0
                   end;
                 activeStreaks := match streaks with
                                  | Some rows => Z.of_nat (length rows)
                                  | None => 0
                                  end;
                 longestStreak :=
                   match streaks with
                   | Some rows =>
                       fold_left (fun max s => Z.max max (Js.or0 (streak_current s)))
                                 rows 0
                   | None => 0
                   end |};
            activityChart :=
              activityByDay now
                (data (select (fun s => (weekAgo now <=? session_created_at s)
                                        && String.eqb (session_mode s) "work")
                              (sessions store))) |}.
Proof.
  unfold GET_dashboard. intros H.
  destruct (Auth.getSession env (JsDate.epoch_seconds now) cookie); [|discriminate].
  destruct (listUsers (Js.Int 1) (Js.Int 1)) as [authData|e]; [|discriminate].
  exists authData.
  assert (Hbody : body = match Status200 body with
                         | Status200 b => b
                         | _ => body
                         end) by reflexivity.
  rewrite <- H in Hbody. rewrite Hbody.
  split; [reflexivity|]. split; reflexivity.
Qed.

(** C9. The dashboard's [totalFocusMinutes], as the dashboard route
    answers it, is the sum, over the "work" sessions, of the whole minutes
    of each session, the seconds beyond being dropped session by session,
    and 0 when the session query fails; this is another rule than the
    leaderboard's: three sessions of 50 seconds count 0 minutes on the
    dashboard and 3 on the leaderboard. *)
Theorem totalFocusMinutes_truncates_each env cookie now listUsers (store : Store) body :
  GET_dashboard env cookie now listUsers store = Status200 body ->
  (forall rows,
      sessions store = Rows rows ->
      stat_totalFocusMinutes (stats body)
      = sumZ (map (fun s => Js.floor_div60 (Js.or0 (session_duration s)))
                  (filter (fun s => String.eqb (session_mode s) "work") rows)))
  /\ ((exists message, sessions store = QueryError message) ->
      stat_totalFocusMinutes (stats body) = 0)
  /\ (forall d, 0 <= d - 60 * Js.floor_div60 d < 60)
  /\ (exists dashboard,
         GET_dashboard None sampleCookie 0 sampleListUsers threeFifties
         = Status200 dashboard
         /\ stat_totalFocusMinutes (stats dashboard) = 0)
  /\ exists leaderboard,
      GET None sampleCookie 0 None None None None threeFifties = Status200 leaderboard
      /\ map focus_time_minutes (body_entries leaderboard) = [3].
Proof.
  intros H.
  destruct (GET_dashboard_Status200 _ _ _ _ _ H) as (authData & _ & _ & Hbody).
  assert (Hstat : stat_totalFocusMinutes (stats body) = totalFocusMinutes store).
  { rewrite Hbody. reflexivity. }
  rewrite Hstat. split.
  { intros rows Hrows. unfold totalFocusMinutes, select. rewrite Hrows. simpl.
    now rewrite fold_left_sum. }
  split.
  { intros (message & Hm). unfold totalFocusMinutes, select. now rewrite Hm. }
  split.
  { intros d. unfold Js.floor_div60.
    pose proof (Z.div_mod d 60 ltac:(lia)).
    pose proof (Z.mod_pos_bound d 60 ltac:(lia)). lia. }
  split.
  { eexists. split; reflexivity. }
  eexists. split; reflexivity.
Qed.

(** An instance of C9 on the sample store: 600s, 90s and three times 50s. *)
Lemma totalFocusMinutes_truncates_each_witness :
  exists body,
    GET_dashboard None sampleCookie 86400000 sampleListUsers sampleStore = Status200 body
    /\ stat_totalFocusMinutes (stats body) = 10 + 1 + 0 + 0 + 0.
Proof.
  eexists. split; [reflexivity|].
  rewrite (proj1 (@totalFocusMinutes_truncates_each None sampleCookie 86400000
                    sampleListUsers sampleStore _ eq_refl) _ eq_refl).
  reflexivity.
Defined.

(* ===================================================================== *)
(** ** An unrecognised period                                            *)
(* ===================================================================== *)

(** C10. For a period that is none of [today], [week] and [month], be it
    [all] or any other string, [getDateRange] gives no start: every
    timestamp is in the window, and the leaderboard query answers as it
    does for [all], the echoed period apart, instead of rejecting the
    request. *)
Theorem getDateRange_unknown_period (now : Timestamp) (param_period : option string) :
  let period := Js.str_or param_period "all" in
  ~ In period ["today"; "week"; "month"] ->
  getDateRange now period = None
  /\ (forall t, in_window (getDateRange now period) t)
  /\ (forall env cookie param_metric param_limit param_offset store,
         same_leaderboard
           (GET env cookie now param_period param_metric param_limit param_offset store)
           (GET env cookie now (Some "all") param_metric param_limit param_offset store)
         /\ forall body,
             GET env cookie now param_period param_metric param_limit param_offset store
             = Status200 body ->
             body_period body = period).
Proof.
  intros period Hnot.
  assert (Hnone : getDateRange now period = None).
  { unfold getDateRange.
    destruct (String.eqb period "today") eqn:H1;
      [apply String.eqb_eq in H1; simpl in Hnot; intuition congruence|].
    destruct (String.eqb period "week") eqn:H2;
      [apply String.eqb_eq in H2; simpl in Hnot; intuition congruence|].
    destruct (String.eqb period "month") eqn:H3;
      [apply String.eqb_eq in H3; simpl in Hnot; intuition congruence|].
    reflexivity. }
  split; [exact Hnone|]. split; [intros t; now rewrite Hnone|].
  intros env cookie param_metric param_limit param_offset store.
  unfold GET. fold period. rewrite Hnone.
  change (getDateRange now (Js.str_or (Some "all") "all")) with (@None Timestamp).
  destruct (Auth.getSession env (JsDate.epoch_seconds now) cookie) as [payload|];
    [|split; [reflexivity|discriminate]].
  destruct (sessionsQuery None store) as [sessions|e];
    [|split; [reflexivity|discriminate]].
  destruct (tasksQuery None store) as [tasks|e];
    [|split; [reflexivity|discriminate]].
  split; [simpl; auto|].
  intros body H. injection H as <-. reflexivity.
Qed.

(** An instance of C10: the period [year] over the sample store. *)
Lemma getDateRange_unknown_period_witness :
  getDateRange 5000 "year" = None
  /\ exists body,
      GET None sampleCookie 5000 (Some "year") None None None sampleStore
      = Status200 body
      /\ body_period body = "year"
      /\ body_total body = 5.
Proof.
  destruct (@getDateRange_unknown_period 5000 (Some "year")) as (Hnone & _ & Hget).
  - simpl. intros [H|[H|[H|[]]]]; discriminate.
  - split; [exact Hnone|].
    eexists. split; [reflexivity|].
    split; [|reflexivity].
    apply (proj2 (Hget None sampleCookie None None None sampleStore)).
    reflexivity.
Defined.

(* ===================================================================== *)
(** ** Ranks as counts                                                   *)
(* ===================================================================== *)

Lemma non_increasing_app_le (a b : list Z) :
  non_increasing (a ++ b) -> forall x y, In x a -> In y b -> y <= x.
Proof.
  unfold non_increasing. induction a as [|h t IH]; simpl; intros Hs x y Hx Hy.
  - contradiction.
  - apply StronglySorted_inv in Hs. destruct Hs as [Ht Hh].
    destruct Hx as [<-|Hx].
    + rewrite Forall_forall in Hh. apply Hh. apply in_or_app. now right.
    + now apply IH.
Qed.

Lemma count_greater_app f v a b :
  count_greater f v (a ++ b) = count_greater f v a + count_greater f v b.
Proof.
  unfold count_greater. rewrite filter_app, length_app. lia.
Qed.

Lemma count_greater_none f v l :
  (forall e, In e l -> f e <= v) -> count_greater f v l = 0.
Proof.
  unfold count_greater. induction l as [|e r IH]; simpl; intros Hall; [reflexivity|].
  replace (v <? f e) with false
    by (symmetry; apply Z.ltb_ge; apply Hall; now left).
  apply IH. intros e' He'. apply Hall. now right.
Qed.

Lemma count_greater_all f v l :
  (forall e, In e l -> v < f e) -> count_greater f v l = Z.of_nat (length l).
Proof.
  unfold count_greater. induction l as [|e r IH]; simpl; intros Hall; [reflexivity|].
  replace (v <? f e) with true
    by (symmetry; apply Z.ltb_lt; apply Hall; now left).
  simpl. f_equal. f_equal.
  apply Nat2Z.inj. apply IH. intros e' He'. apply Hall. now right.
Qed.

Lemma last_seen_snoc (pre : list Entry) (e : Entry) :
  last_seen (pre ++ [e]) = Some e.
Proof.
  unfold last_seen. now rewrite rev_unit.
Qed.

Lemma last_seen_In (pre : list Entry) (e : Entry) :
  last_seen pre = Some e -> In e pre.
Proof.
  unfold last_seen. destruct (rev pre) as [|x r] eqn:Hr; [discriminate|].
  intros H. injection H as <-. apply in_rev. rewrite Hr. now left.
Qed.

(** The invariant of the rank loop on a sequence that does not go up:
    after the entries [pre], [currentRank] is one more than the number of
    entries above the last one seen. *)
Lemma assignRanks_from_count (metric : Metric) (l pre : list Entry)
      (currentRank : Z) (previousValue : option Z) :
  non_increasing (map (currentValue metric) (pre ++ l)) ->
  previousValue = option_map (currentValue metric) (last_seen pre) ->
  (forall p, last_seen pre = Some p ->
             currentRank
             = 1 + count_greater (currentValue metric) (currentValue metric p) (pre ++ l)) ->
  (last_seen pre = None -> currentRank = 1 /\ pre = []) ->
  assignRanks_from metric (Z.of_nat (length pre)) currentRank previousValue l
  = map (fun e =>
           with_rank e (1 + count_greater (currentValue metric) (currentValue metric e)
                                          (pre ++ l)))
        l.
Proof.
  revert pre currentRank previousValue.
  induction l as [|e rest IH]; intros pre currentRank previousValue Hs Hpv Hcr Hnil;
    [reflexivity|].
  set (v := currentValue metric) in *.
  assert (Hrest : forall x, In x rest -> v x <= v e).
  { intros x Hx.
    replace (pre ++ e :: rest) with ((pre ++ [e]) ++ rest) in Hs
      by (now rewrite <- app_assoc).
    rewrite map_app in Hs.
    apply (non_increasing_app_le _ _ Hs).
    - apply in_map. apply in_or_app. right. now left.
    - now apply in_map. }
  assert (Hpre : forall x, In x pre -> v e <= v x).
  { intros x Hx. rewrite map_app in Hs.
    apply (non_increasing_app_le _ _ Hs).
    - now apply in_map.
    - apply in_map. now left. }
  assert (Hrank :
            next_rank (Z.of_nat (length pre)) currentRank previousValue (v e)
            = 1 + count_greater v (v e) (pre ++ e :: rest)).
  { rewrite count_greater_app.
    replace (count_greater v (v e) (e :: rest)) with 0
      by (symmetry; apply count_greater_none; intros x [<-|Hx]; [lia|now apply Hrest]).
    unfold next_rank. rewrite Hpv.
    destruct (last_seen pre) as [p|] eqn:Hlast; cbn [option_map].
    - destruct (v e =? v p) eqn:Heq; cbn [negb].
      + apply Z.eqb_eq in Heq. rewrite (Hcr p eq_refl).
        rewrite <- Heq. rewrite count_greater_app.
        replace (count_greater v (v e) (e :: rest)) with 0
          by (symmetry; apply count_greater_none; intros x [<-|Hx];
              [lia|now apply Hrest]).
        reflexivity.
      + apply Z.eqb_neq in Heq.
        rewrite count_greater_all; [lia|].
        intros x Hx.
        assert (Hp : In p pre) by now apply last_seen_In.
        assert (Hxp : v p <= v x).
        { (* the last entry seen is the least of [pre] *)
          unfold last_seen in Hlast.
          destruct (rev pre) as [|q rq] eqn:Hrev; [discriminate|].
          injection Hlast as ->.
          assert (Hsplit : pre = rev rq ++ [p]).
          { rewrite <- (rev_involutive pre), Hrev. reflexivity. }
          rewrite Hsplit in Hx. apply in_app_or in Hx. destruct Hx as [Hx|[<-|[]]]; [|lia].
          rewrite Hsplit, <- app_assoc, map_app in Hs.
          apply (non_increasing_app_le _ _ Hs).
          - now apply in_map.
          - apply in_map. now left. }
        specialize (Hpre p Hp). lia.
    - destruct (Hnil eq_refl) as [-> ->]. reflexivity. }
  simpl assignRanks_from. fold v.
  change (match previousValue with
          | Some previous =>
              if negb (v e =? previous) then Z.of_nat (length pre) + 1 else currentRank
          | None => currentRank
          end)
    with (next_rank (Z.of_nat (length pre)) currentRank previousValue (v e)).
  rewrite Hrank. simpl map. f_equal.
  replace (pre ++ e :: rest) with ((pre ++ [e]) ++ rest) in *
    by (now rewrite <- app_assoc).
  replace (Z.of_nat (length pre) + 1) with (Z.of_nat (length (pre ++ [e])))
    by (rewrite length_app; simpl; lia).
  apply IH.
  - exact Hs.
  - now rewrite last_seen_snoc.
  - intros p Hp. rewrite last_seen_snoc in Hp. now injection Hp as <-.
  - rewrite last_seen_snoc. discriminate.
Qed.

(** On a sequence that does not go up in the metric, the rank given to an
    entry is one more than the number of entries whose value is strictly
    above its own. *)
Lemma assignRanks_counts_greater (metric : Metric) (entries : list Entry) :
  non_increasing (map (currentValue metric) entries) ->
  assignRanks metric entries
  = map (fun e =>
           with_rank e (1 + count_greater (currentValue metric)
                                          (currentValue metric e) entries))
        entries.
Proof.
  intros Hs. unfold assignRanks.
  apply (@assignRanks_from_count metric entries [] 1 None); simpl; auto.
  intros p Hp. discriminate.
Qed.

Lemma count_greater_map f v l l' :
  map f l = map f l' -> count_greater f v l = count_greater f v l'.
Proof.
  unfold count_greater. intros H. apply (f_equal Z.of_nat). revert l' H.
  induction l as [|e r IH]; intros [|e' r'] H; try discriminate; [reflexivity|].
  simpl in H. injection H as He Hr. simpl. rewrite He.
  destruct (v <? f e'); simpl; rewrite (IH r' Hr); reflexivity.
Qed.

Lemma count_greater_perm f v l l' :
  Permutation l l' -> count_greater f v l = count_greater f v l'.
Proof.
  unfold count_greater. intros H. f_equal. apply Permutation_length.
  induction H as [|x l l' H IH|x y l|l l' l'' H1 IH1 H2 IH2]; simpl.
  - constructor.
  - destruct (v <? f x); [now constructor|exact IH].
  - destruct (v <? f x); destruct (v <? f y);
      try apply Permutation_refl; apply perm_swap.
  - eapply perm_trans; eassumption.
Qed.

(** The entries are built without a rank. *)
Lemma buildEntries_erased profs focus tasks streak :
  map (fun e => with_rank e 0) (buildEntries profs focus tasks streak)
  = buildEntries profs focus tasks streak.
Proof. unfold buildEntries. rewrite map_map. reflexivity. Qed.

(** X1. For one of the three metrics, the answer is a page of a sequence
    that holds, their ranks apart, the entries built from the store for the
    users of the window, each once; and the rank of every entry of it, so of
    every returned entry, is one more than the number of these users whose
    value in that metric is strictly above its own, counted over the whole
    leaderboard and not over the page. *)
Theorem GET_rank_counts_greater env cookie now param_period param_metric param_limit
        param_offset store body :
  GET env cookie now param_period param_metric param_limit param_offset store
  = Status200 body ->
  In (body_metric body) ["focus_time"; "tasks"; "streak"] ->
  let limit := Js.parseInt (Js.str_or param_limit "100") in
  let offset := Js.parseInt (Js.str_or param_offset "0") in
  let start := getDateRange now (body_period body) in
  exists (full : list Entry) (sessions : list SessionRow) (tasks : list TaskRow),
    sessionsQuery start store = Rows sessions
    /\ tasksQuery start store = Rows tasks
    /\ body_total body = Z.of_nat (length full)
    /\ body_entries body = Js.slice full offset (Js.add offset limit)
    /\ let built :=
         buildEntries (profilesMap (data (profiles store))) (focusTimeMap sessions)
                      (tasksMap tasks) (streakMap (data (streaks store))) in
       Permutation (map (fun e => with_rank e 0) full) built
       /\ forall e,
           In e full ->
           rank e
           = 1 + count_greater (currentValue (body_metric body))
                               (currentValue (body_metric body) e) built
           /\ rank e
              = 1 + count_greater (currentValue (body_metric body))
                                  (currentValue (body_metric body) e) full.
Proof.
  intros H Hvalid; intros limit offset start. apply GET_Status200 in H.
  destruct H as (sessions & tasks & Hs & Ht & ->).
  cbn [body_metric body_entries body_total body_period] in *.
  set (metric := Js.str_or param_metric "focus_time") in *.
  eexists. exists sessions, tasks.
  split; [exact Hs|]. split; [exact Ht|].
  split; [reflexivity|]. split; [reflexivity|].
  unfold rankedEntries.
  set (built := buildEntries _ _ _ _).
  set (sorted := sortEntries metric built).
  assert (Hperm : Permutation sorted built) by apply sort_perm.
  assert (Hsorted : non_increasing (map (currentValue metric) sorted)).
  { apply sort_non_increasing. now apply comparator_valid. }
  split.
  - unfold assignRanks. rewrite assignRanks_from_erase.
    eapply perm_trans; [apply Permutation_map, Hperm|].
    unfold built. rewrite buildEntries_erased. apply Permutation_refl.
  - intros e Hin.
    rewrite (count_greater_map _ _ (assignRanks metric sorted) sorted)
      by (apply assignRanks_map; intros; apply currentValue_with_rank).
    rewrite (count_greater_perm _ _ Hperm).
    rewrite (@assignRanks_counts_greater metric sorted Hsorted) in Hin.
    apply in_map_iff in Hin. destruct Hin as (e0 & <- & _).
    rewrite currentValue_with_rank. cbn [rank with_rank].
    rewrite (count_greater_perm _ _ Hperm). split; reflexivity.
Qed.

(** An instance of X1: the sample store ranked by tasks completed. *)
Lemma GET_rank_counts_greater_witness :
  exists full : list Entry,
    5 = Z.of_nat (length full)
    /\ forall e,
        In e full ->
        rank e
        = 1 + count_greater tasks_completed (tasks_completed e)
                (buildEntries (profilesMap (data (profiles sampleStore)))
                              (focusTimeMap (table_rows (sessionsQuery None sampleStore)))
                              (tasksMap (table_rows (tasksQuery None sampleStore)))
                              (streakMap (data (streaks sampleStore)))).
Proof.
  destruct (@GET_rank_counts_greater None sampleCookie 0 None (Some "tasks") None None
              sampleStore _ eq_refl)
    as (full & sessions & tasks & Hs & Ht & Htotal & _ & _ & Hrank).
  - simpl. auto.
  - vm_compute in Hs. injection Hs as <-. vm_compute in Ht. injection Ht as <-.
    exists full. split; [exact Htotal|].
    intros e Hin. exact (proj1 (Hrank e Hin)).
Defined.

(* ===================================================================== *)
(** ** Ranks along the sequence                                          *)
(* ===================================================================== *)

Lemma StronglySorted_skipn_gen {A : Type} (R : A -> A -> Prop) (n : nat) (l : list A) :
  StronglySorted R l -> StronglySorted R (skipn n l).
Proof.
  revert l. induction n as [|n IH]; intros l Hs; [exact Hs|].
  destruct l as [|x r]; [exact Hs|].
  simpl. apply IH. now apply StronglySorted_inv in Hs.
Qed.

Lemma StronglySorted_firstn_gen {A : Type} (R : A -> A -> Prop) (n : nat) (l : list A) :
  StronglySorted R l -> StronglySorted R (firstn n l).
Proof.
  revert l. induction n as [|n IH]; intros l Hs; [constructor|].
  destruct l as [|x r]; [constructor|].
  apply StronglySorted_inv in Hs. destruct Hs as [Hr Hx].
  simpl. constructor; [now apply IH|].
  rewrite <- (firstn_skipn n r) in Hx. now apply Forall_app in Hx.
Qed.

(** The rank loop, from a state in which [currentRank] is between 1 and
    [index + 1], gives ranks that never go down and that stay between
    [currentRank] and the position reached. *)
Lemma assignRanks_from_ranks (metric : Metric) (entries : list Entry)
      (index currentRank : Z) (previousValue : option Z) :
  1 <= currentRank <= index + 1 ->
  let ranks := map rank (assignRanks_from metric index currentRank previousValue entries) in
  StronglySorted Z.le ranks
  /\ Forall (fun r => currentRank <= r <= index + Z.of_nat (length entries)) ranks.
Proof.
  revert index currentRank previousValue.
  induction entries as [|e rest IH]; intros index currentRank previousValue Hcr ranks.
  - split; constructor.
  - subst ranks. simpl assignRanks_from.
    set (r := match previousValue with
              | Some previous =>
                  if negb (currentValue metric e =? previous) then index + 1
                  else currentRank
              | None => currentRank
              end).
    assert (Hr : currentRank <= r <= index + 1).
    { subst r. destruct previousValue as [p|]; [|lia].
      destruct (negb (currentValue metric e =? p)); lia. }
    destruct (IH (index + 1) r (Some (currentValue metric e)) ltac:(lia)) as [Hs Hall].
    cbn [map rank with_rank length]. split.
    + constructor; [exact Hs|].
      eapply Forall_impl; [|exact Hall]. simpl. intros x Hx. lia.
    + constructor; [lia|].
      eapply Forall_impl; [|exact Hall]. simpl. intros x Hx. lia.
Qed.

Lemma assignRanks_length (metric : Metric) (l : list Entry) :
  length (assignRanks metric l) = length l.
Proof.
  rewrite <- (length_map user_id (assignRanks metric l)), <- (length_map user_id l).
  f_equal. now apply assignRanks_map.
Qed.

(** X2. Whatever the metric, recognised or not, the ranks of the returned
    entries never go down along the page, and each lies between 1 and the
    total. *)
Theorem GET_ranks_ascend env cookie now param_period param_metric param_limit
        param_offset store body :
  GET env cookie now param_period param_metric param_limit param_offset store
  = Status200 body ->
  StronglySorted Z.le (map rank (body_entries body))
  /\ Forall (fun r => 1 <= r <= body_total body) (map rank (body_entries body)).
Proof.
  intros H. apply GET_Status200 in H.
  destruct H as (sessions & tasks & _ & _ & ->).
  cbn [body_entries body_total].
  unfold rankedEntries.
  set (metric := Js.str_or param_metric "focus_time").
  set (sorted := sortEntries metric _).
  destruct (@assignRanks_from_ranks metric sorted 0 1 None ltac:(lia)) as [Hs Hall].
  fold (assignRanks metric sorted) in Hs, Hall.
  rewrite assignRanks_length.
  rewrite slice_map. split.
  - unfold Js.slice.
    now apply StronglySorted_firstn_gen, StronglySorted_skipn_gen.
  - apply Forall_forall. intros r Hin. apply slice_In in Hin.
    rewrite Forall_forall in Hall. specialize (Hall r Hin). lia.
Qed.

(** An instance of X2: the sample store asked for an unknown metric. *)
Lemma GET_ranks_ascend_witness :
  exists body,
    GET None sampleCookie 0 None (Some "xp") None None sampleStore = Status200 body
    /\ map rank (body_entries body) = [1; 2; 3; 3; 5]
    /\ StronglySorted Z.le (map rank (body_entries body)).
Proof.
  eexists. split; [reflexivity|]. split; [reflexivity|].
  exact (proj1 (@GET_ranks_ascend None sampleCookie 0 None (Some "xp") None None
                  sampleStore _ eq_refl)).
Defined.

(* ===================================================================== *)
(** ** Ranking again                                                     *)
(* ===================================================================== *)

Lemma assignRanks_from_erased (metric : Metric) (l l' : list Entry)
      (index currentRank : Z) (previousValue : option Z) :
  map (fun e => with_rank e 0) l = map (fun e => with_rank e 0) l' ->
  assignRanks_from metric index currentRank previousValue l
  = assignRanks_from metric index currentRank previousValue l'.
Proof.
  revert l' index currentRank previousValue.
  induction l as [|e r IH]; intros [|e' r'] index currentRank previousValue H;
    try discriminate; [reflexivity|].
  simpl in H. injection H as Hu Hn Ha Hf Ht Hc Hr.
  assert (Hv : currentValue metric e = currentValue metric e').
  { unfold currentValue. now rewrite Hf, Ht, Hc. }
  simpl. rewrite Hv. f_equal.
  - unfold with_rank. now rewrite Hu, Hn, Ha, Hf, Ht, Hc.
  - now apply IH.
Qed.

(** X3. The ranks that the entries carry when they come in play no part:
    two sequences that differ only in their [rank] fields are ranked alike,
    so ranking a ranked sequence again changes nothing. *)
Theorem assignRanks_idempotent (metric : Metric) (entries entries' : list Entry) :
  map (fun e => with_rank e 0) entries = map (fun e => with_rank e 0) entries' ->
  assignRanks metric entries = assignRanks metric entries'
  /\ assignRanks metric (assignRanks metric entries) = assignRanks metric entries.
Proof.
  intros H. unfold assignRanks. split.
  - now apply assignRanks_from_erased.
  - apply assignRanks_from_erased. apply assignRanks_from_erase.
Qed.

(** An instance of X3: entries that come in with ranks 7 and 9. *)
Lemma assignRanks_idempotent_witness :
  map rank (assignRanks "tasks" [mkEntry "a" None None 0 4 0 7; mkEntry "b" None None 0 2 0 9])
  = [1; 2].
Proof.
  rewrite (proj1 (@assignRanks_idempotent "tasks"
                    [mkEntry "a" None None 0 4 0 7; mkEntry "b" None None 0 2 0 9]
                    [mkEntry "a" None None 0 4 0 0; mkEntry "b" None None 0 2 0 0]
                    eq_refl)).
  reflexivity.
Defined.

(* ===================================================================== *)
(** ** Tasks completed and current streak                                *)
(* ===================================================================== *)

Lemma tasksMap_get_from (rows : list TaskRow) (m : Js.JsMap Z) (u : string) :
  Js.or0 (Js.get
            (fold_left
               (fun m t =>
                  let current := Js.or0 (Js.get m (task_user_id t)) in
                  Js.set m (task_user_id t) (current + 1))
               rows m) u)
  = Js.or0 (Js.get m u)
    + Z.of_nat (length (filter (fun t => String.eqb (task_user_id t) u) rows)).
Proof.
  revert m. induction rows as [|t r IH]; intros m; simpl; [lia|].
  rewrite IH, get_set.
  destruct (String.eqb (task_user_id t) u) eqn:Hu; [|lia].
  apply String.eqb_eq in Hu. rewrite Hu. cbn [Js.or0 length]. lia.
Qed.

Lemma streakMap_get (rows : list StreakRow) (u : string) :
  Js.get (streakMap (Some rows)) u
  = option_map (fun s => Js.or0 (streak_current s))
               (find (fun s => String.eqb (streak_user_id s) u) (rev rows)).
Proof.
  unfold streakMap. induction rows as [|s r IH] using rev_ind; [reflexivity|].
  rewrite fold_left_app, rev_unit. cbn [fold_left find].
  rewrite get_set, IH.
  destruct (String.eqb (streak_user_id s) u); reflexivity.
Qed.

(** X4. In every returned entry, the tasks completed are the number of the
    user's "done" tasks updated in the window, and the current streak is
    the value of the user's last streak record ([null] counting as 0), or 0
    when the user has none or the streak query failed. *)
Theorem GET_tasks_and_streak env cookie now param_period param_metric param_limit
        param_offset store body :
  GET env cookie now param_period param_metric param_limit param_offset store
  = Status200 body ->
  let start := getDateRange now (Js.str_or param_period "all") in
  forall e,
    In e (body_entries body) ->
    tasks_completed e = Z.of_nat (length (done_tasks_of start store (user_id e)))
    /\ current_streak e
       = match last_streak_of store (user_id e) with
         | Some s => Js.or0 (streak_current s)
         | None => 0
         end.
Proof.
  intros H start. apply GET_Status200 in H.
  destruct H as (sessions & tasks & Hs & Ht & ->). fold start in Hs, Ht.
  cbn [body_entries]. intros e Hin.
  apply slice_In, rankedEntries_In in Hin. destruct Hin as (r & He).
  split.
  - unfold done_tasks_of. rewrite Ht. cbn [table_rows].
    rewrite He at 1. cbn [tasks_completed with_rank buildEntry].
    unfold tasksMap. rewrite tasksMap_get_from. reflexivity.
  - unfold last_streak_of.
    rewrite He at 1. cbn [current_streak with_rank buildEntry].
    destruct (streaks store) as [rows|err]; cbn [data table_rows].
    + rewrite streakMap_get.
      destruct (find _ (rev rows)); reflexivity.
    + reflexivity.
Qed.

(** An instance of X4: bob on the sample store. *)
Lemma GET_tasks_and_streak_witness :
  exists body,
    GET None sampleCookie 0 None None None None sampleStore = Status200 body
    /\ forall e, In e (body_entries body) -> user_id e = "bob" ->
                 tasks_completed e = 2 /\ current_streak e = 2.
Proof.
  eexists. split; [reflexivity|]. intros e Hin Hu.
  destruct (@GET_tasks_and_streak None sampleCookie 0 None None None None
              sampleStore _ eq_refl e Hin) as [Ht Hs].
  rewrite Hu in Ht, Hs. split; [exact Ht|exact Hs].
Defined.

(* ===================================================================== *)
(** ** Failures of the store                                             *)
(* ===================================================================== *)

(** X5. With a valid session, the leaderboard query fails, with status 500
    and the store's message, exactly when the session query fails or, that
    one having succeeded, the task query fails.  A failure of the profile
    query or of the streak query fails nothing: the answer is 200, without
    names and avatars, respectively with all streaks at 0. *)
Theorem GET_store_failures env cookie now param_period param_metric param_limit
        param_offset store payload :
  Auth.getSession env (JsDate.epoch_seconds now) cookie = Some payload ->
  let answer :=
    GET env cookie now param_period param_metric param_limit param_offset store in
  (forall message,
      answer = Status500 message
      <-> sessions store = QueryError message
          \/ ((exists rows, sessions store = Rows rows)
              /\ tasks store = QueryError message))
  /\ ((exists body, answer = Status200 body)
      <-> (exists rows, sessions store = Rows rows)
          /\ (exists rows, tasks store = Rows rows))
  /\ (forall body e,
         answer = Status200 body -> In e (body_entries body) ->
         ((exists message, profiles store = QueryError message) ->
          name e = None /\ avatar_url e = None)
         /\ ((exists message, streaks store = QueryError message) ->
             current_streak e = 0)).
Proof.
  intros Hsession answer. subst answer.
  split; [|split].
  - intros message. unfold GET. rewrite Hsession.
    unfold sessionsQuery, tasksQuery, select.
    destruct (sessions store) as [srows|serr]; destruct (tasks store) as [trows|terr];
      split; intros H;
      repeat match goal with
             | H : _ \/ _ |- _ => destruct H
             | H : _ /\ _ |- _ => destruct H
             | H : exists _, _ |- _ => destruct H
             end;
      try discriminate; try congruence.
    + injection H as <-. right. split; [now exists srows|reflexivity].
    + injection H as <-. now left.
    + injection H as <-. now left.
  - unfold GET. rewrite Hsession.
    unfold sessionsQuery, tasksQuery, select.
    destruct (sessions store) as [srows|serr]; destruct (tasks store) as [trows|terr];
      split; intros H;
      repeat match goal with
             | H : _ /\ _ |- _ => destruct H
             | H : exists _, _ |- _ => destruct H
             end;
      try discriminate.
    + split; eexists; reflexivity.
    + eexists. reflexivity.
  - intros body e H Hin. apply GET_Status200 in H.
    destruct H as (srows & trows & _ & _ & ->). cbn [body_entries] in Hin.
    apply slice_In, rankedEntries_In in Hin. destruct Hin as (r & He).
    split.
    + intros (message & Hp). rewrite He, Hp. split; reflexivity.
    + intros (message & Hp). rewrite He, Hp. reflexivity.
Qed.

(** An instance of X5: the sample store with its streak query failing. *)
Lemma GET_store_failures_witness :
  exists body,
    GET None sampleCookie 0 None (Some "streak") None None
        (mkStore (profiles sampleStore) (sessions sampleStore) (tasks sampleStore)
                 (QueryError "timeout"))
    = Status200 body
    /\ body_total body = 4
    /\ forall e, In e (body_entries body) -> current_streak e = 0.
Proof.
  eexists. split; [reflexivity|]. split; [reflexivity|].
  intros e Hin.
  destruct (@GET_store_failures None sampleCookie 0 None (Some "streak") None None
              (mkStore (profiles sampleStore) (sessions sampleStore) (tasks sampleStore)
                       (QueryError "timeout")) _ eq_refl)
    as (_ & _ & Hdegraded).
  apply (proj2 (Hdegraded _ e eq_refl Hin)).
  now exists "timeout".
Defined.

(* ===================================================================== *)
(** ** Who gets in                                                       *)
(* ===================================================================== *)

Lemma getSession_Some_iff env now cookie :
  (exists payload, Auth.getSession env now cookie = Some payload)
  <-> valid_cookie env now cookie.
Proof.
  unfold valid_cookie, Auth.getSession. split.
  - intros (payload & H).
    destruct cookie as [token|]; [|discriminate].
    exists token. split; [reflexivity|].
    assert (Hv : Auth.verifySession env now token = Some payload).
    { destruct token as [[|c raw]|k p]; [discriminate|exact H|exact H]. }
    destruct token as [raw|k p].
    + discriminate Hv.
    + unfold Auth.verifySession, Jose.jwtVerify in Hv. simpl.
      destruct (String.eqb k (Auth.JWT_SECRET env)) eqn:Hk; [|discriminate].
      apply String.eqb_eq in Hk. split; [exact Hk|].
      destruct (Jose.exp p) as [e|]; [|tauto].
      destruct (e <=? now) eqn:He; [discriminate|].
      apply Z.leb_gt in He. lia.
  - intros (token & -> & Hs & He).
    destruct (verifySession_accepts env now token Hs He) as (payload & _ & Hv).
    exists payload.
    destruct token as [[|c raw]|k p]; [destruct Hs|exact Hv|exact Hv].
Qed.

(** X6. The leaderboard query and the export answer 401 exactly when the
    session cookie is missing or does not verify at the time of the request
    (malformed, signed under another secret, or expired), and then whatever
    the parameters, the body and the store are. *)
Theorem leaderboard_requires_session env cookie now :
  (~ valid_cookie env (JsDate.epoch_seconds now) cookie ->
   (forall param_period param_metric param_limit param_offset store,
       GET env cookie now param_period param_metric param_limit param_offset store
       = Status401 "Unauthorized")
   /\ (forall entries period metric,
          POST env cookie now entries period metric = Status401 "Unauthorized"))
  /\ (valid_cookie env (JsDate.epoch_seconds now) cookie ->
      (forall param_period param_metric param_limit param_offset store message,
          GET env cookie now param_period param_metric param_limit param_offset store
          <> Status401 message)
      /\ (forall entries period metric,
             exists file, POST env cookie now entries period metric = Status200 file)).
Proof.
  split.
  - intros Hnot.
    assert (Hnone : Auth.getSession env (JsDate.epoch_seconds now) cookie = None).
    { destruct (Auth.getSession env (JsDate.epoch_seconds now) cookie) as [p|] eqn:Hg;
        [|reflexivity].
      exfalso. apply Hnot. apply getSession_Some_iff. now exists p. }
    split; intros; [unfold GET|unfold POST]; now rewrite Hnone.
  - intros Hvalid. apply getSession_Some_iff in Hvalid. destruct Hvalid as (p & Hp).
    split.
    + intros. unfold GET. rewrite Hp.
      destruct (sessionsQuery _ store); [|discriminate].
      destruct (tasksQuery _ store); discriminate.
    + intros. unfold POST. rewrite Hp. eexists. reflexivity.
Qed.

(** An instance of X6: a cookie looked at after its seven days. *)
Lemma leaderboard_requires_session_witness :
  GET None sampleCookie (604800 * 1000) None None None None sampleStore
  = Status401 "Unauthorized"
  /\ exists file, POST None sampleCookie 0 [] "all" "tasks" = Status200 file.
Proof.
  split.
  - apply (proj1 (@leaderboard_requires_session None sampleCookie (604800 * 1000))).
    intros (token & Hc & _ & He). injection Hc as <-. apply He.
    vm_compute. discriminate.
  - apply (proj2 (@leaderboard_requires_session None sampleCookie 0)).
    exists (Auth.createSession None 0). split; [reflexivity|].
    split; [reflexivity|]. vm_compute. intros H. now apply H.
Defined.

(* ===================================================================== *)
(** ** Logging in                                                        *)
(* ===================================================================== *)

Lemma verifyCredentials_true env_user env_pass username password :
  Auth.verifyCredentials env_user env_pass username password = true
  <-> username = Js.str_or env_user "admin" /\ password = Js.str_or env_pass "admin".
Proof.
  unfold Auth.verifyCredentials. rewrite andb_true_iff, !String.eqb_eq. tauto.
Qed.

(** X7. Logging in succeeds exactly with the configured user name and
    password (both [admin] when the variable is unset or empty); it then
    sets the cookie [admin_session], whose token the protected handlers
    accept from that second until seven days later and refuse from then on,
    the cookie's own lifetime being those seven days; any other pair of
    credentials is answered 401 and sets no cookie. *)
Theorem login_opens_session env_user env_pass env_secret env_node now username password :
  let response :=
    POST_login env_user env_pass env_secret env_node now
               (Some (Some username, Some password)) in
  let opened := JsDate.epoch_seconds now in
  (username = Js.str_or env_user "admin" /\ password = Js.str_or env_pass "admin" ->
   exists set,
     response = mkLoginResponse (Status200 true) (Some set)
     /\ cookie_name set = "admin_session"
     /\ cookie_maxAge set = 7 * 24 * 60 * 60
     /\ forall later,
         opened <= later ->
         (valid_cookie env_secret later (Some (cookie_value set))
          <-> later < opened + cookie_maxAge set))
  /\ (~ (username = Js.str_or env_user "admin" /\ password = Js.str_or env_pass "admin") ->
      response = mkLoginResponse (Status401 "Invalid credentials") None).
Proof.
  intros response opened. subst response. unfold POST_login.
  destruct (Auth.verifyCredentials env_user env_pass username password) eqn:Hv.
  - split; [|intros Hnot; apply verifyCredentials_true in Hv; contradiction].
    intros _. cbn [negb]. eexists. split; [reflexivity|].
    split; [reflexivity|]. split; [reflexivity|].
    intros later Hlater. cbn [cookie_value cookie_maxAge]. fold opened.
    unfold valid_cookie, Auth.createSession, Jose.sign7d. split.
    + intros (token & Ht & _ & He). injection Ht as <-.
      cbn [expiry_passed Jose.exp] in He. lia.
    + intros Hlt. eexists. split; [reflexivity|].
      split; [reflexivity|]. cbn [expiry_passed Jose.exp]. lia.
  - split; [intros Hyes; apply verifyCredentials_true in Hyes; congruence|].
    intros _. reflexivity.
Qed.

(** An instance of X7: the default credentials. *)
Lemma login_opens_session_witness :
  exists set,
    POST_login None None None None 5000 (Some (Some "admin", Some "admin"))
    = mkLoginResponse (Status200 true) (Some set)
    /\ valid_cookie None 6 (Some (cookie_value set))
    /\ POST_login None (Some "s3cret") None None 5000 (Some (Some "admin", Some "admin"))
       = mkLoginResponse (Status401 "Invalid credentials") None.
Proof.
  destruct (@login_opens_session None None None None 5000 "admin" "admin")
    as [Hyes _].
  destruct (Hyes (conj eq_refl eq_refl)) as (set & Hr & _ & _ & Hvalid).
  exists set. split; [exact Hr|]. split.
  - apply (Hvalid 6); [vm_compute; discriminate|].
    injection Hr as <-. vm_compute. reflexivity.
  - apply (proj2 (@login_opens_session None (Some "s3cret") None None 5000 "admin" "admin")).
    intros [_ H]. discriminate H.
Defined.

(* ===================================================================== *)
(** ** The middleware                                                    *)
(* ===================================================================== *)

Lemma middleware_verifies env now cookie :
  (exists token payload,
      Middleware.truthy cookie = Some token
      /\ Jose.jwtVerify now token (Middleware.JWT_SECRET env) = inr payload)
  <-> valid_cookie env now cookie.
Proof.
  rewrite <- getSession_Some_iff. unfold Auth.getSession, Auth.verifySession.
  change (Middleware.JWT_SECRET env) with (Auth.JWT_SECRET env).
  split.
  - intros (token & payload & Ht & Hv). exists payload.
    destruct cookie as [[[|c raw]|k p]|]; try discriminate;
      injection Ht as <-; now rewrite Hv.
  - intros (payload & H).
    destruct cookie as [[[|c raw]|k p]|]; try discriminate;
      eexists _, payload; (split; [reflexivity|]);
      destruct (Jose.jwtVerify _ _ _) as [err|q]; try discriminate; congruence.
Qed.

(** X8. On a path that starts with none of the public paths, the middleware
    lets the request through exactly when the session cookie verifies, under
    the condition by which the route handlers find a session, and otherwise
    redirects to /login. *)
Theorem middleware_protects env now pathname cookie :
  existsb (fun path => String.prefix path pathname) Middleware.publicPaths = false ->
  (valid_cookie env now cookie ->
   Middleware.middleware env now pathname cookie = Middleware.Next
   /\ exists payload, Auth.getSession env now cookie = Some payload)
  /\ (~ valid_cookie env now cookie ->
      Middleware.middleware env now pathname cookie = Middleware.Redirect "/login"
      /\ Auth.getSession env now cookie = None).
Proof.
  intros Hpath. unfold Middleware.middleware. rewrite Hpath. split.
  - intros Hvalid. split; [|now apply getSession_Some_iff].
    apply middleware_verifies in Hvalid.
    destruct Hvalid as (token & payload & -> & ->). reflexivity.
  - intros Hnot. split.
    + destruct (Middleware.truthy cookie) as [token|] eqn:Ht; [|reflexivity].
      destruct (Jose.jwtVerify now token (Middleware.JWT_SECRET env)) as [err|payload] eqn:Hv;
        [reflexivity|].
      exfalso. apply Hnot. apply middleware_verifies. now exists token, payload.
    + destruct (Auth.getSession env now cookie) as [payload|] eqn:Hg; [|reflexivity].
      exfalso. apply Hnot. apply getSession_Some_iff. now exists payload.
Qed.

(** An instance of X8: the leaderboard page, with and without a session. *)
Lemma middleware_protects_witness :
  Middleware.middleware None 10 "/leaderboard" sampleCookie = Middleware.Next
  /\ Middleware.middleware None 10 "/leaderboard" None = Middleware.Redirect "/login".
Proof.
  destruct (@middleware_protects None 10 "/leaderboard" sampleCookie eq_refl) as [Hin _].
  destruct (@middleware_protects None 10 "/leaderboard" None eq_refl) as [_ Hout].
  split.
  - apply Hin. exists (Auth.createSession None 0).
    split; [reflexivity|]. split; [reflexivity|].
    vm_compute. intros H. now apply H.
  - apply Hout. intros (token & Hc & _). discriminate Hc.
Defined.

Lemma prefix_append (p s : string) : String.prefix p (p ++ s) = true.
Proof.
  induction p as [|c p IH]; simpl; [now destruct s|].
  destruct (ascii_dec c c); [exact IH|contradiction].
Qed.

(** X9. Every path that starts with /login or with /api/auth/login is
    public: but for /login itself, the request goes through whatever the
    cookie is; on /login, a request whose cookie verifies is redirected to
    the root and any other goes through. *)
Theorem middleware_public_prefix env now cookie :
  (forall suffix,
      suffix <> EmptyString ->
      Middleware.middleware env now ("/login" ++ suffix) cookie = Middleware.Next)
  /\ (forall suffix,
         Middleware.middleware env now ("/api/auth/login" ++ suffix) cookie
         = Middleware.Next)
  /\ (valid_cookie env now cookie ->
      Middleware.middleware env now "/login" cookie = Middleware.Redirect "/")
  /\ (~ valid_cookie env now cookie ->
      Middleware.middleware env now "/login" cookie = Middleware.Next).
Proof.
  split; [|split; [|split]].
  - intros suffix Hne. unfold Middleware.middleware.
    cbn [existsb Middleware.publicPaths]. rewrite prefix_append. cbn [orb].
    replace (String.eqb ("/login" ++ suffix) "/login") with false; [reflexivity|].
    destruct suffix as [|c s]; [contradiction|reflexivity].
  - intros suffix. unfold Middleware.middleware.
    cbn [existsb Middleware.publicPaths]. rewrite prefix_append, orb_true_r. cbn [orb].
    reflexivity.
  - intros Hvalid. unfold Middleware.middleware. cbn [existsb Middleware.publicPaths].
    replace (String.prefix "/login" "/login") with true by reflexivity.
    cbn [orb]. replace (String.eqb "/login" "/login") with true by reflexivity.
    apply middleware_verifies in Hvalid.
    destruct Hvalid as (token & payload & -> & ->). reflexivity.
  - intros Hnot. unfold Middleware.middleware. cbn [existsb Middleware.publicPaths].
    replace (String.prefix "/login" "/login") with true by reflexivity.
    cbn [orb]. replace (String.eqb "/login" "/login") with true by reflexivity.
    destruct (Middleware.truthy cookie) as [token|] eqn:Ht; [|reflexivity].
    destruct (Jose.jwtVerify now token (Middleware.JWT_SECRET env)) as [err|payload] eqn:Hv;
      [reflexivity|].
    exfalso. apply Hnot. apply middleware_verifies. now exists token, payload.
Qed.

(** An instance of X9: a path that only starts like the login page. *)
Lemma middleware_public_prefix_witness :
  Middleware.middleware None 10 "/login-help" None = Middleware.Next
  /\ Middleware.middleware None 10 "/login" sampleCookie = Middleware.Redirect "/".
Proof.
  destruct (@middleware_public_prefix None 10 None) as (Hprefix & _).
  destruct (@middleware_public_prefix None 10 sampleCookie) as (_ & _ & Hlogin & _).
  split.
  - apply (Hprefix "-help"). discriminate.
  - apply Hlogin. exists (Auth.createSession None 0).
    split; [reflexivity|]. split; [reflexivity|].
    vm_compute. intros H. now apply H.
Defined.

(* ===================================================================== *)
(** ** Reading numbers back                                              *)
(* ===================================================================== *)

Lemma digits_uint_acc (d : Decimal.uint) (acc : positive) :
  Js.digits 10 (NilEmpty.string_of_uint d) (Some (Z.pos acc))
  = Some (Z.pos (Pos.of_uint_acc d acc)).
Proof.
  revert acc. induction d; intros acc; cbn [NilEmpty.string_of_uint Pos.of_uint_acc];
    [reflexivity|..];
    cbn [Js.digits]; 
    match goal with
    | |- context [Js.digit_value 10 ?c] =>
        let v := eval vm_compute in (Js.digit_value 10 c) in
        change (Js.digit_value 10 c) with v
    end;
    cbn [Js.or0]; rewrite <- IHd; f_equal; f_equal; lia.
Qed.

Lemma digits_uint_zero (d : Decimal.uint) :
  Js.digits 10 (NilEmpty.string_of_uint d) (Some 0) = Some (Z.of_N (Pos.of_uint d)).
Proof.
  induction d; cbn [NilEmpty.string_of_uint Pos.of_uint]; [reflexivity|..];
    cbn [Js.digits];
    match goal with
    | |- context [Js.digit_value 10 ?c] =>
        let v := eval vm_compute in (Js.digit_value 10 c) in
        change (Js.digit_value 10 c) with v
    end;
    cbn [Js.or0]; try exact IHd;
    match goal with
    | |- Js.digits 10 _ (Some ?z) = _ =>
        let p := eval vm_compute in z in change z with p
    end;
    rewrite digits_uint_acc; reflexivity.
Qed.

Lemma parseInt_uint (d : Decimal.uint) :
  d <> Decimal.Nil ->
  Js.parseInt (NilEmpty.string_of_uint d) = Js.Int (Z.of_N (Pos.of_uint d))
  /\ Js.parseInt (String "-" (NilEmpty.string_of_uint d))
     = Js.Int (- Z.of_N (Pos.of_uint d)).
Proof.
  intros Hd.
  assert (Hdigits : Js.digits 10 (NilEmpty.string_of_uint d) None
                    = Some (Z.of_N (Pos.of_uint d))).
  { rewrite <- digits_uint_zero. destruct d; [contradiction|..]; reflexivity. }
  assert (Hshape :
            Js.parseInt (NilEmpty.string_of_uint d)
            = match Js.digits 10 (NilEmpty.string_of_uint d) None with
              | Some v => Js.Int (1 * v)
              | None => Js.NaN
              end
            /\ Js.parseInt (String "-" (NilEmpty.string_of_uint d))
               = match Js.digits 10 (NilEmpty.string_of_uint d) None with
                 | Some v => Js.Int (-1 * v)
                 | None => Js.NaN
                 end).
  { destruct d as [|d|d|d|d|d|d|d|d|d|d]; [contradiction|..];
      destruct d; split; reflexivity. }
  destruct Hshape as [Hpos Hneg]. rewrite Hpos, Hneg, Hdigits.
  split; f_equal; lia.
Qed.

(** [parseInt] reads the decimal text of an integer back. *)
Lemma parseInt_decimal (z : Z) : Js.parseInt (decimal z) = Js.Int z.
Proof.
  unfold decimal. destruct z as [|p|p]; [reflexivity|..];
    cbn [Z.to_int NilZero.string_of_int];
    pose proof (DecimalPos.Unsigned.to_uint_nonnil p) as Hnil;
    destruct (parseInt_uint Hnil) as [Hpos Hneg];
    rewrite DecimalPos.Unsigned.of_to in Hpos, Hneg;
    unfold NilZero.string_of_uint;
    destruct (Pos.to_uint p) eqn:Hu; try contradiction; assumption.
Qed.

Lemma str_or_decimal (z : Z) (d : string) : Js.str_or (Some (decimal z)) d = decimal z.
Proof.
  unfold Js.str_or, Js.str_or_null.
  destruct (String.eqb (decimal z) EmptyString) eqn:He; [|reflexivity].
  apply String.eqb_eq in He.
  pose proof (parseInt_decimal z) as Hp. rewrite He in Hp. discriminate Hp.
Qed.

(* ===================================================================== *)
(** ** Pages                                                             *)
(* ===================================================================== *)

Lemma firstn_plus {A : Type} (n m : nat) (l : list A) :
  firstn (n + m) l = firstn n l ++ firstn m (skipn n l).
Proof.
  revert l. induction n as [|n IH]; intros l; [reflexivity|].
  destruct l as [|x r]; simpl; [now rewrite firstn_nil|].
  now rewrite IH.
Qed.

Lemma skipn_plus {A : Type} (n m : nat) (l : list A) :
  skipn (n + m) l = skipn m (skipn n l).
Proof.
  revert l. induction n as [|n IH]; intros l; [reflexivity|].
  destruct l as [|x r]; simpl; [now rewrite skipn_nil|apply IH].
Qed.

(** X10. The size of a page: with an offset and a limit that are not
    negative it is the limit, or what is left of the sequence after the
    offset when that is less; a limit that is not a number gives an empty
    page; a negative limit with offset 0 is not refused but drops that many
    entries from the end.  The total is reported in all cases and the page
    is never longer than it. *)
Theorem GET_page_size env cookie now param_period param_metric param_limit
        param_offset store body :
  GET env cookie now param_period param_metric param_limit param_offset store
  = Status200 body ->
  let limit := Js.parseInt (Js.str_or param_limit "100") in
  let offset := Js.parseInt (Js.str_or param_offset "0") in
  let size := Z.of_nat (length (body_entries body)) in
  (forall o n, offset = Js.Int o -> limit = Js.Int n -> 0 <= o -> 0 <= n ->
               size = Z.min n (Z.max (body_total body - o) 0))
  /\ (limit = Js.NaN -> body_entries body = [])
  /\ (forall n, offset = Js.Int 0 -> limit = Js.Int n -> n < 0 ->
                size = Z.max (body_total body + n) 0)
  /\ 0 <= size <= body_total body.
Proof.
  intros H limit offset size. apply GET_Status200 in H.
  destruct H as (sessions & tasks & _ & _ & ->).
  subst size. cbn [body_entries body_total]. fold limit. fold offset.
  clearbody limit offset.
  set (full := rankedEntries _ _ _ _ _).
  split; [|split; [|split]].
  - intros o n -> -> Ho Hn. rewrite slice_nonneg by assumption.
    rewrite length_firstn, length_skipn. lia.
  - intros ->. unfold Js.slice.
    replace (Js.add offset Js.NaN) with Js.NaN by (now destruct offset).
    cbn [Js.clamp_index].
    replace (Z.max (0 - _) 0) with 0; [reflexivity|].
    assert (0 <= Js.clamp_index (Z.of_nat (length full)) offset); [|lia].
    unfold Js.clamp_index. destruct offset as [|k]; [lia|].
    destruct (k <? 0) eqn:Hk; [lia|]. apply Z.ltb_ge in Hk. lia.
  - intros n -> -> Hn. unfold Js.slice, Js.add, Js.clamp_index.
    replace (0 <? 0) with false by reflexivity.
    replace (0 + n <? 0) with true by (symmetry; apply Z.ltb_lt; lia).
    rewrite (Z.min_l 0) by lia. cbn [Z.to_nat skipn].
    rewrite length_firstn. lia.
  - unfold Js.slice. rewrite length_firstn, length_skipn. lia.
Qed.

(** An instance of X10: limit 2 at offset 4 of five entries, and a limit
    that is no number. *)
Lemma GET_page_size_witness :
  exists last garbage,
    GET None sampleCookie 0 None None (Some "2") (Some "4") sampleStore = Status200 last
    /\ Z.of_nat (length (body_entries last)) = Z.min 2 (Z.max (5 - 4) 0)
    /\ GET None sampleCookie 0 None None (Some "many") None sampleStore
       = Status200 garbage
    /\ body_entries garbage = [] /\ body_total garbage = 5.
Proof.
  eexists _, _. split; [reflexivity|]. split.
  - exact (proj1 (@GET_page_size None sampleCookie 0 None None (Some "2") (Some "4")
                    sampleStore _ eq_refl) 4 2 eq_refl eq_refl ltac:(lia) ltac:(lia)).
  - split; [reflexivity|]. split; [|reflexivity].
    exact (proj1 (proj2 (@GET_page_size None sampleCookie 0 None None (Some "many") None
                           sampleStore _ eq_refl)) eq_refl).
Defined.

(** X11. Pages tile the sequence: for an offset and two limits that are not
    negative, the page of [n] entries at [offset] followed by the page of
    [m] entries at [offset + n] is the page of [n + m] entries at [offset],
    and the three answers report the same total. *)
Theorem GET_pages_tile env cookie now param_period param_metric store
        (o n m : Z) first second both :
  0 <= o -> 0 <= n -> 0 <= m ->
  GET env cookie now param_period param_metric
      (Some (decimal n)) (Some (decimal o)) store = Status200 first ->
  GET env cookie now param_period param_metric
      (Some (decimal m)) (Some (decimal (o + n))) store = Status200 second ->
  GET env cookie now param_period param_metric
      (Some (decimal (n + m))) (Some (decimal o)) store = Status200 both ->
  body_entries first ++ body_entries second = body_entries both
  /\ body_total first = body_total both
  /\ body_total second = body_total both.
Proof.
  intros Ho Hn Hm H1 H2 H12.
  apply GET_Status200 in H1. destruct H1 as (s1 & t1 & Hs1 & Ht1 & ->).
  apply GET_Status200 in H2. destruct H2 as (s2 & t2 & Hs2 & Ht2 & ->).
  apply GET_Status200 in H12. destruct H12 as (s3 & t3 & Hs3 & Ht3 & ->).
  rewrite Hs1 in Hs2, Hs3. injection Hs2 as <-. injection Hs3 as <-.
  rewrite Ht1 in Ht2, Ht3. injection Ht2 as <-. injection Ht3 as <-.
  cbn [body_entries body_total].
  rewrite !str_or_decimal, !parseInt_decimal.
  set (full := rankedEntries _ _ _ _ _).
  split; [|split; reflexivity].
  rewrite !slice_nonneg by lia.
  rewrite !Z2Nat.inj_add by lia.
  rewrite firstn_plus, skipn_plus. reflexivity.
Qed.

(** An instance of X11: two pages of two entries over the sample store. *)
Lemma GET_pages_tile_witness :
  exists first second both,
    GET None sampleCookie 0 None None (Some "2") (Some "0") sampleStore = Status200 first
    /\ GET None sampleCookie 0 None None (Some "2") (Some "2") sampleStore
       = Status200 second
    /\ GET None sampleCookie 0 None None (Some "4") (Some "0") sampleStore = Status200 both
    /\ body_entries first ++ body_entries second = body_entries both.
Proof.
  eexists _, _, _. split; [reflexivity|]. split; [reflexivity|]. split; [reflexivity|].
  exact (proj1 (@GET_pages_tile None sampleCookie 0 None None sampleStore 0 2 2 _ _ _
                  ltac:(lia) ltac:(lia) ltac:(lia) eq_refl eq_refl eq_refl)).
Defined.

(* ===================================================================== *)
(** ** The calendar                                                      *)
(* ===================================================================== *)

Lemma all_from_true (k : nat) (p : Z -> bool) :
  forall lo, all_from k lo p = true ->
             forall z, lo <= z < lo + 2 ^ Z.of_nat k -> p z = true.
Proof.
  induction k as [|k IH]; intros lo H z Hz.
  - simpl in Hz. replace z with lo by lia. exact H.
  - cbn [all_from] in H. apply andb_true_iff in H. destruct H as [Hlow Hhigh].
    rewrite Nat2Z.inj_succ, Z.pow_succ_r in Hz by lia.
    destruct (Z_lt_le_dec z (lo + 2 ^ Z.of_nat k)).
    + apply (IH lo Hlow). lia.
    + apply (IH _ Hhigh). lia.
Qed.

Lemma civil_check_era :
  all_from 18 0 (fun doe => (146097 <=? doe) || civil_check doe) = true.
Proof. vm_compute. reflexivity. Qed.

Lemma civil_check_doe (doe : Z) : 0 <= doe < 146097 -> civil_check doe = true.
Proof.
  intros H.
  pose proof (@all_from_true 18 _ 0 civil_check_era doe) as Hall.
  cbv beta in Hall.
  replace (146097 <=? doe) with false in Hall by (symmetry; apply Z.leb_gt; lia).
  apply Hall. change (2 ^ Z.of_nat 18) with 262144. lia.
Qed.

Lemma civil_from_days_era (n : Z) :
  let z := n + 719468 in
  let era := z / 146097 in
  let doe := z - era * 146097 in
  0 <= doe < 146097
  /\ JsDate.civil_from_days n
     = (let '(yoe, m, d) := civil_of_doe doe in
        ((if m <=? 2 then yoe + era * 400 + 1 else yoe + era * 400), m, d)).
Proof.
  intros z era doe. split.
  - subst doe era.
    pose proof (Z.div_mod z 146097 ltac:(lia)).
    pose proof (Z.mod_pos_bound z 146097 ltac:(lia)). lia.
  - reflexivity.
Qed.

Lemma days_from_civil_era (era yoe m d : Z) :
  0 <= yoe <= 399 ->
  JsDate.days_from_civil (if m <=? 2 then yoe + era * 400 + 1 else yoe + era * 400) m d
  = era * 146097 + doe_of_civil yoe m d - 719468.
Proof.
  intros Hyoe. unfold JsDate.days_from_civil, doe_of_civil. cbv zeta.
  replace (if m <=? 2
           then (if m <=? 2 then yoe + era * 400 + 1 else yoe + era * 400) - 1
           else (if m <=? 2 then yoe + era * 400 + 1 else yoe + era * 400))
    with (yoe + era * 400) by (destruct (m <=? 2); lia).
  rewrite Z.div_add by lia. rewrite (Z.div_small yoe 400) by lia.
  replace (yoe + era * 400 - (0 + era) * 400) with yoe by lia.
  lia.
Qed.

(** The date of a day: its month and day are a month and a day, the day is
    the day of its date, and the first of its month is a day of the same
    month and year. *)
Lemma civil_from_days_round_trip (n : Z) :
  let '(y, m, d) := JsDate.civil_from_days n in
  1 <= m <= 12 /\ 1 <= d <= 31
  /\ JsDate.days_from_civil y m d = n
  /\ JsDate.days_from_civil y m 1 = n - d + 1
  /\ JsDate.civil_from_days (n - d + 1) = (y, m, 1)
  /\ (0 <= n -> 1600 <= y).
Proof.
  destruct (civil_from_days_era n) as [Hdoe Hcivil]. cbv zeta in Hdoe, Hcivil.
  set (z := n + 719468) in *. set (era := z / 146097) in *.
  set (doe := z - era * 146097) in *.
  pose proof (civil_check_doe Hdoe) as Hcheck. unfold civil_check in Hcheck.
  rewrite Hcivil.
  destruct (civil_of_doe doe) as [[yoe m] d] eqn:Hc.
  cbv beta iota in Hcheck.
  destruct (civil_of_doe (doe - d + 1)) as [[yoe1 m1] d1] eqn:Hc1.
  cbv beta iota in Hcheck.
  repeat match goal with
         | H : (_ && _) = true |- _ => apply andb_true_iff in H; destruct H
         end.
  repeat match goal with
         | H : (_ <=? _) = true |- _ => apply Z.leb_le in H
         | H : (_ =? _) = true |- _ => apply Z.eqb_eq in H
         end.
  subst yoe1 m1 d1.
  split; [lia|]. split; [lia|].
  rewrite !days_from_civil_era by lia.
  assert (Hlin : doe_of_civil yoe m 1 = doe_of_civil yoe m d - d + 1)
    by (unfold doe_of_civil; lia).
  split; [lia|]. split; [lia|]. split.
  - destruct (civil_from_days_era (n - d + 1)) as [Hdoe' Hcivil'].
    cbv zeta in Hdoe', Hcivil'.
    assert (Hera : (n - d + 1 + 719468) / 146097 = era).
    { symmetry. apply (Z.div_unique _ _ _ (doe - d + 1)); lia. }
    rewrite Hera in Hcivil'.
    replace (n - d + 1 + 719468 - era * 146097) with (doe - d + 1) in Hcivil' by lia.
    rewrite Hc1 in Hcivil'. exact Hcivil'.
  - intros Hn.
    assert (4 <= era).
    { subst era. apply Z.div_le_lower_bound; lia. }
    destruct (m <=? 2); lia.
Qed.
Lemma Day_of_day_start (k r : Z) :
  0 <= r < JsDate.msPerDay -> JsDate.Day (k * JsDate.msPerDay + r) = k.
Proof.
  intros Hr. unfold JsDate.Day. symmetry.
  apply (Z.div_unique _ _ _ r); [left; exact Hr|lia].
Qed.

Lemma TimeWithinDay_bound (t : Timestamp) :
  0 <= JsDate.TimeWithinDay t < JsDate.msPerDay
  /\ t = JsDate.Day t * JsDate.msPerDay + JsDate.TimeWithinDay t.
Proof.
  unfold JsDate.TimeWithinDay, JsDate.Day, JsDate.msPerDay.
  pose proof (Z.div_mod t 86400000 ltac:(lia)).
  pose proof (Z.mod_pos_bound t 86400000 ltac:(lia)). lia.
Qed.

(** [d.setDate(d.getDate() + k)] moves a date by [k] days. *)
Lemma setDate_shift (t : Timestamp) (k : Z) :
  JsDate.setDate t (JsDate.getDate t + k) = t + k * JsDate.msPerDay.
Proof.
  unfold JsDate.setDate, JsDate.getDate, JsDate.getFullYear, JsDate.getMonth.
  pose proof (civil_from_days_round_trip (JsDate.Day t)) as Hrt.
  destruct (JsDate.civil_from_days (JsDate.Day t)) as [[y m] d].
  destruct Hrt as (_ & _ & _ & Hfirst & _).
  cbn [fst snd]. replace (m - 1 + 1) with m by lia. rewrite Hfirst.
  destruct (TimeWithinDay_bound t) as [_ Ht]. lia.
Qed.

Lemma getDateRange_week_eq (now : Timestamp) :
  getDateRange now "week"
  = Some ((JsDate.Day now - JsDate.getDay now) * JsDate.msPerDay)
  /\ 0 <= JsDate.getDay now < 7.
Proof.
  split; [|unfold JsDate.getDay; apply Z.mod_pos_bound; lia].
  destruct (TimeWithinDay_bound now) as [Hr Hnow].
  change (getDateRange now "week")
    with (Some (JsDate.setHours0
                  (JsDate.setDate now (JsDate.getDate now - JsDate.getDay now)))).
  replace (JsDate.getDate now - JsDate.getDay now)
    with (JsDate.getDate now + - JsDate.getDay now) by lia.
  rewrite setDate_shift. unfold JsDate.setHours0. f_equal. f_equal.
  rewrite Hnow at 1.
  replace (JsDate.Day now * JsDate.msPerDay + JsDate.TimeWithinDay now
           + - JsDate.getDay now * JsDate.msPerDay)
    with ((JsDate.Day now - JsDate.getDay now) * JsDate.msPerDay
          + JsDate.TimeWithinDay now) by lia.
  now apply Day_of_day_start.
Qed.

Lemma getDateRange_month_eq (now : Timestamp) :
  0 <= now ->
  getDateRange now "month"
  = Some ((JsDate.Day now - JsDate.getDate now + 1) * JsDate.msPerDay)
  /\ 1 <= JsDate.getDate now <= 31
  /\ JsDate.civil_from_days (JsDate.Day now - JsDate.getDate now + 1)
     = (JsDate.getFullYear now, JsDate.getMonth now + 1, 1).
Proof.
  intros Hpos.
  assert (Hday : 0 <= JsDate.Day now).
  { unfold JsDate.Day. apply Z.div_pos; [exact Hpos|reflexivity]. }
  pose proof (civil_from_days_round_trip (JsDate.Day now)) as Hrt.
  change (getDateRange now "month")
    with (Some (JsDate.new_Date_ym1 (JsDate.getFullYear now) (JsDate.getMonth now))).
  unfold JsDate.new_Date_ym1, JsDate.getDate, JsDate.getMonth, JsDate.getFullYear.
  destruct (JsDate.civil_from_days (JsDate.Day now)) as [[y m] d].
  destruct Hrt as (Hm & Hd & _ & Hfirst & Hcivil & Hyear).
  specialize (Hyear Hday). cbn [fst snd].
  replace ((0 <=? y) && (y <=? 99)) with false
    by (symmetry; apply andb_false_iff; right; apply Z.leb_gt; lia).
  replace (m - 1 + 1) with m by lia. rewrite Hfirst.
  split; [reflexivity|]. split; [exact Hd|exact Hcivil].
Qed.

(** X12. The windows [today] and [week]: [today] starts at the midnight
    before the request, less than a day back; [week] starts at the midnight
    that begins the Sunday of the request's week, which is [getDay] days
    before that of [today], so less than seven days back. *)
Theorem getDateRange_today_week_start (now : Timestamp) :
  exists today week,
    getDateRange now "today" = Some today
    /\ getDateRange now "week" = Some week
    /\ today mod JsDate.msPerDay = 0
    /\ today <= now < today + JsDate.msPerDay
    /\ week mod JsDate.msPerDay = 0
    /\ JsDate.getDay week = 0
    /\ week = today - JsDate.getDay now * JsDate.msPerDay
    /\ week <= today
    /\ now < week + 7 * JsDate.msPerDay.
Proof.
  assert (Hms : JsDate.msPerDay = 86400000) by reflexivity.
  destruct (TimeWithinDay_bound now) as [Hr Hnow].
  destruct (getDateRange_week_eq now) as [Hweek Hdow].
  exists (JsDate.Day now * JsDate.msPerDay),
         ((JsDate.Day now - JsDate.getDay now) * JsDate.msPerDay).
  split; [reflexivity|]. split; [exact Hweek|].
  split; [apply Z.mod_mul; lia|]. split; [lia|].
  split; [apply Z.mod_mul; lia|]. split.
  - unfold JsDate.getDay at 1.
    replace ((JsDate.Day now - JsDate.getDay now) * JsDate.msPerDay)
      with ((JsDate.Day now - JsDate.getDay now) * JsDate.msPerDay + 0) by lia.
    rewrite Day_of_day_start by lia.
    unfold JsDate.getDay.
    pose proof (Z.div_mod (JsDate.Day now + 4) 7 ltac:(lia)) as Hdm.
    replace (JsDate.Day now - (JsDate.Day now + 4) mod 7 + 4)
      with ((JsDate.Day now + 4) / 7 * 7) by lia.
    apply Z.mod_mul. lia.
  - split; [lia|]. split; lia.
Qed.

(** X13. The window [month], for a request after the epoch: it starts at
    the midnight that begins the first day of the request's month, in the
    same month and year, [getDate - 1] days before the start of [today]. *)
Theorem getDateRange_month_start (now : Timestamp) :
  0 <= now ->
  exists month,
    getDateRange now "month" = Some month
    /\ month mod JsDate.msPerDay = 0
    /\ JsDate.getDate month = 1
    /\ JsDate.getMonth month = JsDate.getMonth now
    /\ JsDate.getFullYear month = JsDate.getFullYear now
    /\ month = JsDate.setHours0 now - (JsDate.getDate now - 1) * JsDate.msPerDay
    /\ month <= now.
Proof.
  intros Hpos.
  assert (Hms : JsDate.msPerDay = 86400000) by reflexivity.
  destruct (TimeWithinDay_bound now) as [Hr Hnow].
  destruct (getDateRange_month_eq Hpos) as (Hmonth & Hd & Hcivil).
  eexists. split; [exact Hmonth|].
  set (first := JsDate.Day now - JsDate.getDate now + 1) in *.
  assert (Hfirst : JsDate.Day (first * JsDate.msPerDay) = first).
  { replace (first * JsDate.msPerDay) with (first * JsDate.msPerDay + 0) by lia.
    apply Day_of_day_start. lia. }
  split; [apply Z.mod_mul; lia|].
  unfold JsDate.getDate at 1, JsDate.getMonth at 1, JsDate.getFullYear at 1.
  rewrite Hfirst, Hcivil. cbn [fst snd].
  split; [reflexivity|]. split; [lia|]. split; [reflexivity|].
  unfold JsDate.setHours0. subst first. split; lia.
Qed.

(** An instance of X13: Monday 2 November 2026, noon. *)
Lemma getDateRange_month_start_witness :
  exists month,
    getDateRange 1793620800000 "month" = Some month
    /\ JsDate.getDate month = 1
    /\ month <= 1793620800000.
Proof.
  destruct (@getDateRange_month_start 1793620800000 ltac:(lia))
    as (month & Hm & _ & Hd & _ & _ & _ & Hle).
  exists month. split; [exact Hm|]. split; [exact Hd|exact Hle].
Defined.

(* ===================================================================== *)
(** ** Windows within windows                                            *)
(* ===================================================================== *)

(** The users of a successful answer: no user twice, as many as the total,
    and those of the three sources. *)
Lemma GET_total_users env cookie now param_period param_metric param_limit
      param_offset store body :
  GET env cookie now param_period param_metric param_limit param_offset store
  = Status200 body ->
  let start := getDateRange now (Js.str_or param_period "all") in
  exists ids : list string,
    NoDup ids
    /\ body_total body = Z.of_nat (length ids)
    /\ forall u, In u ids
                 <-> has_work_session start store u
                     \/ has_done_task start store u
                     \/ has_streak store u.
Proof.
  intros H start. apply GET_Status200 in H.
  destruct H as (sessions & tasks & Hs & Ht & ->). fold start in Hs, Ht.
  exists (userIds (focusTimeMap sessions) (tasksMap tasks)
                  (streakMap (data (streaks store)))).
  split; [apply new_Set_NoDup|]. split.
  - cbn [body_total]. f_equal.
    rewrite <- (length_map user_id).
    apply Permutation_length, rankedEntries_user_ids.
  - intros u.
    rewrite <- (sessionsQuery_user_ids start store u Hs).
    rewrite <- (tasksQuery_user_ids start store u Ht).
    rewrite <- streakMap_keys, <- focusTimeMap_keys, <- tasksMap_keys.
    apply userIds_In.
Qed.

Lemma in_window_earlier (s s' : option Timestamp) :
  (forall t, in_window s t -> in_window s' t) ->
  forall store u,
    (has_work_session s store u -> has_work_session s' store u)
    /\ (has_done_task s store u -> has_done_task s' store u).
Proof.
  intros Hincl store u. split.
  - intros (rows & r & H1 & H2 & H3 & H4 & H5).
    exists rows, r. repeat split; auto.
  - intros (rows & r & H1 & H2 & H3 & H4 & H5).
    exists rows, r. repeat split; auto.
Qed.

Lemma GET_total_monotone env cookie now p p' param_metric param_limit param_offset
      store body body' :
  (forall t, in_window (getDateRange now (Js.str_or p "all")) t ->
             in_window (getDateRange now (Js.str_or p' "all")) t) ->
  GET env cookie now p param_metric param_limit param_offset store = Status200 body ->
  GET env cookie now p' param_metric param_limit param_offset store = Status200 body' ->
  body_total body <= body_total body'.
Proof.
  intros Hincl H H'.
  apply GET_total_users in H. destruct H as (ids & Hnd & -> & Hids).
  apply GET_total_users in H'. destruct H' as (ids' & Hnd' & -> & Hids').
  apply inj_le. apply NoDup_incl_length; [exact Hnd|].
  intros u Hu. apply Hids'. apply Hids in Hu.
  destruct (in_window_earlier _ _ Hincl store u) as [Hw Ht]. tauto.
Qed.

(** X14. The windows lie within one another, and so do the leaderboards:
    for a request after the epoch, every timestamp in the window [today] is
    in the windows [week] and [month], and the total number of ranked users
    for [today] is at most that for [week] and that for [month], each of
    which is at most that for [all]. *)
Theorem GET_totals_nest env cookie now param_metric param_limit param_offset store
        today week month all :
  0 <= now ->
  GET env cookie now (Some "today") param_metric param_limit param_offset store
  = Status200 today ->
  GET env cookie now (Some "week") param_metric param_limit param_offset store
  = Status200 week ->
  GET env cookie now (Some "month") param_metric param_limit param_offset store
  = Status200 month ->
  GET env cookie now (Some "all") param_metric param_limit param_offset store
  = Status200 all ->
  (forall t, in_window (getDateRange now "today") t ->
             in_window (getDateRange now "week") t
             /\ in_window (getDateRange now "month") t)
  /\ body_total today <= body_total week <= body_total all
  /\ body_total today <= body_total month <= body_total all.
Proof.
  intros Hpos Htoday Hweek Hmonth Hall.
  assert (Hms : JsDate.msPerDay = 86400000) by reflexivity.
  destruct (getDateRange_week_eq now) as [Hw Hdow].
  destruct (getDateRange_month_eq Hpos) as (Hm & Hd & _).
  assert (Ht : getDateRange now "today" = Some (JsDate.Day now * JsDate.msPerDay))
    by reflexivity.
  assert (Hnest : forall t, in_window (getDateRange now "today") t ->
                            in_window (getDateRange now "week") t
                            /\ in_window (getDateRange now "month") t).
  { intros t. rewrite Ht, Hw, Hm. cbn [in_window]. lia. }
  split; [exact Hnest|].
  repeat split.
  - eapply GET_total_monotone; [|exact Htoday|exact Hweek].
    intros t H. exact (proj1 (Hnest t H)).
  - eapply GET_total_monotone; [|exact Hweek|exact Hall].
    intros t H. exact I.
  - eapply GET_total_monotone; [|exact Htoday|exact Hmonth].
    intros t H. exact (proj2 (Hnest t H)).
  - eapply GET_total_monotone; [|exact Hmonth|exact Hall].
    intros t H. exact I.
Qed.

(** An instance of X14: the sample store, whose rows are all of 1 January
    1970, asked two days later. *)
Lemma GET_totals_nest_witness :
  exists today week month all,
    GET None sampleCookie 172805000 (Some "today") None None None sampleStore
    = Status200 today
    /\ GET None sampleCookie 172805000 (Some "all") None None None sampleStore
       = Status200 all
    /\ body_total today = 2 /\ body_total all = 5
    /\ body_total today <= body_total week <= body_total all
    /\ body_total today <= body_total month <= body_total all.
Proof.
  eexists _, _, _, _. split; [reflexivity|]. split; [reflexivity|].
  split; [reflexivity|]. split; [reflexivity|].
  exact (proj2 (@GET_totals_nest None sampleCookie 172805000 None None None sampleStore
                  _ _ _ _ ltac:(lia) eq_refl eq_refl eq_refl eq_refl)).
Defined.

(* ===================================================================== *)
(** ** The dashboard's counts                                            *)
(* ===================================================================== *)

Lemma fold_left_max (A : Type) (f : A -> Z) (rows : list A) (acc : Z) :
  let m := fold_left (fun max a => Z.max max (f a)) rows acc in
  acc <= m
  /\ (forall a, In a rows -> f a <= m)
  /\ (m = acc \/ exists a, In a rows /\ f a = m).
Proof.
  revert acc. induction rows as [|a r IH]; intros acc; simpl.
  - split; [lia|]. split; [intros a []|now left].
  - destruct (IH (Z.max acc (f a))) as (Hacc & Hall & Hwho).
    split; [lia|]. split.
    + intros x [<-|Hx]; [lia|now apply Hall].
    + destruct Hwho as [Heq|(x & Hx & Hfx)].
      * destruct (Z.max_spec acc (f a)) as [[_ Hm]|[_ Hm]].
        -- right. exists a. split; [now left|lia].
        -- left. lia.
      * right. exists x. split; [now right|exact Hfx].
Qed.

(** X15. The dashboard's streak statistics: the active streaks are the
    streak records whose current value is above 0, and the longest streak
    is the greatest current value among them: no record has a greater
    one, some active record has exactly it, and it is 0 exactly when no
    streak is active; both are 0 when the streak query fails. *)
Theorem GET_dashboard_streaks env cookie now listUsers store body :
  GET_dashboard env cookie now listUsers store = Status200 body ->
  0 <= longestStreak (stats body)
  /\ (longestStreak (stats body) = 0 <-> activeStreaks (stats body) = 0)
  /\ (forall rows,
         streaks store = Rows rows ->
         activeStreaks (stats body)
         = Z.of_nat (length (filter (fun s => 0 <? Js.or0 (streak_current s)) rows))
         /\ (forall s, In s rows ->
                       Js.or0 (streak_current s) <= longestStreak (stats body))
         /\ (0 < activeStreaks (stats body) ->
             exists s, In s rows
                       /\ streak_current s = Some (longestStreak (stats body))))
  /\ ((exists message, streaks store = QueryError message) ->
      activeStreaks (stats body) = 0 /\ longestStreak (stats body) = 0).
Proof.
  intros H. apply GET_dashboard_Status200 in H.
  destruct H as (authData & _ & _ & ->). cbn [stats activeStreaks longestStreak].
  unfold activeStreakRows, select.
  destruct (streaks store) as [rows|err]; cbn [data].
  - set (positive := fun s : StreakRow =>
                       match streak_current s with
                       | Some c => 0 <? c
                       | None => false
                       end).
    assert (Hpos : forall s, positive s = (0 <? Js.or0 (streak_current s))).
    { intros s. unfold positive. now destruct (streak_current s). }
    destruct (fold_left_max (fun s => Js.or0 (streak_current s))
                            (filter positive rows) 0) as (Hge & Hall & Hwho).
    set (longest := fold_left _ (filter positive rows) 0) in *.
    assert (Hzero : longest = 0 <-> Z.of_nat (length (filter positive rows)) = 0).
    { split.
      - intros Hl. destruct (filter positive rows) as [|s r] eqn:Hf; [reflexivity|].
        exfalso.
        assert (Hin : In s (filter positive rows)) by (rewrite Hf; now left).
        apply filter_In in Hin. destruct Hin as [_ Hs].
        rewrite Hpos in Hs. apply Z.ltb_lt in Hs.
        specialize (Hall s (or_introl eq_refl)). subst longest. lia.
      - intros Hl. destruct (filter positive rows) as [|s r] eqn:Hf; [|discriminate].
        reflexivity. }
    split; [exact Hge|]. split; [exact Hzero|]. split.
    + intros rows' Hr. injection Hr as <-. split.
      * f_equal. f_equal. apply filter_ext. exact Hpos.
      * split.
        -- intros s Hin. destruct (positive s) eqn:Hs.
           ++ apply Hall. apply filter_In. now split.
           ++ rewrite Hpos in Hs. apply Z.ltb_ge in Hs. lia.
        -- intros Hactive. destruct Hwho as [Heq|(s & Hin & Hs)].
           ++ apply Hzero in Heq. lia.
           ++ apply filter_In in Hin. destruct Hin as [Hin Hp].
              exists s. split; [exact Hin|].
              unfold positive in Hp. destruct (streak_current s); [|discriminate].
              simpl in Hs. now rewrite Hs.
    + intros (message & Hm). discriminate Hm.
  - split; [lia|]. split; [tauto|]. split; [intros rows Hr; discriminate|].
    intros _. split; reflexivity.
Qed.
Lemma isActive_isBanned (now : Timestamp) (u : AuthUser) :
  isActive now u = negb (isBanned now (auth_banned_until u)).
Proof.
  unfold isActive, isBanned. destruct (auth_banned_until u) as [b|]; [|reflexivity].
  apply Z.leb_antisym.
Qed.

Lemma filter_negb_length (A : Type) (p : A -> bool) (l : list A) :
  (length (filter p l) + length (filter (fun a => negb (p a)) l) = length l)%nat.
Proof.
  induction l as [|a r IH]; simpl; [reflexivity|].
  destruct (p a); simpl; lia.
Qed.

Lemma weekAgo_eq (now : Timestamp) : weekAgo now = now - 7 * JsDate.msPerDay.
Proof.
  unfold weekAgo.
  replace (JsDate.getDate now - 7) with (JsDate.getDate now + -7) by lia.
  rewrite setDate_shift. lia.
Qed.

(** X16. The dashboard's user counts are taken over the users that one
    call for 1000 users returns: the new users of the week are those
    created no more than seven times 24 hours before the request, to the
    millisecond; the active users are those the user listing would show as
    not banned at that time, so active and banned add up to the users
    fetched; both counts are 0 when that call fails, whatever the total
    reported by the first call. *)
Theorem GET_dashboard_users env cookie now listUsers store body :
  GET_dashboard env cookie now listUsers store = Status200 body ->
  (forall all,
      listUsers (Js.Int 1) (Js.Int 1000) = AuthOk all ->
      let fetched := page_users all in
      newUsersThisWeek (stats body)
      = Z.of_nat (length (filter (fun u => now - 7 * 24 * 60 * 60 * 1000
                                           <=? auth_created_at u) fetched))
      /\ activeUsers (stats body)
         = Z.of_nat (length (filter (fun u => negb (isBanned now (auth_banned_until u)))
                                    fetched))
      /\ activeUsers (stats body)
         + Z.of_nat (length (filter (fun u => isBanned now (auth_banned_until u)) fetched))
         = Z.of_nat (length fetched))
  /\ ((exists message, listUsers (Js.Int 1) (Js.Int 1000) = AuthError message) ->
      newUsersThisWeek (stats body) = 0 /\ activeUsers (stats body) = 0).
Proof.
  intros H. apply GET_dashboard_Status200 in H.
  destruct H as (authData & _ & _ & ->). cbn [stats activeUsers newUsersThisWeek].
  split.
  - intros all ->. cbn zeta. rewrite weekAgo_eq.
    change (7 * JsDate.msPerDay) with (7 * 24 * 60 * 60 * 1000).
    split; [reflexivity|].
    assert (Hactive : filter (isActive now) (page_users all)
                      = filter (fun u => negb (isBanned now (auth_banned_until u)))
                               (page_users all)).
    { apply filter_ext. intros u. apply isActive_isBanned. }
    rewrite Hactive. split; [reflexivity|].
    pose proof (filter_negb_length (fun u => isBanned now (auth_banned_until u))
                                   (page_users all)).
    lia.
  - intros (message & ->). split; reflexivity.
Qed.

(** An instance of X15 and X16: the sample users and streaks, one day after
    the epoch. *)
Lemma GET_dashboard_users_witness :
  exists body,
    GET_dashboard None sampleCookie 86400000 sampleListUsers sampleStore = Status200 body
    /\ newUsersThisWeek (stats body) = 3
    /\ activeUsers (stats body) + 1 = 3.
Proof.
  eexists. split; [reflexivity|].
  destruct (proj1 (@GET_dashboard_users None sampleCookie 86400000 sampleListUsers
                     sampleStore _ eq_refl) _ eq_refl) as (Hnew & _ & Hsum).
  split; [exact Hnew|exact Hsum].
Defined.

Lemma GET_dashboard_streaks_witness :
  exists body,
    GET_dashboard None sampleCookie 86400000 sampleListUsers sampleStore = Status200 body
    /\ activeStreaks (stats body) = 2
    /\ forall s, In s [mkStreakRow "eve" (Some 7); mkStreakRow "bob" (Some 2)] ->
                 Js.or0 (streak_current s) <= longestStreak (stats body).
Proof.
  eexists. split; [reflexivity|].
  destruct (@GET_dashboard_streaks None sampleCookie 86400000 sampleListUsers
              sampleStore _ eq_refl) as (_ & _ & Hrows & _).
  destruct (Hrows _ eq_refl) as (Hactive & Hall & _).
  split; [exact Hactive|exact Hall].
Defined.

(* ===================================================================== *)
(** ** The user listing                                                  *)
(* ===================================================================== *)



(* ===================================================================== *)
(** ** Disabling and enabling a user                                     *)
(* ===================================================================== *)

(** X18. With a valid session and a service that accepts the update,
    disabling a user asks the service for a ban of 876000 hours, after
    which the listing shows the user as banned and the dashboard does not
    count the user as active, at any time within those hours; enabling asks
    for the ban to be lifted, after which the user is not banned at any
    time, whatever the ban was before.  Any other action is answered 400,
    asks the service for nothing, and leaves the user as it was. *)
Theorem PATCH_disable_enable env cookie now updateUserById (user : AuthUser) payload :
  Auth.getSession env (JsDate.epoch_seconds now) cookie = Some payload ->
  (forall ban_duration, updateUserById (auth_id user) ban_duration = None) ->
  let patch action :=
    PATCH env cookie now updateUserById (auth_id user) (Some action) in
  let disabled := after_patch now (patch (Some "disable")) user in
  let enabled := after_patch now (patch (Some "enable")) disabled in
  patch (Some "disable")
  = mkPatchResult (PatchSuccess "User disabled") (Some (auth_id user, "876000h"))
  /\ patch (Some "enable")
     = mkPatchResult (PatchSuccess "User enabled") (Some (auth_id user, "none"))
  /\ (forall t, now <= t < now + 876000 * 60 * 60 * 1000 ->
                isBanned t (auth_banned_until disabled) = true
                /\ isActive t disabled = false)
  /\ (forall t, isBanned t (auth_banned_until enabled) = false
                /\ isActive t enabled = true)
  /\ (forall action,
         action <> Some "disable" -> action <> Some "enable" ->
         patch action = mkPatchResult (PatchFailure 400 "Invalid action") None
         /\ after_patch now (patch action) user = user).
Proof.
  intros Hsession Hok patch disabled enabled.
  assert (Hdisable : patch (Some "disable")
                     = mkPatchResult (PatchSuccess "User disabled")
                                     (Some (auth_id user, "876000h"))).
  { unfold patch, PATCH. rewrite Hsession. cbn [action_is].
    replace (String.eqb "disable" "disable") with true by reflexivity.
    now rewrite Hok. }
  assert (Henable : patch (Some "enable")
                    = mkPatchResult (PatchSuccess "User enabled")
                                    (Some (auth_id user, "none"))).
  { unfold patch, PATCH. rewrite Hsession. cbn [action_is].
    replace (String.eqb "enable" "disable") with false by reflexivity.
    replace (String.eqb "enable" "enable") with true by reflexivity.
    now rewrite Hok. }
  split; [exact Hdisable|]. split; [exact Henable|].
  assert (Hd : auth_banned_until disabled = Some (now + 876000 * 60 * 60 * 1000)
               /\ auth_id disabled = auth_id user).
  { unfold disabled. rewrite Hdisable. unfold after_patch.
    cbn [patch_answer patch_update]. rewrite String.eqb_refl. split; reflexivity. }
  destruct Hd as [Hd Hid].
  assert (He : auth_banned_until enabled = None).
  { unfold enabled. rewrite Henable. unfold after_patch.
    cbn [patch_answer patch_update]. rewrite <- Hid, String.eqb_refl. reflexivity. }
  split; [|split].
  - intros t Ht. rewrite isActive_isBanned, Hd. cbn [isBanned].
    replace (t <? now + 876000 * 60 * 60 * 1000) with true
      by (symmetry; apply Z.ltb_lt; lia).
    split; reflexivity.
  - intros t. rewrite isActive_isBanned, He. split; reflexivity.
  - intros action Hnd Hne.
    assert (Hpatch : patch action = mkPatchResult (PatchFailure 400 "Invalid action") None).
    { unfold patch, PATCH. rewrite Hsession.
      destruct action as [a|]; cbn [action_is]; [|reflexivity].
      destruct (String.eqb a "disable") eqn:H1;
        [apply String.eqb_eq in H1; subst a; contradiction|].
      destruct (String.eqb a "enable") eqn:H2;
        [apply String.eqb_eq in H2; subst a; contradiction|].
      reflexivity. }
    split; [exact Hpatch|]. now rewrite Hpatch.
Qed.

(** An instance of X18: the first sample user, with a service that accepts
    every update. *)
Lemma PATCH_disable_enable_witness :
  let user := mkAuthUser "bob" (Some "bob@example.org") 90000000 None (Some 5000)
                         (Some "Bob B") None in
  let disable := PATCH None sampleCookie 86400000 (fun _ _ => None) "bob"
                       (Some (Some "disable")) in
  isBanned 86400000 (auth_banned_until user) = false
  /\ isBanned 86400000 (auth_banned_until (after_patch 86400000 disable user)) = true.
Proof.
  intros user disable. split; [reflexivity|].
  destruct (@PATCH_disable_enable None sampleCookie 86400000 (fun _ _ => None) user _
              eq_refl (fun _ => eq_refl)) as (_ & _ & Hbanned & _).
  apply (Hbanned 86400000). lia.
Defined.

(* ===================================================================== *)
(** ** The feedback inbox                                                *)
(* ===================================================================== *)

(** X19. In the feedback listing, the feedbacks are those the store
    returned for the range of the page and the type asked for, in number
    and order, each with a user name: a feedback without a user id shows
    its own name, or Anonymous when it has none, so never an empty one, and
    no avatar; a feedback with a user id shows the name and the avatar of
    that user's profile, or, when there is no single such profile or the
    profile has no name, the feedback's own name, be that missing.  The
    total is the count the store reports, 0 when it reports none. *)
Theorem GET_feedback_user_names env cookie now query store param_page param_limit
        param_type body :
  GET_feedback env cookie now query store param_page param_limit param_type
  = Status200 body ->
  let page := Js.parseInt (Js.str_or param_page "1") in
  let limit := Js.parseInt (Js.str_or param_limit "20") in
  let type :=
    match Js.str_or_null param_type with
    | Some t => if String.eqb t "all" then None else Some t
    | None => None
    end in
  exists rows count,
    query (num_mul (num_sub page (Js.Int 1)) limit)
          (num_sub (num_mul page limit) (Js.Int 1)) type
    = FeedbackRows rows count
    /\ map fb_feedback (feedbacks body) = match rows with Some l => l | None => [] end
    /\ feedback_total body = Js.or0 count
    /\ feedback_page body = page
    /\ feedback_limit body = limit
    /\ forall f,
        In f (feedbacks body) ->
        (Js.str_or_null (fb_user_id (fb_feedback f)) = None ->
         user_avatar f = None
         /\ exists n, user_name f = Some n /\ n <> EmptyString
                      /\ (fb_name (fb_feedback f) = Some n \/ n = "Anonymous"))
        /\ (forall id,
               Js.str_or_null (fb_user_id (fb_feedback f)) = Some id ->
               (forall p n,
                   single_profile store id = Some p ->
                   profile_name p = Some n -> n <> EmptyString ->
                   user_name f = Some n)
               /\ (forall p,
                      single_profile store id = Some p ->
                      profile_name p = None \/ profile_name p = Some EmptyString ->
                      user_name f = fb_name (fb_feedback f))
               /\ (forall p,
                      single_profile store id = Some p ->
                      user_avatar f = profile_avatar_url p)
               /\ (single_profile store id = None ->
                   user_name f = fb_name (fb_feedback f) /\ user_avatar f = None)).
Proof.
  intros H; intros page limit type. unfold GET_feedback in H.
  destruct (Auth.getSession env (JsDate.epoch_seconds now) cookie); [|discriminate].
  fold page limit type in H.
  destruct (query _ _ type) as [rows count|e]; [|discriminate].
  assert (Hbody : body = match Status200 body with
                         | Status200 b => b
                         | _ => body
                         end) by reflexivity.
  rewrite <- H in Hbody. rewrite Hbody.
  cbn [feedbacks feedback_total feedback_page feedback_limit].
  exists rows, count. split; [reflexivity|]. split.
  - rewrite map_map. unfold withUser.
    erewrite map_ext; [apply map_id|].
    intros a. destruct (Js.str_or_null (fb_user_id a)); reflexivity.
  - split; [reflexivity|]. split; [reflexivity|]. split; [reflexivity|].
    intros f Hin. apply in_map_iff in Hin. destruct Hin as (a & <- & _).
    unfold withUser.
    destruct (Js.str_or_null (fb_user_id a)) as [uid|] eqn:Hu;
      cbn [fb_feedback user_name user_avatar]; rewrite Hu.
    + split; [discriminate|]. intros id Hid. injection Hid as <-.
      split; [|split; [|split]].
      * intros p n Hp Hn Hne. rewrite Hp, Hn. unfold Js.str_or_null.
        destruct (String.eqb n EmptyString) eqn:He;
          [apply String.eqb_eq in He; contradiction|reflexivity].
      * intros p Hp [Hn|Hn]; rewrite Hp, Hn; reflexivity.
      * intros p Hp. rewrite Hp. reflexivity.
      * intros Hp. rewrite Hp. split; reflexivity.
    + split; [|discriminate]. intros _. split; [reflexivity|].
      unfold Js.str_or, Js.str_or_null.
      destruct (fb_name a) as [n|].
      * destruct (String.eqb n EmptyString) eqn:He.
        -- exists "Anonymous". split; [reflexivity|]. split; [discriminate|now right].
        -- apply String.eqb_neq in He. exists n. split; [reflexivity|].
           split; [exact He|now left].
      * exists "Anonymous". split; [reflexivity|]. split; [discriminate|now right].
Qed.

(** An instance of X19: an anonymous feedback without a name, one from the
    sample user ann, and one from bob, whose profile has no name. *)
Lemma GET_feedback_user_names_witness :
  exists body,
    GET_feedback None sampleCookie 0
                 (fun _ _ _ =>
                    FeedbackRows
                      (Some [mkFeedback "f1" None None "bug" 10;
                             mkFeedback "f2" (Some "ann") (Some "A.") "other" 5;
                             mkFeedback "f3" (Some "bob") (Some "B.") "other" 2])
                      (Some 3))
                 sampleStore None None None = Status200 body
    /\ map user_name (feedbacks body) = [Some "Anonymous"; Some "Ann"; Some "B."]
    /\ forall f, In f (feedbacks body) ->
                 fb_user_id (fb_feedback f) = None ->
                 exists n, user_name f = Some n /\ n <> EmptyString.
Proof.
  eexists. split; [reflexivity|]. split; [reflexivity|].
  intros f Hin Hnone.
  destruct (@GET_feedback_user_names None sampleCookie 0
              (fun _ _ _ =>
                 FeedbackRows
                   (Some [mkFeedback "f1" None None "bug" 10;
                          mkFeedback "f2" (Some "ann") (Some "A.") "other" 5;
                          mkFeedback "f3" (Some "bob") (Some "B.") "other" 2])
                   (Some 3))
              sampleStore None None None _ eq_refl)
    as (rows & count & _ & _ & _ & _ & _ & Hnames).
  destruct (Hnames f Hin) as [Hanon _].
  destruct Hanon as (_ & n & Hn & Hne & _); [now rewrite Hnone|].
  now exists n.
Defined.

(* ===================================================================== *)
(** ** The activity chart                                                *)
(* ===================================================================== *)

Lemma pad_check_year :
  all_from 14 0 (fun y => (10000 <=? y) || pad_check 4 y) = true.
Proof. vm_compute. reflexivity. Qed.

Lemma pad_check_field : all_from 5 0 (pad_check 2) = true.
Proof. vm_compute. reflexivity. Qed.

Lemma pad_year (y : Z) :
  0 <= y <= 9999 ->
  String.length (JsDate.pad 4 y) = 4%nat /\ Js.parseInt (JsDate.pad 4 y) = Js.Int y.
Proof.
  intros Hy.
  pose proof (@all_from_true 14 _ 0 pad_check_year y) as H. cbv beta in H.
  replace (10000 <=? y) with false in H by (symmetry; apply Z.leb_gt; lia).
  cbn [orb] in H. unfold pad_check in H.
  specialize (H ltac:(change (2 ^ Z.of_nat 14) with 16384; lia)).
  apply andb_true_iff in H. destruct H as [Hlen Hparse].
  apply Nat.eqb_eq in Hlen. split; [exact Hlen|].
  destruct (Js.parseInt (JsDate.pad 4 y)) as [|v]; [discriminate|].
  apply Z.eqb_eq in Hparse. now subst v.
Qed.

Lemma pad_field (n : Z) :
  0 <= n <= 31 ->
  String.length (JsDate.pad 2 n) = 2%nat /\ Js.parseInt (JsDate.pad 2 n) = Js.Int n.
Proof.
  intros Hn.
  pose proof (@all_from_true 5 _ 0 pad_check_field n) as H.
  unfold pad_check in H.
  specialize (H ltac:(change (2 ^ Z.of_nat 5) with 32; lia)).
  apply andb_true_iff in H. destruct H as [Hlen Hparse].
  apply Nat.eqb_eq in Hlen. split; [exact Hlen|].
  destruct (Js.parseInt (JsDate.pad 2 n)) as [|v]; [discriminate|].
  apply Z.eqb_eq in Hparse. now subst v.
Qed.

Lemma append_inj_length (a a' b b' : string) :
  String.length a = String.length a' ->
  (a ++ b = a' ++ b')%string -> a = a' /\ b = b'.
Proof.
  revert a'. induction a as [|c a IH]; intros [|c' a'] Hlen H; try discriminate.
  - now split.
  - simpl in Hlen, H. injection H as Hc Hr. injection Hlen as Hlen.
    destruct (IH a' Hlen Hr) as [-> ->]. now subst c'.
Qed.

(** The year of a day between the epoch, less a week, and the year 5000. *)
Lemma civil_year_bounds (n : Z) :
  -7 <= n <= 1157408 ->
  let '(y, m, d) := JsDate.civil_from_days n in
  0 <= y <= 9999 /\ 1 <= m <= 12 /\ 1 <= d <= 31.
Proof.
  intros Hn.
  destruct (civil_from_days_era n) as [Hdoe Hcivil]. cbv zeta in Hdoe, Hcivil.
  set (z := n + 719468) in *. set (era := z / 146097) in *.
  set (doe := z - era * 146097) in *.
  pose proof (civil_check_doe Hdoe) as Hcheck. unfold civil_check in Hcheck.
  rewrite Hcivil.
  destruct (civil_of_doe doe) as [[yoe m] d] eqn:Hc.
  cbv beta iota in Hcheck.
  destruct (civil_of_doe (doe - d + 1)) as [[yoe1 m1] d1] eqn:Hc1.
  cbv beta iota in Hcheck.
  repeat match goal with
         | H : (_ && _) = true |- _ => apply andb_true_iff in H; destruct H
         end.
  repeat match goal with
         | H : (_ <=? _) = true |- _ => apply Z.leb_le in H
         | H : (_ =? _) = true |- _ => apply Z.eqb_eq in H
         end.
  assert (4 <= era <= 12).
  { subst era z. split.
    - apply Z.div_le_lower_bound; lia.
    - apply Z.lt_succ_r. apply Z.div_lt_upper_bound; lia. }
  destruct (m <=? 2); lia.
Qed.

(** Within those years, two instants with the same date text are of the
    same day. *)
Lemma toISOString_date_inj (t t' : Timestamp) :
  -7 <= JsDate.Day t <= 1157408 -> -7 <= JsDate.Day t' <= 1157408 ->
  JsDate.toISOString_date t = JsDate.toISOString_date t' ->
  JsDate.Day t = JsDate.Day t'.
Proof.
  intros Ht Ht' Heq. unfold JsDate.toISOString_date in Heq.
  pose proof (civil_year_bounds Ht) as Hb.
  pose proof (civil_year_bounds Ht') as Hb'.
  pose proof (civil_from_days_round_trip (JsDate.Day t)) as Hrt.
  pose proof (civil_from_days_round_trip (JsDate.Day t')) as Hrt'.
  destruct (JsDate.civil_from_days (JsDate.Day t)) as [[y m] d].
  destruct (JsDate.civil_from_days (JsDate.Day t')) as [[y' m'] d'].
  destruct Hb as (Hy & Hm & Hd). destruct Hb' as (Hy' & Hm' & Hd').
  replace ((0 <=? y) && (y <=? 9999)) with true in Heq
    by (symmetry; apply andb_true_iff; split; apply Z.leb_le; lia).
  replace ((0 <=? y') && (y' <=? 9999)) with true in Heq
    by (symmetry; apply andb_true_iff; split; apply Z.leb_le; lia).
  destruct (pad_year Hy) as [Hly Hpy]. destruct (pad_year Hy') as [Hly' Hpy'].
  destruct (@pad_field m ltac:(lia)) as [Hlm Hpm].
  destruct (@pad_field m' ltac:(lia)) as [Hlm' Hpm'].
  destruct (@pad_field d ltac:(lia)) as [Hld Hpd].
  destruct (@pad_field d' ltac:(lia)) as [Hld' Hpd'].
  apply append_inj_length in Heq; [|congruence]. destruct Heq as [Hyy Hrest].
  cbn [String.append] in Hrest. injection Hrest as Hrest.
  apply append_inj_length in Hrest; [|congruence]. destruct Hrest as [Hmm Hrest].
  cbn [String.append] in Hrest. injection Hrest as Hdd.
  assert (y = y') by (rewrite Hyy in Hpy; congruence).
  assert (m = m') by (rewrite Hmm in Hpm; congruence).
  assert (d = d') by (rewrite Hdd in Hpd; congruence).
  subst y' m' d'.
  destruct Hrt as (_ & _ & <- & _). destruct Hrt' as (_ & _ & <- & _). reflexivity.
Qed.

Lemma Day_shift (t k : Z) : JsDate.Day (t - k * JsDate.msPerDay) = JsDate.Day t - k.
Proof.
  unfold JsDate.Day, JsDate.msPerDay.
  replace (t - k * 86400000) with (t + (- k) * 86400000) by lia.
  rewrite Z.div_add by lia. lia.
Qed.

Lemma chartDays_eq (now : Timestamp) :
  chartDays now
  = map (fun i => JsDate.toISOString_date (now - i * JsDate.msPerDay)) [6; 5; 4; 3; 2; 1; 0].
Proof.
  unfold chartDays. apply map_ext. intros i.
  replace (JsDate.getDate now - i) with (JsDate.getDate now + (- i)) by lia.
  rewrite setDate_shift. f_equal. lia.
Qed.

Section ChartFacts.
Variable V : Type.

Lemma set_fresh (m : Js.JsMap V) (k : string) (v : V) :
  ~ In k (Js.keys m) -> Js.set m k v = m ++ [(k, v)].
Proof.
  unfold Js.keys. induction m as [|[k' v'] r IH]; simpl; intros Hn; [reflexivity|].
  destruct (String.eqb k' k) eqn:Hk.
  - apply String.eqb_eq in Hk. tauto.
  - rewrite IH by tauto. reflexivity.
Qed.

Lemma fold_set_fresh (v : V) (ks : list string) :
  NoDup ks ->
  forall m : Js.JsMap V,
    (forall k, In k ks -> ~ In k (Js.keys m)) ->
    fold_left (fun o key => Js.set o key v) ks m = m ++ map (fun k => (k, v)) ks.
Proof.
  induction 1 as [|k ks Hk Hnd IH]; intros m Hm; simpl.
  - now rewrite app_nil_r.
  - rewrite IH.
    + rewrite set_fresh by (apply Hm; now left). now rewrite <- app_assoc.
    + intros u Hu. rewrite keys_set. intros [->|Hin]; [contradiction|].
      apply (Hm u); [now right|exact Hin].
Qed.

Lemma get_tabulated (c : string -> V) (ks : list string) (d : string) :
  In d ks -> Js.get (map (fun k => (k, c k)) ks) d = Some (c d).
Proof.
  induction ks as [|k r IH]; simpl; intros Hin; [contradiction|].
  destruct (String.eqb k d) eqn:Hk.
  - apply String.eqb_eq in Hk. now subst k.
  - apply IH. destruct Hin as [->|Hin]; [|exact Hin].
    rewrite String.eqb_refl in Hk. discriminate.
Qed.

Lemma set_tabulated (c : string -> V) (ks : list string) (d : string) (v : V) :
  NoDup ks -> In d ks ->
  Js.set (map (fun k => (k, c k)) ks) d v
  = map (fun k => (k, if String.eqb k d then v else c k)) ks.
Proof.
  induction 1 as [|k r Hk Hnd IH]; simpl; intros Hin; [contradiction|].
  destruct (String.eqb k d) eqn:Hkd.
  - apply String.eqb_eq in Hkd. subst k. f_equal.
    apply map_ext_in. intros u Hu.
    destruct (String.eqb u d) eqn:Hud; [|reflexivity].
    apply String.eqb_eq in Hud. now subst u.
  - f_equal. apply IH. destruct Hin as [->|Hin]; [|exact Hin].
    rewrite String.eqb_refl in Hkd. discriminate.
Qed.
End ChartFacts.

(** The counting loop adds, to each day of the chart, the sessions of that
    day. *)
Lemma activity_counts (ks : list string) :
  NoDup ks ->
  forall (rows : list SessionRow) (c : string -> Z),
    fold_left
      (fun o s =>
         let day := created_day s in
         match Js.get o day with
         | Some count => Js.set o day (count + 1)
         | None => o
         end)
      rows (map (fun k => (k, c k)) ks)
    = map (fun k => (k, c k + Z.of_nat (length (filter (fun s => String.eqb (created_day s) k)
                                                        rows))))
          ks.
Proof.
  intros Hnd. induction rows as [|s r IH]; intros c.
  - simpl. apply map_ext. intros k. f_equal. lia.
  - cbn [fold_left]. cbv zeta.
    destruct (in_dec string_dec (created_day s) ks) as [Hin|Hout].
    + rewrite (@get_tabulated _ c _ _ Hin), (@set_tabulated _ c _ _ _ Hnd Hin), IH.
      apply map_ext. intros k. f_equal. cbn [filter].
      rewrite (String.eqb_sym (created_day s) k).
      destruct (String.eqb k (created_day s)) eqn:Hk.
      * apply String.eqb_eq in Hk. subst k. cbn [length]. lia.
      * lia.
    + rewrite get_None by (unfold Js.keys; rewrite map_map; cbn [fst]; now rewrite map_id).
      rewrite IH. apply map_ext_in. intros k Hk. f_equal. cbn [filter].
      destruct (String.eqb (created_day s) k) eqn:Hsk; [|reflexivity].
      apply String.eqb_eq in Hsk. subst k. contradiction.
Qed.

Lemma map_NoDup_in (A B : Type) (f : A -> B) (l : list A) :
  (forall x y, In x l -> In y l -> f x = f y -> x = y) ->
  NoDup l -> NoDup (map f l).
Proof.
  intros Hinj Hnd. induction Hnd as [|a l Ha Hnd IH]; simpl; constructor.
  - rewrite in_map_iff. intros (x & Hfx & Hx).
    apply Ha. rewrite (Hinj a x); [exact Hx|now left|now right|now symmetry].
  - apply IH. intros x y Hx Hy. apply Hinj; now right.
Qed.

(** Until the year 5000 the seven days of the chart have seven different
    texts. *)
Lemma chartDays_NoDup (now : Timestamp) :
  0 <= now < 100000000000000 -> NoDup (chartDays now).
Proof.
  intros Hnow. rewrite chartDays_eq.
  assert (Hday : 0 <= JsDate.Day now <= 1157407).
  { unfold JsDate.Day, JsDate.msPerDay. split.
    - apply Z.div_pos; lia.
    - apply Z.lt_succ_r. apply Z.div_lt_upper_bound; lia. }
  apply map_NoDup_in.
  - intros i j Hi Hj Heq.
    apply toISOString_date_inj in Heq.
    + rewrite !Day_shift in Heq. lia.
    + rewrite Day_shift. simpl in Hi. lia.
    + rewrite Day_shift. simpl in Hj. lia.
  - repeat constructor; simpl; intuition lia.
Qed.

Lemma activityByDay_eq (now : Timestamp) (recent : option (list SessionRow)) :
  0 <= now < 100000000000000 ->
  activityByDay now recent
  = map (fun k => (k, Z.of_nat (length (filter (fun s => String.eqb (created_day s) k)
                                               (match recent with
                                                | Some rows => rows
                                                | None => []
                                                end)))))
        (chartDays now).
Proof.
  intros Hnow. pose proof (@chartDays_NoDup now Hnow) as Hnd.
  unfold activityByDay. cbv zeta.
  rewrite (@fold_set_fresh _ 0 _ Hnd) by (intros k _ []).
  cbn [app]. destruct recent as [rows|].
  - exact (@activity_counts _ Hnd rows (fun _ => 0)).
  - reflexivity.
Qed.

(** X20. Until the year 5000 the activity chart of the dashboard has exactly
    seven entries, for the seven days that end today, oldest first, under
    seven different dates; the number beside a date is the number of work
    sessions of the last seven times 24 hours whose creation date is that
    date. *)
Theorem GET_dashboard_chart env cookie now listUsers store body :
  0 <= now < 100000000000000 ->
  GET_dashboard env cookie now listUsers store = Status200 body ->
  activityChart body
  = map (fun i =>
           let date := JsDate.toISOString_date (now - i * JsDate.msPerDay) in
           (date,
            Z.of_nat (length (filter (fun s => String.eqb (created_day s) date)
                                     (recentWorkSessions now store)))))
        [6; 5; 4; 3; 2; 1; 0]
  /\ NoDup (Js.keys (activityChart body)).
Proof.
  intros Hnow H.
  destruct (GET_dashboard_Status200 _ _ _ _ _ H) as (authData & _ & _ & Hbody).
  assert (Hchart : activityChart body
                   = map (fun k => (k, Z.of_nat (length (filter (fun s => String.eqb (created_day s) k)
                                                                (recentWorkSessions now store)))))
                         (chartDays now)).
  { rewrite Hbody. cbn [activityChart]. rewrite (activityByDay_eq _ Hnow).
    unfold recentWorkSessions, table_rows, data.
    destruct (select _ (sessions store)); reflexivity. }
  split.
  - rewrite Hchart, chartDays_eq, map_map. reflexivity.
  - rewrite Hchart. unfold Js.keys. rewrite map_map. cbn [fst]. rewrite map_id.
    now apply chartDays_NoDup.
Qed.

Lemma GET_dashboard_chart_witness :
  exists body,
    GET_dashboard None sampleCookie 86400000 sampleListUsers sampleStore = Status200 body
    /\ activityChart body
       = [("1969-12-27", 0); ("1969-12-28", 0); ("1969-12-29", 0); ("1969-12-30", 0);
          ("1969-12-31", 0); ("1970-01-01", 5); ("1970-01-02", 0)].
Proof.
  eexists. split; [reflexivity|].
  destruct (@GET_dashboard_chart None sampleCookie 86400000 sampleListUsers sampleStore _
              ltac:(lia) eq_refl) as [Hchart _].
  exact Hchart.
Defined.

(* ===================================================================== *)
(** ** Ties                                                              *)
(* ===================================================================== *)

Section SortStable.
Variable A : Type.
Variable cmp : A -> A -> Z.
Variable key : A -> Z.
Hypothesis cmp_key : forall a b, cmp a b = key b - key a.

Lemma insert_filter_key (v : Z) (x : A) (l : list A) :
  filter (fun a => key a =? v) (Js.insert cmp x l)
  = filter (fun a => key a =? v) (x :: l).
Proof.
  induction l as [|y r IH]; [reflexivity|].
  cbn [Js.insert]. destruct (cmp x y <=? 0) eqn:Hxy; [reflexivity|].
  apply Z.leb_gt in Hxy. rewrite cmp_key in Hxy.
  cbn [filter] in *. rewrite IH.
  destruct (key x =? v) eqn:Hx; destruct (key y =? v) eqn:Hy; try reflexivity.
  apply Z.eqb_eq in Hx, Hy. lia.
Qed.

(** The sort is stable: the elements of one key keep their order. *)
Lemma sort_filter_key (v : Z) (l : list A) :
  filter (fun a => key a =? v) (Js.sort cmp l) = filter (fun a => key a =? v) l.
Proof.
  induction l as [|x r IH]; [reflexivity|].
  cbn [Js.sort]. rewrite insert_filter_key. cbn [filter]. now rewrite IH.
Qed.
End SortStable.

Lemma filter_map_swap (A B : Type) (f : A -> B) (p : B -> bool) (l : list A) :
  filter p (map f l) = map f (filter (fun a => p (f a)) l).
Proof.
  induction l as [|a r IH]; simpl; [reflexivity|].
  rewrite IH. destruct (p (f a)); reflexivity.
Qed.

Lemma filter_erased (metric : Metric) (v : Z) (l l' : list Entry) :
  map (fun e => with_rank e 0) l = map (fun e => with_rank e 0) l' ->
  map user_id (filter (fun e => currentValue metric e =? v) l)
  = map user_id (filter (fun e => currentValue metric e =? v) l').
Proof.
  revert l'. induction l as [|e r IH]; intros [|e' r'] H; try discriminate; [reflexivity|].
  simpl in H. injection H as Hu Hn Ha Hf Ht Hc Hr.
  assert (Hv : currentValue metric e = currentValue metric e').
  { unfold currentValue. now rewrite Hf, Ht, Hc. }
  cbn [filter]. rewrite Hv. destruct (currentValue metric e' =? v); cbn [map].
  - rewrite Hu. f_equal. now apply IH.
  - now apply IH.
Qed.

(** X21. Ties keep the order of first appearance.  For one of the three
    metrics, the users of the whole leaderboard (before pagination) that
    share a value of the metric stand in the order of the list of user ids
    the route collected: the users with a session, then those with a
    completed task, then those with a streak row, each in the order its map
    was filled. *)
Theorem GET_ties_keep_order env cookie now param_period param_metric param_limit
        param_offset store body :
  GET env cookie now param_period param_metric param_limit param_offset store
  = Status200 body ->
  In (body_metric body) ["focus_time"; "tasks"; "streak"] ->
  let limit := Js.parseInt (Js.str_or param_limit "100") in
  let offset := Js.parseInt (Js.str_or param_offset "0") in
  let start := getDateRange now (body_period body) in
  exists (full : list Entry) (sessions : list SessionRow) (tasks : list TaskRow),
    sessionsQuery start store = Rows sessions
    /\ tasksQuery start store = Rows tasks
    /\ body_total body = Z.of_nat (length full)
    /\ body_entries body = Js.slice full offset (Js.add offset limit)
    /\ forall v,
        let focus := focusTimeMap sessions in
        let done := tasksMap tasks in
        let streak := streakMap (data (streaks store)) in
        map user_id (filter (fun e => currentValue (body_metric body) e =? v) full)
        = filter (fun u => currentValue (body_metric body)
                             (buildEntry (profilesMap (data (profiles store)))
                                         focus done streak u) =? v)
                 (userIds focus done streak).
Proof.
  intros H Hvalid; intros limit offset start. apply GET_Status200 in H.
  destruct H as (sessions & tasks & Hs & Ht & ->).
  cbn [body_metric body_entries body_total body_period] in *.
  set (metric := Js.str_or param_metric "focus_time") in *.
  eexists. exists sessions, tasks.
  split; [exact Hs|]. split; [exact Ht|].
  split; [reflexivity|]. split; [reflexivity|].
  intros v. unfold rankedEntries.
  set (focus := focusTimeMap sessions). set (done := tasksMap tasks).
  set (streak := streakMap (data (streaks store))).
  rewrite (@filter_erased metric v _ (sortEntries metric
             (buildEntries (profilesMap (data (profiles store))) focus done streak))).
  - unfold sortEntries.
    rewrite (@sort_filter_key _ _ _ (@comparator_valid metric Hvalid)).
    unfold buildEntries. rewrite filter_map_swap, map_map. cbn [buildEntry user_id].
    apply map_id.
  - unfold assignRanks. apply assignRanks_from_erase.
Qed.

Lemma GET_ties_keep_order_witness :
  exists full : list Entry,
    5 = Z.of_nat (length full)
    /\ map user_id (filter (fun e => tasks_completed e =? 0) full) = ["ann"; "cid"; "eve"].
Proof.
  destruct (@GET_ties_keep_order None sampleCookie 0 None (Some "tasks") None None
              sampleStore _ eq_refl)
    as (full & sessions & tasks & Hs & Ht & Htotal & _ & Hties).
  - simpl. auto.
  - vm_compute in Hs. injection Hs as <-. vm_compute in Ht. injection Ht as <-.
    exists full. split; [exact Htotal|].
    etransitivity; [exact (Hties 0)|]. vm_compute. reflexivity.
Defined.


(* ===================================================================== *)
(** ** What the page shows                                               *)
(* ===================================================================== *)

Lemma all_digits_uint (d : Decimal.uint) :
  all_digits (NilEmpty.string_of_uint d) = true.
Proof. induction d; simpl; auto. Qed.

Lemma all_digits_decimal (n : Z) : 0 <= n -> all_digits (decimal n) = true.
Proof.
  intros Hn. unfold decimal. destruct n as [|p|p]; [reflexivity| |lia].
  cbn [Z.to_int NilZero.string_of_int]. unfold NilZero.string_of_uint.
  destruct (Pos.to_uint p); try reflexivity; apply all_digits_uint.
Qed.

Lemma decimal_inj (a b : Z) : decimal a = decimal b -> a = b.
Proof.
  intros H. pose proof (parseInt_decimal a) as Ha. rewrite H, parseInt_decimal in Ha.
  now injection Ha.
Qed.

(** A run of digits ends where the first other character stands. *)
Lemma digits_split (a a' s s' : string) :
  all_digits a = true -> all_digits a' = true ->
  no_digit_ahead s = true -> no_digit_ahead s' = true ->
  (a ++ s = a' ++ s')%string -> a = a' /\ s = s'.
Proof.
  revert a'. induction a as [|c a IH]; intros [|c' a'] Ha Ha' Hs Hs' H.
  - now split.
  - simpl in H. subst s. simpl in Ha', Hs.
    apply andb_true_iff in Ha'. destruct Ha' as [Hc _]. rewrite Hc in Hs. discriminate.
  - simpl in H. subst s'. simpl in Ha, Hs'.
    apply andb_true_iff in Ha. destruct Ha as [Hc _]. rewrite Hc in Hs'. discriminate.
  - simpl in H. injection H as Hc Hr. simpl in Ha, Ha'.
    apply andb_true_iff in Ha, Ha'. destruct Ha as [_ Ha]. destruct Ha' as [_ Ha'].
    destruct (IH a' Ha Ha' Hs Hs' Hr) as [-> ->]. now subst c'.
Qed.

Lemma decimal_suffix_inj (a b : Z) (s : string) :
  0 <= a -> 0 <= b -> no_digit_ahead s = true ->
  (decimal a ++ s = decimal b ++ s)%string -> a = b.
Proof.
  intros Ha Hb Hs H.
  apply digits_split in H;
    [|now apply all_digits_decimal|now apply all_digits_decimal|exact Hs|exact Hs].
  destruct H as [H _]. now apply decimal_inj.
Qed.

(** Of a time that is not negative, [formatTime] loses nothing. *)
Lemma formatTime_inj (m m' : Z) :
  0 <= m -> 0 <= m' -> formatTime m = formatTime m' -> m = m'.
Proof.
  intros Hm Hm'. unfold formatTime, Js.floor_div60.
  rewrite !Z.rem_mod_nonneg by lia.
  pose proof (Z.div_mod m 60 ltac:(lia)) as Hdm.
  pose proof (Z.div_mod m' 60 ltac:(lia)) as Hdm'.
  pose proof (Z.mod_pos_bound m 60 ltac:(lia)) as Hr.
  pose proof (Z.mod_pos_bound m' 60 ltac:(lia)) as Hr'.
  assert (Hh : 0 <= m / 60) by (apply Z.div_pos; lia).
  assert (Hh' : 0 <= m' / 60) by (apply Z.div_pos; lia).
  set (h := m / 60) in *. set (h' := m' / 60) in *.
  set (r := m mod 60) in *. set (r' := m' mod 60) in *.
  cbv zeta.
  destruct (0 <? h) eqn:Hpos; destruct (0 <? h') eqn:Hpos'; intros H.
  - apply digits_split in H;
      [|now apply all_digits_decimal|now apply all_digits_decimal|reflexivity|reflexivity].
    destruct H as [Hhh Hrest]. apply decimal_inj in Hhh.
    cbn [String.append] in Hrest. injection Hrest as Hrest.
    apply decimal_suffix_inj in Hrest; [lia|lia|lia|reflexivity].
  - apply digits_split in H;
      [|now apply all_digits_decimal|now apply all_digits_decimal|reflexivity|reflexivity].
    destruct H as [_ H]. discriminate H.
  - apply digits_split in H;
      [|now apply all_digits_decimal|now apply all_digits_decimal|reflexivity|reflexivity].
    destruct H as [_ H]. discriminate H.
  - apply Z.ltb_ge in Hpos, Hpos'.
    apply decimal_suffix_inj in H; [lia|lia|lia|reflexivity].
Qed.

Lemma formatValue_inj (metric : Metric) (e e' : Entry) :
  In metric ["focus_time"; "tasks"; "streak"] ->
  0 <= currentValue metric e -> 0 <= currentValue metric e' ->
  formatValue e metric = formatValue e' metric ->
  currentValue metric e = currentValue metric e'.
Proof.
  intros Hin. simpl in Hin.
  destruct Hin as [<-|[<-|[<-|[]]]]; unfold formatValue, currentValue; simpl;
    intros He He' H; injection H as H.
  - now apply formatTime_inj.
  - now apply decimal_suffix_inj in H.
  - now apply decimal_suffix_inj in H.
Qed.

Lemma formatValue_value (metric : Metric) (e e' : Entry) :
  currentValue metric e = currentValue metric e' ->
  formatValue e metric = formatValue e' metric.
Proof.
  unfold formatValue, currentValue.
  destruct (String.eqb metric "focus_time"); [now intros ->|].
  destruct (String.eqb metric "tasks"); [now intros ->|].
  destruct (String.eqb metric "streak"); [now intros ->|reflexivity].
Qed.

Lemma count_greater_le f (v v' : Z) (l : list Entry) :
  v <= v' -> count_greater f v' l <= count_greater f v l.
Proof.
  intros Hv. unfold count_greater. apply inj_le.
  induction l as [|x r IH]; simpl; [lia|].
  destruct (v' <? f x) eqn:H'; destruct (v <? f x) eqn:H; simpl; lia.
Qed.

Lemma count_greater_lt f (v : Z) (e' : Entry) (l : list Entry) :
  In e' l -> v < f e' -> count_greater f (f e') l < count_greater f v l.
Proof.
  intros Hin Hv. induction l as [|x r IH]; [contradiction|].
  pose proof (@count_greater_le f v (f e') r ltac:(lia)) as Hle.
  unfold count_greater in *. cbn [filter].
  destruct Hin as [->|Hin].
  - rewrite Z.ltb_irrefl. apply Z.ltb_lt in Hv. rewrite Hv. cbn [length]. lia.
  - specialize (IH Hin).
    destruct (f e' <? f x) eqn:H'; destruct (v <? f x) eqn:H; cbn [length]; lia.
Qed.

(** On the whole leaderboard, two entries have the same rank exactly when
    they have the same value. *)
Lemma rankedEntries_rank_value (metric : Metric) profiles sessions tasks streaks e e' :
  In metric ["focus_time"; "tasks"; "streak"] ->
  let full := rankedEntries metric profiles sessions tasks streaks in
  In e full -> In e' full ->
  (rank e = rank e' <-> currentValue metric e = currentValue metric e').
Proof.
  intros Hvalid full He He'.
  assert (Hrank : forall x, In x full ->
                            rank x = 1 + count_greater (currentValue metric)
                                                       (currentValue metric x) full).
  { intros x Hx. subst full. unfold rankedEntries in *.
    set (sorted := sortEntries metric _) in *.
    assert (Hsorted : non_increasing (map (currentValue metric) sorted)).
    { apply sort_non_increasing. now apply comparator_valid. }
    rewrite (count_greater_map _ _ (assignRanks metric sorted) sorted)
      by (apply assignRanks_map; intros; apply currentValue_with_rank).
    rewrite (@assignRanks_counts_greater metric sorted Hsorted) in Hx.
    apply in_map_iff in Hx. destruct Hx as (e0 & <- & _).
    rewrite currentValue_with_rank. reflexivity. }
  rewrite (Hrank e He), (Hrank e' He'). split.
  - intros Heq.
    destruct (Z.lt_trichotomy (currentValue metric e) (currentValue metric e'))
      as [Hlt|[Heqv|Hgt]]; [|exact Heqv|].
    + pose proof (@count_greater_lt (currentValue metric) _ e' full He' Hlt). lia.
    + pose proof (@count_greater_lt (currentValue metric) _ e full He Hgt). lia.
  - now intros ->.
Qed.

(** X22. What the leaderboard page shows tells the rank: for one of the
    three metrics, every returned entry has a text for its value, and two
    returned entries whose values are not negative are shown with the same
    text exactly when they carry the same rank. *)
Theorem formatValue_tells_rank env cookie now param_period param_metric param_limit
        param_offset store body :
  GET env cookie now param_period param_metric param_limit param_offset store
  = Status200 body ->
  In (body_metric body) ["focus_time"; "tasks"; "streak"] ->
  forall e e',
    In e (body_entries body) -> In e' (body_entries body) ->
    (exists text, formatValue e (body_metric body) = Some text)
    /\ (0 <= currentValue (body_metric body) e ->
        0 <= currentValue (body_metric body) e' ->
        (formatValue e (body_metric body) = formatValue e' (body_metric body)
         <-> rank e = rank e')).
Proof.
  intros H Hvalid e e' He He'. apply GET_Status200 in H.
  destruct H as (sessions & tasks & _ & _ & ->).
  cbn [body_metric body_entries] in *.
  set (metric := Js.str_or param_metric "focus_time") in *.
  apply slice_In in He, He'. split.
  - clearbody metric. simpl in Hvalid.
    destruct Hvalid as [<-|[<-|[<-|[]]]]; eexists; reflexivity.
  - intros Hv Hv'.
    rewrite (@rankedEntries_rank_value metric _ _ _ _ e e' Hvalid He He').
    split; [now apply formatValue_inj|apply formatValue_value].
Qed.

Lemma formatValue_tells_rank_witness :
  exists body,
    GET None sampleCookie 0 None None None None sampleStore = Status200 body
    /\ forall e e',
        In e (body_entries body) -> In e' (body_entries body) ->
        0 <= focus_time_minutes e -> 0 <= focus_time_minutes e' ->
        (formatValue e "focus_time" = formatValue e' "focus_time" <-> rank e = rank e').
Proof.
  eexists. split; [reflexivity|]. intros e e' He He'.
  destruct (@formatValue_tells_rank None sampleCookie 0 None None None None sampleStore
              _ eq_refl ltac:(simpl; auto) e e' He He') as [_ H].
  exact H.
Defined.
